(** * Crypto and DeFi tool wrappers of dexter: a shallow embedding

    The development embeds [src/tools/crypto/api.ts] (the API client), the
    DeFi tools of [src/tools/crypto/defi.ts] and the market tools that follow
    them, and proves properties of the values these tools hand back.

    The tools are TypeScript over [any]-typed JSON, so the embedding is a
    small fragment of JavaScript over JSON values:

    - a JSON value is a [value]; objects are association lists that list the
      own properties in enumeration order;
    - a Number is a [Num.t]: NaN, an infinity, or the rational a finite
      double stands for exactly.  [toFixed] works on that exact value, as
      ECMAScript defines it: the rounded decimal digits below [10^21], the
      shortest digits of the nearest double, with an exponent, from there
      on.  Arithmetic on finite numbers is exact: the rounding and the
      overflow of IEEE doubles are not part of the model, and neither is
      the sign of zero.  No statement below depends on the digits an
      arithmetic expression produces; the figures of the examples are
      exact in doubles as well;
    - an integer has its own digits as text up to [2^53] in magnitude, the
      bound below which every integer is a double;
    - a string is a [string] holding the UTF-8 bytes of the text.  A text
      with a lone surrogate has no such bytes: the statements about the
      encoding of URLs are for the strings that are UTF-8 ([well_formed]);
    - an evaluation ends in [Ok v], in [Throw e] (a JavaScript exception) or
      in [Unmodelled], which marks the coercions the embedding leaves out
      (string to number parsing, the coercion to a number of a list or of
      an object without a property [toString], [Date.parse], case mapping
      outside ASCII, the decimal expansion of a number that is not an
      integer, ...).  An object of JSON with a property [toString] cannot
      be coerced at all: the property hides the method, and the coercion
      throws a [TypeError]. *)

From Stdlib Require Import ZArith QArith Qround Qabs List String Ascii Bool Lia Lqa.
From Stdlib Require Import Sorted Permutation DecimalString DecimalN.
Import ListNotations.
Open Scope Z_scope.
Open Scope string_scope.

Set Implicit Arguments.
Set Warnings "-register-all".

(** ** Numbers *)

Module Num.

Inductive t : Type :=
| NaN
| PInf
| NInf
| Fin (q : Q).

Definition of_Z (z : Z) : t := Fin (inject_Z z).
Definition of_nat (n : nat) : t := of_Z (Z.of_nat n).

Definition Qis_zero (q : Q) : bool := Qeq_bool q 0.
Definition Qis_neg (q : Q) : bool := negb (Qle_bool 0 q).
Definition Qis_pos (q : Q) : bool := negb (Qle_bool q 0).

Definition neg (a : t) : t :=
  match a with
  | NaN => NaN
  | PInf => NInf
  | NInf => PInf
  | Fin q => Fin (- q)
  end.

(** [a + b] on Numbers. *)
Definition add (a b : t) : t :=
  match a, b with
  | NaN, _ | _, NaN => NaN
  | PInf, NInf | NInf, PInf => NaN
  | PInf, _ | _, PInf => PInf
  | NInf, _ | _, NInf => NInf
  | Fin x, Fin y => Fin (x + y)
  end.

(** [a - b]. *)
Definition sub (a b : t) : t := add a (neg b).

(** The infinity whose sign is that of a product or quotient of an infinity
    with the finite [q]; NaN when [q] is zero ([Infinity * 0]). *)
Definition inf_signed (positive : bool) (q : Q) : t :=
  if Qis_zero q then NaN
  else if Bool.eqb positive (Qis_pos q) then PInf else NInf.

(** [a * b]. *)
Definition mul (a b : t) : t :=
  match a, b with
  | NaN, _ | _, NaN => NaN
  | PInf, PInf | NInf, NInf => PInf
  | PInf, NInf | NInf, PInf => NInf
  | PInf, Fin q | Fin q, PInf => inf_signed true q
  | NInf, Fin q | Fin q, NInf => inf_signed false q
  | Fin x, Fin y => Fin (x * y)
  end.

(** [a / b]: a finite number over zero is an infinity (or NaN for [0 / 0]),
    a finite number over an infinity is zero. *)
Definition div (a b : t) : t :=
  match a, b with
  | NaN, _ | _, NaN => NaN
  | (PInf | NInf), (PInf | NInf) => NaN
  | PInf, Fin q => if Qis_neg q then NInf else PInf
  | NInf, Fin q => if Qis_neg q then PInf else NInf
  | Fin _, (PInf | NInf) => Fin 0
  | Fin x, Fin y =>
      if Qis_zero y then
        (if Qis_zero x then NaN else if Qis_pos x then PInf else NInf)
      else Fin (x / y)
  end.

(** [a > b]; false as soon as one side is NaN. *)
Definition gt (a b : t) : bool :=
  match a, b with
  | NaN, _ | _, NaN => false
  | PInf, PInf => false
  | PInf, _ => true
  | _, PInf => false
  | NInf, _ => false
  | Fin _, NInf => true
  | Fin x, Fin y => negb (Qle_bool x y)
  end.

(** [a >= b]. *)
Definition ge (a b : t) : bool :=
  match a, b with
  | NaN, _ | _, NaN => false
  | PInf, _ => true
  | _, NInf => true
  | NInf, _ => false
  | Fin _, PInf => false
  | Fin x, Fin y => Qle_bool y x
  end.

(** ToBoolean on a Number: zero and NaN are falsy. *)
Definition truthy (a : t) : bool :=
  match a with
  | NaN => false
  | Fin q => negb (Qis_zero q)
  | _ => true
  end.

(** [Math.max(a, b)] and [Math.min(a, b)]: NaN as soon as one side is. *)
Definition max (a b : t) : t :=
  match a, b with
  | NaN, _ | _, NaN => NaN
  | _, _ => if ge a b then a else b
  end.

Definition min (a b : t) : t :=
  match a, b with
  | NaN, _ | _, NaN => NaN
  | _, _ => if ge a b then b else a
  end.

(** [Math.ceil]. *)
Definition ceil (a : t) : t :=
  match a with
  | Fin q => of_Z (Qceiling q)
  | _ => a
  end.

(** Truncation toward zero. *)
Definition Qtruncate (q : Q) : Z :=
  if Qis_neg q then Qceiling q else Qfloor q.

(** Integers extended with the two infinities: the range of
    ToIntegerOrInfinity. *)
Inductive ext_int : Type :=
| IMinus
| IInt (z : Z)
| IPlus.

(** ToIntegerOrInfinity: NaN goes to 0, finite numbers are truncated toward
    zero. *)
Definition to_integer_or_infinity (a : t) : ext_int :=
  match a with
  | NaN => IInt 0
  | PInf => IPlus
  | NInf => IMinus
  | Fin q => IInt (Qtruncate q)
  end.

(** The integer a finite integral Number stands for. *)
Definition as_integer (a : t) : option Z :=
  match a with
  | Fin q => if Qeq_bool q (inject_Z (Qfloor q)) then Some (Qfloor q) else None
  | _ => None
  end.

(** [a % b] for the one use the tools make of it: both sides integers, the
    left one not negative.  [x % 0] is NaN. *)
Definition rem (a b : t) : option t :=
  match as_integer a, as_integer b with
  | Some x, Some y =>
      if (x <? 0)%Z then None
      else if (y =? 0)%Z then Some NaN
      else Some (of_Z (Z.rem x y))
  | _, _ => None
  end.

End Num.

(** ** Strings *)

Module Str.

Definition byte (c : ascii) : N := N_of_ascii c.

Definition is_digit (c : ascii) : bool :=
  ((48 <=? byte c) && (byte c <=? 57))%N.

Definition is_lower (c : ascii) : bool :=
  ((97 <=? byte c) && (byte c <=? 122))%N.

Definition is_upper (c : ascii) : bool :=
  ((65 <=? byte c) && (byte c <=? 90))%N.

Definition is_ascii_char (c : ascii) : bool := (byte c <? 128)%N.

Fixpoint forallb (p : ascii -> bool) (s : string) : bool :=
  match s with
  | EmptyString => true
  | String c r => p c && forallb p r
  end.

Fixpoint map (f : ascii -> ascii) (s : string) : string :=
  match s with
  | EmptyString => EmptyString
  | String c r => String (f c) (map f r)
  end.

(** A string all of whose bytes are ASCII: its UTF-16 code units are its
    bytes. *)
Definition is_ascii (s : string) : bool := forallb is_ascii_char s.

Definition upper_char (c : ascii) : ascii :=
  if is_lower c then ascii_of_N (byte c - 32) else c.

Definition lower_char (c : ascii) : ascii :=
  if is_upper c then ascii_of_N (byte c + 32) else c.

(** [s.length]: the number of UTF-16 code units of the text whose UTF-8
    bytes are [s].  A continuation byte adds nothing, the lead byte of a
    four-byte sequence stands for a surrogate pair. *)
Fixpoint utf16_length (s : string) : nat :=
  match s with
  | EmptyString => O
  | String c r =>
      ((if (byte c <? 128)%N then 1
        else if (byte c <? 192)%N then 0
        else if (byte c <? 240)%N then 1
        else 2) + utf16_length r)%nat
  end.

Fixpoint rev_onto (s acc : string) : string :=
  match s with
  | EmptyString => acc
  | String c r => rev_onto r (String c acc)
  end.

Definition rev (s : string) : string := rev_onto s "".

(** [s] ends with [suffix]. *)
Definition ends_with (suffix s : string) : bool :=
  prefix (rev suffix) (rev s).

Definition starts_with (pre s : string) : bool := prefix pre s.

(** [s.includes(t)]. *)
Fixpoint includes (t s : string) : bool :=
  prefix t s ||
  match s with
  | EmptyString => false
  | String _ r => includes t r
  end.

Fixpoint repeat (c : ascii) (n : nat) : string :=
  match n with
  | O => EmptyString
  | S k => String c (repeat c k)
  end.

(** The decimal digits of [n], most significant first; ["0"] for zero. *)
Definition of_N (n : N) : string := NilZero.string_of_uint (N.to_uint n).

(** The decimal digits of [n], padded with zeros on the left to [width]. *)
Definition pad_left (width : nat) (s : string) : string :=
  repeat "0" (width - length s) ++ s.

(** The decimal representation of an integer. *)
Definition of_Z (z : Z) : string :=
  if (z <? 0)%Z then "-" ++ of_N (Z.abs_N z) else of_N (Z.abs_N z).

(** [s.split(sep)[0]]: the text before the first [sep]. *)
Fixpoint before (sep : ascii) (s : string) : string :=
  match s with
  | EmptyString => EmptyString
  | String c r => if Ascii.eqb c sep then EmptyString else String c (before sep r)
  end.

Fixpoint take (n : nat) (s : string) : string :=
  match n, s with
  | S k, String c r => String c (take k r)
  | _, _ => EmptyString
  end.

Fixpoint drop (n : nat) (s : string) : string :=
  match n, s with
  | S k, String _ r => drop k r
  | _, _ => s
  end.

Fixpoint join (sep : string) (l : list string) : string :=
  match l with
  | [] => ""
  | [x] => x
  | x :: r => x ++ sep ++ join sep r
  end.

End Str.

(** ** [Number.prototype.toFixed] *)

Definition ten_pow (f : nat) : Z := 10 ^ Z.of_nat f.

(** The integer [n] for which [n / 10^f - x] is as close to zero as possible,
    the larger one when two are equally close ([x] is not negative). *)
Definition fixed_scaled (f : nat) (x : Q) : Z :=
  Qfloor (x * inject_Z (ten_pow f) + (1 # 2)).

(** The digits of [n] with a point before the last [f] of them. *)
Definition fixed_digits (f : nat) (n : Z) : string :=
  let m := Str.pad_left (S f) (Str.of_N (Z.to_N n)) in
  let k := length m in
  match f with
  | O => m
  | _ => Str.take (k - f) m ++ "." ++ Str.drop (k - f) m
  end.

(** From [10^21] on [toFixed] returns the text of the Number itself, which
    is in exponential notation there: the digits of the shortest decimal
    that reads back as the same double, the first of them before the
    point. *)

(** The integer nearest to [q], the even one of two equally near. *)
Definition round_half_even (q : Q) : Z :=
  let f := Qfloor q in
  let r := (q - inject_Z f)%Q in
  if Qeq_bool r (1 # 2) then (if Z.even f then f else f + 1)
  else if Qle_bool r (1 # 2) then f else f + 1.

(** The double nearest to a rational of [2^53] at least: a multiple of the
    power of two that spaces the doubles around it, the even multiple of
    two equally near; [None] past the largest double. *)
Definition nearest_double (q : Q) : option Z :=
  let e := (Z.log2 (Qfloor q) - 52)%Z in
  let d := (round_half_even (q / inject_Z (2 ^ e)) * 2 ^ e)%Z in
  if (d <? 2 ^ 1024)%Z then Some d else None.

Definition reads_back_as (x c : Z) : bool :=
  match nearest_double (inject_Z c) with
  | Some d => (d =? x)%Z
  | None => false
  end.

(** The decimal with the fewest significant digits that reads back as the
    double [x], an integer of [n] digits; of two with that many digits the
    nearer to [x], and the one with an even last digit when both are
    equally near.  The search is from [k] digits up; seventeen always do. *)
Fixpoint shortest (fuel k n : nat) (x : Z) : Z :=
  match fuel with
  | O => x
  | S fuel' =>
      let p := (10 ^ Z.of_nat (n - k))%Z in
      let lo := (x / p * p)%Z in
      let hi := (lo + p)%Z in
      match reads_back_as x lo, reads_back_as x hi with
      | true, true =>
          if (x - lo <? hi - x)%Z then lo
          else if (hi - x <? x - lo)%Z then hi
          else if Z.even (lo / p) then lo else hi
      | true, false => lo
      | false, true => hi
      | false, false => shortest fuel' (S k) n x
      end
  end.

Fixpoint drop_zeros (s : string) : string :=
  match s with
  | String "0" r => drop_zeros r
  | _ => s
  end.

(** The integer [v] in exponential notation: its digits without the zeros
    at the end, a point after the first of them when there are more, and
    the exponent. *)
Definition exponential (v : Z) : string :=
  let digits := Str.of_N (Z.to_N v) in
  let e := Str.of_N (N.of_nat (String.length digits - 1)) in
  match Str.rev (drop_zeros (Str.rev digits)) with
  | String c EmptyString => String c "e+" ++ e
  | String c r => String c ("." ++ r) ++ "e+" ++ e
  | EmptyString => "0"
  end.

(** The text of a Number of [10^21] at least. *)
Definition large_to_string (a : Q) : string :=
  match nearest_double a with
  | Some d => exponential (shortest 17 1 (String.length (Str.of_N (Z.to_N d))) d)
  | None => "Infinity"
  end.

(** [x.toFixed(f)] for a finite [x]: fixed notation below [10^21] in
    magnitude, the text of the Number from there on. *)
Definition toFixed_finite (f : nat) (x : Q) : option string :=
  let a := Qabs x in
  let m := if Qle_bool (inject_Z (10 ^ 21)) a then large_to_string a
           else fixed_digits f (fixed_scaled f a) in
  Some (if Num.Qis_neg x then "-" ++ m else m).

Definition toFixed (f : nat) (x : Num.t) : option string :=
  match x with
  | Num.NaN => Some "NaN"
  | Num.PInf => Some "Infinity"
  | Num.NInf => Some "-Infinity"
  | Num.Fin q => toFixed_finite f q
  end.

(** ** JSON values *)

(** A JavaScript value as the tools meet it: what [JSON.parse] builds, and
    [undefined].  An array parsed from JSON holds no [undefined] element.
    The properties of an object are listed in enumeration order. *)
Inductive value : Type :=
| VUndef
| VNull
| VBool (b : bool)
| VNum (n : Num.t)
| VStr (s : string)
| VArr (items : list value)
| VObj (props : list (string * value)).

(** The exceptions the tools can meet, by class; [Error] is the one the
    sources throw themselves, with its message. *)
Inductive exn : Type :=
| TypeError
| RangeError
| SyntaxError
| Error (message : string).

(** The outcome of an evaluation. *)
Inductive res (A : Type) : Type :=
| Ok (a : A)
| Throw (e : exn)
| Unmodelled.

Arguments Ok {A} a.
Arguments Throw {A} e.
Arguments Unmodelled {A}.

Definition bind {A B : Type} (m : res A) (k : A -> res B) : res B :=
  match m with
  | Ok a => k a
  | Throw e => Throw e
  | Unmodelled => Unmodelled
  end.

Declare Scope res_scope.
Delimit Scope res_scope with res.
Bind Scope res_scope with res.

Notation "x <- m ;; k" := (bind m (fun x => k))
  (at level 61, m at next level, right associativity) : res_scope.
Open Scope res_scope.

(** An operation the embedding covers only in part. *)
Definition modelled {A : Type} (o : option A) : res A :=
  match o with
  | Some a => Ok a
  | None => Unmodelled
  end.

Fixpoint mapM {A B : Type} (f : A -> res B) (l : list A) : res (list B) :=
  match l with
  | [] => Ok []
  | x :: r => y <- f x ;; ys <- mapM f r ;; Ok (y :: ys)
  end.

Fixpoint filterM {A : Type} (f : A -> res bool) (l : list A) : res (list A) :=
  match l with
  | [] => Ok []
  | x :: r => b <- f x ;; ys <- filterM f r ;; Ok (if b then x :: ys else ys)
  end.

(** ** Operators *)

Definition nullish (v : value) : bool :=
  match v with
  | VUndef | VNull => true
  | _ => false
  end.

(** ToBoolean. *)
Definition truthy (v : value) : bool :=
  match v with
  | VUndef | VNull => false
  | VBool b => b
  | VNum n => Num.truthy n
  | VStr s => negb (s =? "")
  | VArr _ | VObj _ => true
  end.

(** [a || b]. *)
Definition or_else (a b : value) : value := if truthy a then a else b.

Fixpoint lookup (k : string) (props : list (string * value)) : option value :=
  match props with
  | [] => None
  | (k', v) :: r => if k =? k' then Some v else lookup k r
  end.

Definition field (k : string) (props : list (string * value)) : value :=
  match lookup k props with
  | Some v => v
  | None => VUndef
  end.

(** [v.k], for the property names the tools read: data fields and [length],
    never the name of a built-in method. *)
Definition get (v : value) (k : string) : res value :=
  match v with
  | VUndef | VNull => Throw TypeError
  | VObj props => Ok (field k props)
  | VArr l => Ok (if k =? "length" then VNum (Num.of_nat (List.length l)) else VUndef)
  | VStr s =>
      Ok (if k =? "length" then VNum (Num.of_nat (Str.utf16_length s)) else VUndef)
  | VBool _ | VNum _ => Ok VUndef
  end.

(** [v?.k]. *)
Definition opt_get (v : value) (k : string) : res value :=
  if nullish v then Ok VUndef else get v k.

(** [x?.m(...)]: the call is skipped on [undefined] and [null]. *)
Definition opt (m : value -> res value) (v : value) : res value :=
  if nullish v then Ok VUndef else m v.

(** The text of a Number, where that is all the digits of an integer: up
    to [2^53] in magnitude every integer is a double, and the shortest
    digits that read back as it are its own.  Beyond, the digits are
    rounded ones, and a Number that is not an integer has a fraction or an
    exponent: both are left out. *)
Definition num_to_string (n : Num.t) : option string :=
  match n with
  | Num.NaN => Some "NaN"
  | Num.PInf => Some "Infinity"
  | Num.NInf => Some "-Infinity"
  | Num.Fin _ =>
      match Num.as_integer n with
      | Some z => if (Z.abs z <=? 2 ^ 53)%Z then Some (Str.of_Z z) else None
      | None => None
      end
  end.

Definition char_at (s : string) (i : nat) : value :=
  match String.get i s with
  | Some c => VStr (String c "")
  | None => VUndef
  end.

(** [v[n]] for a Number [n]. *)
Definition idx (v : value) (n : Num.t) : res value :=
  match v with
  | VUndef | VNull => Throw TypeError
  | VArr l =>
      Ok (match Num.as_integer n with
          | Some z => if (z <? 0)%Z then VUndef else nth (Z.to_nat z) l VUndef
          | None => VUndef
          end)
  | VStr s =>
      if Str.is_ascii s then
        Ok (match Num.as_integer n with
            | Some z => if (z <? 0)%Z then VUndef else char_at s (Z.to_nat z)
            | None => VUndef
            end)
      else Unmodelled
  | VObj props => k <- modelled (num_to_string n) ;; Ok (field k props)
  | VBool _ | VNum _ => Ok VUndef
  end.

(** [v?.[n]]. *)
Definition opt_idx (v : value) (n : Num.t) : res value :=
  if nullish v then Ok VUndef else idx v n.

Definition has_own (k : string) (props : list (string * value)) : bool :=
  match lookup k props with
  | Some _ => true
  | None => false
  end.

(** ToNumber.  An object goes through ToPrimitive, which calls its
    [valueOf] and then its [toString].  An object built by [JSON.parse] or
    by an object literal of the tools holds no function: the inherited
    [valueOf] returns the object itself, and an own [toString] is not
    callable, so with one the conversion throws a TypeError.  Without one
    the object becomes the text "[object Object]"; the conversion of a
    text, and of an array through its text, is left out. *)
Definition to_number (v : value) : res Num.t :=
  match v with
  | VUndef => Ok Num.NaN
  | VNull => Ok (Num.of_Z 0)
  | VBool b => Ok (Num.of_Z (if b then 1 else 0))
  | VNum n => Ok n
  | VObj props => if has_own "toString" props then Throw TypeError else Unmodelled
  | VStr _ | VArr _ => Unmodelled
  end.

(** The arithmetic operators convert both sides to Numbers; the result is
    always a Number. *)
Definition arith (op : Num.t -> Num.t -> Num.t) (a b : value) : res Num.t :=
  x <- to_number a ;; y <- to_number b ;; Ok (op x y).

Definition js_sub : value -> value -> res Num.t := arith Num.sub.
Definition js_mul : value -> value -> res Num.t := arith Num.mul.
Definition js_div : value -> value -> res Num.t := arith Num.div.

Definition relational (op : Num.t -> Num.t -> bool) (a b : value) : res bool :=
  x <- to_number a ;; y <- to_number b ;; Ok (op x y).

(** [a > b] and [a >= b] where one side at least is not a string. *)
Definition js_gt : value -> value -> res bool := relational Num.gt.
Definition js_ge : value -> value -> res bool := relational Num.ge.

(** ToString, on the primitive values. *)
Definition to_string (v : value) : res string :=
  match v with
  | VUndef => Ok "undefined"
  | VNull => Ok "null"
  | VBool b => Ok (if b then "true" else "false")
  | VNum n => modelled (num_to_string n)
  | VStr s => Ok s
  | VArr _ | VObj _ => Unmodelled
  end.

(** [a + s] for a string [s]: concatenation. *)
Definition concat (a : value) (s : string) : res value :=
  t <- to_string a ;; Ok (VStr (t ++ s)).

(** [a === b] against a primitive [b]. *)
Definition strict_eq_str (a : value) (s : string) : bool :=
  match a with
  | VStr t => t =? s
  | _ => false
  end.

Definition strict_eq_true (a : value) : bool :=
  match a with
  | VBool true => true
  | _ => false
  end.

Definition strict_eq_zero (a : value) : bool :=
  match a with
  | VNum (Num.Fin q) => Num.Qis_zero q
  | _ => false
  end.

(** ** Methods *)

(** [v.toFixed(f)]. *)
Definition toFixed_ (f : nat) (v : value) : res value :=
  match v with
  | VNum n => s <- modelled (toFixed f n) ;; Ok (VStr s)
  | _ => Throw TypeError
  end.

Definition ascii_only (s : string) : res string :=
  if Str.is_ascii s then Ok s else Unmodelled.

(** [v.toLowerCase()] and [v.toUpperCase()]. *)
Definition toLowerCase_ (v : value) : res value :=
  match v with
  | VStr s => t <- ascii_only s ;; Ok (VStr (Str.map Str.lower_char t))
  | _ => Throw TypeError
  end.

Definition toUpperCase_ (v : value) : res value :=
  match v with
  | VStr s => t <- ascii_only s ;; Ok (VStr (Str.map Str.upper_char t))
  | _ => Throw TypeError
  end.

(** The relative index of [slice]: counted from the end when negative,
    clamped to [0 .. len]. *)
Definition rel_index (len : nat) (a : Num.t) : nat :=
  match Num.to_integer_or_infinity a with
  | Num.IMinus => O
  | Num.IPlus => len
  | Num.IInt z =>
      if (z <? 0)%Z then Z.to_nat (Z.max (Z.of_nat len + z) 0)
      else Z.to_nat (Z.min z (Z.of_nat len))
  end.

Definition slice_bounds (len : nat) (a : Num.t) (b : option Num.t) : nat * nat :=
  let k := rel_index len a in
  let final := match b with Some e => rel_index len e | None => len end in
  (k, (final - k)%nat).

Definition list_slice {A : Type} (a : Num.t) (b : option Num.t) (l : list A) : list A :=
  let '(k, n) := slice_bounds (List.length l) a b in
  firstn n (skipn k l).

(** [v.slice(a, b)]; [b] is [None] when the call gives one argument. *)
Definition slice_ (a : Num.t) (b : option Num.t) (v : value) : res value :=
  match v with
  | VArr l => Ok (VArr (list_slice a b l))
  | VStr s =>
      t <- ascii_only s ;;
      let '(k, n) := slice_bounds (String.length t) a b in
      Ok (VStr (Str.take n (Str.drop k t)))
  | _ => Throw TypeError
  end.

(** [v.map(f)]. *)
Definition map_ (f : value -> res value) (v : value) : res value :=
  match v with
  | VArr l => r <- mapM f l ;; Ok (VArr r)
  | _ => Throw TypeError
  end.

Fixpoint filteriM (f : value -> nat -> res value) (i : nat) (l : list value)
  : res (list value) :=
  match l with
  | [] => Ok []
  | x :: r =>
      y <- f x i ;; ys <- filteriM f (S i) r ;; Ok (if truthy y then x :: ys else ys)
  end.

(** [v.filter((x, i) => ...)]. *)
Definition filteri_ (f : value -> nat -> res value) (v : value) : res value :=
  match v with
  | VArr l => r <- filteriM f O l ;; Ok (VArr r)
  | _ => Throw TypeError
  end.

(** [v.filter(f)]. *)
Definition filter_ (f : value -> res value) (v : value) : res value :=
  match v with
  | VArr l => r <- filterM (fun x => y <- f x ;; Ok (truthy y)) l ;; Ok (VArr r)
  | _ => Throw TypeError
  end.

Fixpoint someM (f : value -> res value) (l : list value) : res bool :=
  match l with
  | [] => Ok false
  | x :: r => y <- f x ;; if truthy y then Ok true else someM f r
  end.

(** [v.some(f)]: stops at the first element [f] accepts. *)
Definition some_ (f : value -> res value) (v : value) : res value :=
  match v with
  | VArr l => b <- someM f l ;; Ok (VBool b)
  | _ => Throw TypeError
  end.

(** [v.includes(t)] for a string [t]. *)
Definition includes_ (t : string) (v : value) : res value :=
  match v with
  | VStr s => Ok (VBool (Str.includes t s))
  | VArr l => Ok (VBool (existsb (fun x => strict_eq_str x t) l))
  | _ => Throw TypeError
  end.

(** [Array.prototype.sort] is stable, and a comparator result above zero
    puts its first argument after its second; NaN counts as zero.  With a
    consistent comparator every stable sort gives the same array, here the
    one of insertion sort.  An array of fewer than two elements is returned
    without a call of the comparator. *)
Definition comparator : Type := value -> value -> res Num.t.

Fixpoint insert (cmp : comparator) (x : value) (l : list value) : res (list value) :=
  match l with
  | [] => Ok [x]
  | y :: r =>
      c <- cmp x y ;;
      if Num.gt c (Num.of_Z 0) then (r' <- insert cmp x r ;; Ok (y :: r'))
      else Ok (x :: l)
  end.

Fixpoint isort (cmp : comparator) (l : list value) : res (list value) :=
  match l with
  | [] => Ok []
  | x :: r => s <- isort cmp r ;; insert cmp x s
  end.

(** [v.sort(cmp)]; the comparators of the tools are differences, so [cmp]
    returns a Number. *)
Definition sort_ (cmp : comparator) (v : value) : res value :=
  match v with
  | VArr l => r <- isort cmp l ;; Ok (VArr r)
  | _ => Throw TypeError
  end.

(** [Array.isArray(v)]. *)
Definition isArray (v : value) : bool :=
  match v with
  | VArr _ => true
  | _ => false
  end.

Fixpoint indexed {A : Type} (i : nat) (l : list A) : list (nat * A) :=
  match l with
  | [] => []
  | x :: r => (i, x) :: indexed (S i) r
  end.

Definition index_key (i : nat) : string := Str.of_N (N.of_nat i).

(** [Object.entries(v)] for a value other than [undefined] and [null]. *)
Definition entries (v : value) : res (list (string * value)) :=
  match v with
  | VUndef | VNull => Throw TypeError
  | VObj props => Ok props
  | VArr l => Ok (List.map (fun p => (index_key (fst p), snd p)) (indexed 0 l))
  | VStr s =>
      t <- ascii_only s ;;
      Ok (List.map (fun p => (index_key (fst p), VStr (String (snd p) "")))
            (indexed 0 (list_ascii_of_string t)))
  | VBool _ | VNum _ => Ok []
  end.

(** [Object.keys(v)]. *)
Definition keys (v : value) : res value :=
  e <- entries v ;; Ok (VArr (List.map (fun p => VStr (fst p)) e)).

(** [obj[k] = v] on an object under construction. *)
Fixpoint set_prop (k : string) (v : value) (props : list (string * value))
  : list (string * value) :=
  match props with
  | [] => [(k, v)]
  | (k', v') :: r => if k =? k' then (k, v) :: r else (k', v') :: set_prop k v r
  end.

(** ** Dates *)

Module Date.

(** A [Date] object: its time value in milliseconds since the epoch, or
    [None] for an invalid date. *)
Definition t : Type := option Z.

(** TimeClip. *)
Definition time_clip (n : Num.t) : t :=
  match n with
  | Num.Fin q =>
      if Qle_bool (Qabs q) (inject_Z 8640000000000000) then Some (Num.Qtruncate q)
      else None
  | _ => None
  end.

(** [new Date(n)] for a Number [n]. *)
Definition of_num (n : Num.t) : t := time_clip n.

(** [new Date(v)]: a string goes through [Date.parse], which the embedding
    leaves out; any other primitive is converted to a Number. *)
Definition of_value (v : value) : res t :=
  match v with
  | VStr _ | VArr _ | VObj _ => Unmodelled
  | _ => n <- to_number v ;; Ok (of_num n)
  end.

(** Year, month and day of the day number [z] (days since 1970-01-01) in the
    proleptic Gregorian calendar. *)
Definition civil_from_days (z : Z) : Z * Z * Z :=
  let z := (z + 719468)%Z in
  let era := (z / 146097)%Z in
  let doe := (z - era * 146097)%Z in
  let yoe := ((doe - doe / 1460 + doe / 36524 - doe / 146096) / 365)%Z in
  let doy := (doe - (365 * yoe + yoe / 4 - yoe / 100))%Z in
  let mp := ((5 * doy + 2) / 153)%Z in
  let d := (doy - (153 * mp + 2) / 5 + 1)%Z in
  let m := (if mp <? 10 then mp + 3 else mp - 9)%Z in
  let y := (yoe + era * 400 + (if m <=? 2 then 1 else 0))%Z in
  (y, m, d).

Definition pad (width : nat) (z : Z) : string :=
  Str.pad_left width (Str.of_N (Z.to_N z)).

Definition year_string (y : Z) : string :=
  if ((0 <=? y) && (y <=? 9999))%Z then pad 4 y
  else (if (y <? 0)%Z then "-" else "+") ++ pad 6 (Z.abs y).

(** The text of [toISOString] for a valid time value. *)
Definition iso (tv : Z) : string :=
  let day := (tv / 86400000)%Z in
  let ms := (tv mod 86400000)%Z in
  let '(y, m, d) := civil_from_days day in
  year_string y ++ "-" ++ pad 2 m ++ "-" ++ pad 2 d ++ "T" ++
  pad 2 (ms / 3600000) ++ ":" ++ pad 2 (ms / 60000 mod 60) ++ ":" ++
  pad 2 (ms / 1000 mod 60) ++ "." ++ pad 3 (ms mod 1000) ++ "Z".

(** [d.toISOString()]: a RangeError on an invalid date. *)
Definition toISOString (d : t) : res value :=
  match d with
  | Some tv => Ok (VStr (iso tv))
  | None => Throw RangeError
  end.

End Date.

(** [s.split('T')[0]] on the string [v]. *)
Definition split_T_0 (v : value) : res value :=
  match v with
  | VStr s => Ok (VStr (Str.before "T" s))
  | _ => Throw TypeError
  end.

(** ** [parseInt] *)

Definition is_space (c : ascii) : bool :=
  let b := Str.byte c in
  (((9 <=? b) && (b <=? 13)) || (b =? 32))%N.

Fixpoint skip_spaces (s : string) : string :=
  match s with
  | String c r => if is_space c then skip_spaces r else s
  | EmptyString => s
  end.

Definition digit_value (radix : N) (c : ascii) : option N :=
  let b := Str.byte c in
  let d := (if Str.is_digit c then Some (b - 48)
            else if Str.is_lower c then Some (b - 87)
            else if Str.is_upper c then Some (b - 55)
            else None)%N in
  match d with
  | Some n => if (n <? radix)%N then Some n else None
  | None => None
  end.

(** The value of the longest prefix of digits of [s], [None] without one. *)
Fixpoint digits_prefix (radix : N) (s : string) (acc : option N) : option N :=
  match s with
  | String c r =>
      match digit_value radix c with
      | Some d =>
          digits_prefix radix r
            (Some (match acc with Some a => a * radix + d | None => d end)%N)
      | None => acc
      end
  | EmptyString => acc
  end.

Definition strip_sign (s : string) : bool * string :=
  match s with
  | String "-" r => (true, r)
  | String "+" r => (false, r)
  | _ => (false, s)
  end.

Definition strip_hex_prefix (s : string) : N * string :=
  match s with
  | String "0" (String "x" r) | String "0" (String "X" r) => (16%N, r)
  | _ => (10%N, s)
  end.

(** [parseInt(s)] for a string: leading white space, a sign, an optional
    [0x], then digits.  White space outside ASCII is left out, and so are
    the integers beyond [2^53], which [parseInt] rounds to a double. *)
Definition parseInt_string (s : string) : res Num.t :=
  let s1 := skip_spaces s in
  match s1 with
  | String c _ =>
      if Str.is_ascii_char c then
        let '(negative, s2) := strip_sign s1 in
        let '(radix, s3) := strip_hex_prefix s2 in
        match digits_prefix radix s3 None with
        | Some n =>
            if (n <=? 2 ^ 53)%N
            then Ok (Num.of_Z (if negative then - Z.of_N n else Z.of_N n))
            else Unmodelled
        | None => Ok Num.NaN
        end
      else Unmodelled
  | EmptyString => Ok Num.NaN
  end.

(** [parseInt(v)]: the argument is first converted to a string.  A Number
    in plain decimal notation gives its integer part. *)
Definition parseInt (v : value) : res Num.t :=
  match v with
  | VStr s => parseInt_string s
  | VUndef | VNull | VBool _ => Ok Num.NaN
  | VNum (Num.Fin q) =>
      if Num.Qis_zero q then Ok (Num.of_Z 0)
      else if Qle_bool (1 # 1000000) (Qabs q) && negb (Qle_bool (inject_Z (10 ^ 21)) (Qabs q))
      then Ok (Num.of_Z (Num.Qtruncate q))
      else Unmodelled
  | VNum _ => Ok Num.NaN
  | VArr _ | VObj _ => Unmodelled
  end.

(** ** URLs *)

Definition hex_char (n : N) : ascii :=
  ascii_of_N (if (n <? 10)%N then 48 + n else 55 + n).

Definition percent_byte (c : ascii) : string :=
  String "%" (String (hex_char (Str.byte c / 16)) (String (hex_char (Str.byte c mod 16)) "")).

Definition is_alnum (c : ascii) : bool :=
  Str.is_digit c || Str.is_lower c || Str.is_upper c.

Fixpoint mem_char (c : ascii) (s : string) : bool :=
  match s with
  | EmptyString => false
  | String d r => Ascii.eqb c d || mem_char c r
  end.

(** The characters [encodeURIComponent] leaves as they are. *)
Definition uri_unreserved (c : ascii) : bool :=
  is_alnum c || mem_char c "-_.!~*'()".

(** [encodeURIComponent(s)]: every byte of the UTF-8 text but the unreserved
    characters becomes a percent escape.  The function throws a URIError on
    a lone surrogate, which the UTF-8 bytes of a text never hold. *)
Fixpoint encodeURIComponent (s : string) : string :=
  match s with
  | EmptyString => EmptyString
  | String c r =>
      (if uri_unreserved c then String c "" else percent_byte c) ++ encodeURIComponent r
  end.

(** The serialisation of [URLSearchParams]: form encoding of the UTF-8
    bytes of a text, where a space is a plus sign.  (A lone surrogate is
    written as U+FFFD; the UTF-8 bytes of a text never hold one.) *)
Fixpoint form_encode (s : string) : string :=
  match s with
  | EmptyString => EmptyString
  | String c r =>
      (if is_alnum c || mem_char c "*-._" then String c ""
       else if Ascii.eqb c " " then "+"
       else percent_byte c) ++ form_encode r
  end.

(** [new URLSearchParams({...}).toString()]. *)
Definition URLSearchParams (params : list (string * string)) : string :=
  Str.join "&" (List.map (fun p => form_encode (fst p) ++ "=" ++ form_encode (snd p)) params).

(** ** The network and the fetch layer ([api.ts]) *)

(** What one HTTP GET comes back with: a transport failure, or a response
    with its status line and its body, [None] when the body is not JSON. *)
Inductive http_outcome : Type :=
| NetworkFailure
| Response (status : Z) (statusText : string) (body : option value).

(** The world outside: the outcome of the [n]-th request of a call, by its
    URL. *)
Definition network : Type := nat -> string -> http_outcome.

(** A computation that may fetch: it reads the network and extends the log
    of the URLs requested so far, whatever its outcome. *)
Definition io (A : Type) : Type := network -> list string -> res A * list string.

Definition io_ret {A : Type} (a : A) : io A := fun _ log => (Ok a, log).

Definition io_bind {A B : Type} (m : io A) (k : A -> io B) : io B :=
  fun net log =>
    match m net log with
    | (Ok a, log') => k a net log'
    | (Throw e, log') => (Throw e, log')
    | (Unmodelled, log') => (Unmodelled, log')
    end.

(** A computation that does not fetch. *)
Definition lift {A : Type} (r : res A) : io A := fun _ log => (r, log).

(** [try { m } catch { handler }]. *)
Definition try_catch {A : Type} (m handler : io A) : io A :=
  fun net log =>
    match m net log with
    | (Throw _, log') => handler net log'
    | r => r
    end.

Declare Scope io_scope.
Delimit Scope io_scope with io.
Notation "x <- m ;; k" := (io_bind m (fun x => k))
  (at level 61, m at next level, right associativity) : io_scope.

(** [Promise.all(l.map(f))]: every call is started, in the order of [l],
    whatever the outcome of the others; the whole fails when one of them
    does. *)
Fixpoint promise_all {A B : Type} (f : A -> io B) (l : list A) : io (list B) :=
  fun net log =>
    match l with
    | [] => (Ok [], log)
    | x :: r =>
        let '(y, log1) := f x net log in
        let '(ys, log2) := promise_all f r net log1 in
        (y' <- y ;; ys' <- ys ;; Ok (y' :: ys'), log2)
    end.

(** Runs a call on a network, from an empty log. *)
Definition run {A : Type} (m : io A) (net : network) : res A * list string :=
  m net [].

Definition COINGECKO_BASE : string := "https://api.coingecko.com/api/v3".
Definition DEFILLAMA_BASE : string := "https://api.llama.fi".

Record ApiResponse : Type := { data : value; url : string }.

(** [response.ok]. *)
Definition response_ok (status : Z) : bool :=
  ((200 <=? status) && (status <=? 299))%Z.

Definition rate_limit_message : string :=
  "Rate limited by API. Please wait a moment and try again.".

(** [fetchJson(url)]. [fetch] rejects with a TypeError on a transport
    failure, [response.json()] with a SyntaxError on a body that is not
    JSON. *)
Definition fetchJson (url : string) : io ApiResponse :=
  fun net log =>
    let log' := (log ++ [url])%list in
    match net (List.length log) url with
    | NetworkFailure => (Throw TypeError, log')
    | Response status statusText body =>
        if negb (response_ok status) then
          if (status =? 429)%Z then (Throw (Error rate_limit_message), log')
          else (Throw (Error ("API request failed: " ++ Str.of_Z status ++ " " ++ statusText)),
                log')
        else
          match body with
          | Some d => (Ok {| data := d; url := url |}, log')
          | None => (Throw SyntaxError, log')
          end
    end.

Definition default {A : Type} (o : option A) (d : A) : A :=
  match o with
  | Some a => a
  | None => d
  end.

Definition String_bool (b : bool) : string := if b then "true" else "false".

(** [String(n)] and [`${n}`] for a Number. *)
Definition String_num (n : Num.t) : res string := modelled (num_to_string n).

(** *** CoinGecko *)

Definition searchTokens (query : string) : io ApiResponse :=
  let url := COINGECKO_BASE ++ "/search?query=" ++ encodeURIComponent query in
  fetchJson url.

Record TokenInfoOptions : Type := {
  localization : option bool;
  tickers : option bool;
  market_data : option bool;
  community_data : option bool;
  developer_data : option bool
}.

Definition getTokenInfo (id : string) (options : TokenInfoOptions) : io ApiResponse :=
  let params := URLSearchParams [
    ("localization", String_bool (default (localization options) false));
    ("tickers", String_bool (default (tickers options) false));
    ("market_data", String_bool (default (market_data options) true));
    ("community_data", String_bool (default (community_data options) false));
    ("developer_data", String_bool (default (developer_data options) false))] in
  let url := COINGECKO_BASE ++ "/coins/" ++ encodeURIComponent id ++ "?" ++ params in
  fetchJson url.

Record TokenPriceOptions : Type := {
  include_market_cap : option bool;
  include_24hr_vol : option bool;
  include_24hr_change : option bool
}.

Definition getTokenPrice (ids : list string) (vsCurrencies : option (list string))
    (options : TokenPriceOptions) : io ApiResponse :=
  let params := URLSearchParams [
    ("ids", Str.join "," ids);
    ("vs_currencies", Str.join "," (default vsCurrencies ["usd"]));
    ("include_market_cap", String_bool (default (include_market_cap options) true));
    ("include_24hr_vol", String_bool (default (include_24hr_vol options) true));
    ("include_24hr_change", String_bool (default (include_24hr_change options) true))] in
  let url := COINGECKO_BASE ++ "/simple/price?" ++ params in
  fetchJson url.

(** The URL of [getTokenOHLC]: [id] is encoded, [vsCurrency] is not. *)
Definition getTokenOHLC_url (id : string) (vsCurrency : option string)
    (days : option Num.t) : res string :=
  d <- String_num (default days (Num.of_Z 30)) ;;
  Ok (COINGECKO_BASE ++ "/coins/" ++ encodeURIComponent id ++ "/ohlc?vs_currency="
      ++ default vsCurrency "usd" ++ "&days=" ++ d).

Definition getTokenOHLC (id : string) (vsCurrency : option string)
    (days : option Num.t) : io ApiResponse :=
  (url <- lift (getTokenOHLC_url id vsCurrency days) ;; fetchJson url)%io.

(** The [days] of a market chart: a Number or the literal ['max']. *)
Inductive days_or_max : Type :=
| Days (n : Num.t)
| DaysMax.

Definition getTokenMarketChart_url (id : string) (vsCurrency : option string)
    (days : option days_or_max) : res string :=
  d <- match default days (Days (Num.of_Z 30)) with
       | Days n => String_num n
       | DaysMax => Ok "max"
       end ;;
  Ok (COINGECKO_BASE ++ "/coins/" ++ encodeURIComponent id
      ++ "/market_chart?vs_currency=" ++ default vsCurrency "usd" ++ "&days=" ++ d).

Definition getTokenMarketChart (id : string) (vsCurrency : option string)
    (days : option days_or_max) : io ApiResponse :=
  (url <- lift (getTokenMarketChart_url id vsCurrency days) ;; fetchJson url)%io.

Definition getTrendingTokens : io ApiResponse :=
  let url := COINGECKO_BASE ++ "/search/trending" in
  fetchJson url.

Definition getGlobalMarketData : io ApiResponse :=
  let url := COINGECKO_BASE ++ "/global" in
  fetchJson url.

Definition getTopCoins_url (vsCurrency : option string) (perPage page : option Num.t)
    (order : option string) : res string :=
  per_page <- String_num (default perPage (Num.of_Z 50)) ;;
  pg <- String_num (default page (Num.of_Z 1)) ;;
  let params := URLSearchParams [
    ("vs_currency", default vsCurrency "usd");
    ("order", default order "market_cap_desc");
    ("per_page", per_page);
    ("page", pg);
    ("sparkline", "false");
    ("price_change_percentage", "1h,24h,7d,30d")] in
  Ok (COINGECKO_BASE ++ "/coins/markets?" ++ params).

Definition getTopCoins (vsCurrency : option string) (perPage page : option Num.t)
    (order : option string) : io ApiResponse :=
  (url <- lift (getTopCoins_url vsCurrency perPage page order) ;; fetchJson url)%io.

Definition getCategories : io ApiResponse :=
  let url := COINGECKO_BASE ++ "/coins/categories" in
  fetchJson url.

Definition getCategoryCoins (categoryId : string) (vsCurrency : option string)
  : io ApiResponse :=
  let params := URLSearchParams [
    ("vs_currency", default vsCurrency "usd");
    ("category", categoryId);
    ("order", "market_cap_desc");
    ("per_page", "50");
    ("page", "1");
    ("sparkline", "false")] in
  let url := COINGECKO_BASE ++ "/coins/markets?" ++ params in
  fetchJson url.

Definition getExchanges_url (perPage : option Num.t) : res string :=
  p <- String_num (default perPage (Num.of_Z 20)) ;;
  Ok (COINGECKO_BASE ++ "/exchanges?per_page=" ++ p).

Definition getExchanges (perPage : option Num.t) : io ApiResponse :=
  (url <- lift (getExchanges_url perPage) ;; fetchJson url)%io.

(** The Fear and Greed index comes from alternative.me. *)
Definition getFearGreedIndex : io ApiResponse :=
  let url := "https://api.alternative.me/fng/?limit=10" in
  fetchJson url.

(** *** DeFiLlama *)

Definition getDefiProtocols : io ApiResponse :=
  let url := DEFILLAMA_BASE ++ "/protocols" in
  fetchJson url.

Definition getProtocolTVL (protocol : string) : io ApiResponse :=
  let url := DEFILLAMA_BASE ++ "/protocol/" ++ encodeURIComponent protocol in
  fetchJson url.

Definition getChainsTVL : io ApiResponse :=
  let url := DEFILLAMA_BASE ++ "/v2/chains" in
  fetchJson url.

Definition getChainTVLHistory (chain : string) : io ApiResponse :=
  let url := DEFILLAMA_BASE ++ "/v2/historicalChainTvl/" ++ encodeURIComponent chain in
  fetchJson url.

Definition getYieldPools : io ApiResponse :=
  let url := DEFILLAMA_BASE ++ "/pools" in
  fetchJson url.

Definition getStablecoins : io ApiResponse :=
  let url := "https://stablecoins.llama.fi/stablecoins?includePrices=true" in
  fetchJson url.

Definition getDexVolumes : io ApiResponse :=
  let url := DEFILLAMA_BASE ++ "/overview/dexs" in
  fetchJson url.

(** ** Tool results *)

Record ToolResult : Type := { result : value; sourceUrls : list string }.

(** Modelled from the spec: [formatToolResult] lives in [../types.js], which
    is not among the sources.  The spec describes a tool result as "a
    reshaped, human/agent-consumable object plus a list of source URLs used
    to produce it"; the model pairs the two arguments of the call. *)
Definition formatToolResult (payload : value) (urls : list string) : ToolResult :=
  {| result := payload; sourceUrls := urls |}.

(** ** Writing the tools *)

Definition and_then {A B : Type} (m : res A) (k : A -> res B) : res B := bind m k.
Infix ">>=" := and_then (at level 50, left associativity) : res_scope.

(** [v.k], [v?.k], [v[n]] and [v?.[n]] as steps of a chain. *)
Definition prop (k : string) (v : value) : res value := get v k.
Definition opt_prop (k : string) (v : value) : res value := opt_get v k.
Definition at_ (n : Z) (v : value) : res value := idx v (Num.of_Z n).
Definition opt_at (n : Z) (v : value) : res value := opt_idx v (Num.of_Z n).

Definition num (z : Z) : value := VNum (Num.of_Z z).

(** [m || d] for a constant [d]. *)
Definition or_ (d : value) (v : value) : res value := Ok (or_else v d).

(** An object literal: the property values are evaluated in order. *)
Fixpoint props_of (fields : list (string * res value)) : res (list (string * value)) :=
  match fields with
  | [] => Ok []
  | (k, m) :: r => v <- m ;; ps <- props_of r ;; Ok ((k, v) :: ps)
  end.

Definition object (fields : list (string * res value)) : res value :=
  ps <- props_of fields ;; Ok (VObj ps).

(** [x?.toFixed(2) + '%']. *)
Definition percent (v : value) : res value :=
  opt (toFixed_ 2) v >>= fun t => concat t "%".

(** [new Date(v).toISOString()]. *)
Definition iso_date (v : value) : res value :=
  Date.of_value v >>= Date.toISOString.

(** [new Date(v * 1000).toISOString()]. *)
Definition iso_of_seconds (v : value) : res value :=
  js_mul v (num 1000) >>= fun ms => Date.toISOString (Date.of_num ms).

(** The comparator [(a, b) => (b.k || 0) - (a.k || 0)]. *)
Definition by_desc (k : string) : comparator :=
  fun a b =>
    kb <- get b k ;;
    ka <- get a k ;;
    js_sub (or_else kb (num 0)) (or_else ka (num 0)).

(** [s.toLowerCase()] on a string of the input. *)
Definition lower (s : string) : res string :=
  t <- ascii_only s ;; Ok (Str.map Str.lower_char t).

(** An optional string of the input that is given and not empty, as
    [if (input.chain)] tests it. *)
Definition given (o : option string) : option string :=
  match o with
  | Some s => if s =? "" then None else Some s
  | None => None
  end.

(** [(a - b) / b * 100], then [.toFixed(2) + '%']. *)
Definition percent_change (a b : value) : res value :=
  d <- js_sub a b ;;
  q <- js_div (VNum d) b ;;
  r <- js_mul (VNum q) (num 100) ;;
  toFixed_ 2 (VNum r) >>= fun t => concat t "%".

(** ** DeFi tools ([defi.ts]) *)

(** *** [get_top_defi_protocols] *)

Record TopDefiProtocolsInput : Type := {
  tdp_limit : Num.t;               (* z.number().default(25) *)
  tdp_chain : option string;
  tdp_category : option string
}.

(** [p.chain?.toLowerCase() === chainLower ||
     p.chains?.some((c) => c.toLowerCase() === chainLower)] *)
Definition on_chain (chainLower : string) (p : value) : res value :=
  own <- get p "chain" >>= opt toLowerCase_ ;;
  if strict_eq_str own chainLower then Ok (VBool true)
  else
    get p "chains" >>=
    opt (some_ (fun c => l <- toLowerCase_ c ;; Ok (VBool (strict_eq_str l chainLower)))).

(** [p.category?.toLowerCase().includes(catLower)] *)
Definition in_category (k catLower : string) (p : value) : res value :=
  get p k >>= opt (fun c => toLowerCase_ c >>= includes_ catLower).

Definition protocol_row (p : value) : res value :=
  object [
    ("name", get p "name");
    ("symbol", get p "symbol");
    ("tvl", get p "tvl");
    ("tvl_change_1d", get p "change_1d" >>= percent);
    ("tvl_change_7d", get p "change_7d" >>= percent);
    ("tvl_change_1m", get p "change_1m" >>= percent);
    ("category", get p "category");
    ("chains", get p "chains" >>= opt (slice_ (Num.of_Z 0) (Some (Num.of_Z 5))));
    ("slug", get p "slug")
  ].

Definition getTopDefiProtocols_body (input : TopDefiProtocolsInput) (data : value)
  : res value :=
  let protocols := data in
  protocols <- match given (tdp_chain input) with
               | Some chain =>
                   chainLower <- lower chain ;;
                   filter_ (on_chain chainLower) protocols
               | None => Ok protocols
               end ;;
  protocols <- match given (tdp_category input) with
               | Some category =>
                   catLower <- lower category ;;
                   filter_ (in_category "category" catLower) protocols
               | None => Ok protocols
               end ;;
  protocols <- sort_ (by_desc "tvl") protocols
               >>= slice_ (Num.of_Z 0) (Some (tdp_limit input)) ;;
  result <- map_ protocol_row protocols ;;
  object [("protocols", Ok result); ("count", get result "length")].

Definition getTopDefiProtocols (input : TopDefiProtocolsInput) : io ToolResult :=
  (r <- getDefiProtocols ;;
   payload <- lift (getTopDefiProtocols_body input (data r)) ;;
   io_ret (formatToolResult payload [url r]))%io.

(** *** [get_defi_protocol_detail] *)

(** [d.tvl?.[d.tvl.length - 1]?.totalLiquidityUSD] *)
Definition latest_liquidity (d : value) : res value :=
  get d "tvl" >>=
  opt (fun tvl =>
         i <- get tvl "length" >>= fun n => js_sub n (num 1) ;;
         idx tvl i >>= opt_prop "totalLiquidityUSD").

(** [obj[k] = v] on an object that started as the literal [{}].  The key
    [__proto__] is the accessor the object inherits: assigning to it adds
    no property of its own. *)
Definition assign (k : string) (v : value) (props : list (string * value))
  : list (string * value) :=
  if k =? "__proto__" then props else set_prop k v props.

(** The loop over [Object.entries(d.chainTvls)]. *)
Fixpoint chain_tvls_loop (es : list (string * value)) (chainTvls : list (string * value))
  : res (list (string * value)) :=
  match es with
  | [] => Ok chainTvls
  | (chain, tvlData) :: r =>
      if isArray tvlData then
        latest <- (get tvlData "length" >>= fun n => js_sub n (num 1)) >>= idx tvlData ;;
        liq <- opt_get latest "totalLiquidityUSD" ;;
        chain_tvls_loop r (assign chain (or_else liq (num 0)) chainTvls)
      else chain_tvls_loop r chainTvls
  end.

Definition history_point (k : string) (point : value) : res value :=
  object [
    ("date", get point "date" >>= iso_of_seconds >>= split_T_0);
    ("tvl", get point k)
  ].

Definition getDefiProtocolDetail_body (d : value) : res value :=
  c <- get d "chainTvls" ;;
  chainTvls <- (if truthy c then es <- entries c ;; chain_tvls_loop es [] else Ok []) ;;
  tvlHistory <- get d "tvl"
                >>= opt (fun t => slice_ (Num.of_Z (-30)) None t
                                  >>= map_ (history_point "totalLiquidityUSD"))
                >>= or_ (VArr []) ;;
  object [
    ("name", get d "name");
    ("symbol", get d "symbol");
    ("description", get d "description"
                    >>= opt (slice_ (Num.of_Z 0) (Some (Num.of_Z 500))));
    ("category", get d "category");
    ("chains", get d "chains");
    ("current_tvl", latest_liquidity d);
    ("tvl_by_chain", Ok (VObj chainTvls));
    ("tvl_history_30d", Ok tvlHistory);
    ("url", get d "url");
    ("twitter", get d "twitter");
    ("audit_links", get d "audit_links");
    ("token", get d "symbol");
    ("mcap_to_tvl",
       mcap <- get d "mcap" ;;
       cur <- (if truthy mcap then latest_liquidity d else Ok mcap) ;;
       if truthy cur then
         mcap <- get d "mcap" ;;
         tvl <- get d "tvl" ;;
         liq <- (get tvl "length" >>= fun n => js_sub n (num 1)) >>= idx tvl
                >>= prop "totalLiquidityUSD" ;;
         js_div mcap liq >>= fun q => toFixed_ 2 (VNum q)
       else Ok VNull)
  ].

Record ProtocolInput : Type := { pi_protocol : string }.

Definition getDefiProtocolDetail (input : ProtocolInput) : io ToolResult :=
  (r <- getProtocolTVL (pi_protocol input) ;;
   payload <- lift (getDefiProtocolDetail_body (data r)) ;;
   io_ret (formatToolResult payload [url r]))%io.

(** *** [get_chain_tvl_data] *)

Definition chain_row (c : value) : res value :=
  object [
    ("name", get c "name");
    ("tvl", get c "tvl");
    ("token_symbol", get c "tokenSymbol");
    ("gecko_id", get c "gecko_id")
  ].

(** [list?.length || 0] *)
Definition count_or_zero (list : value) : res value :=
  opt_get list "length" >>= or_ (num 0).

Definition getChainTVLData_body (data : value) : res value :=
  chains <- opt (fun d => sort_ (by_desc "tvl") d
                          >>= slice_ (Num.of_Z 0) (Some (Num.of_Z 30))
                          >>= map_ chain_row) data ;;
  object [("chains", Ok chains); ("count", count_or_zero chains)].

Definition getChainTVLData : io ToolResult :=
  (r <- getChainsTVL ;;
   payload <- lift (getChainTVLData_body (data r)) ;;
   io_ret (formatToolResult payload [url r]))%io.

(** *** [get_chain_tvl_trend] *)

Record ChainInput : Type := { ci_chain : string }.

(** [first > 0 ? ((last - first) / first * 100).toFixed(2) + '%' : 'N/A'] *)
Definition change_or_na (last first : value) : res value :=
  positive <- js_gt first (num 0) ;;
  if positive then percent_change last first else Ok (VStr "N/A").

Definition getChainTVLTrend_body (input : ChainInput) (data : value) : res value :=
  history <- opt (fun d => slice_ (Num.of_Z (-90)) None d
                           >>= map_ (history_point "tvl")) data
             >>= or_ (VArr []) ;;
  first <- at_ 0 history >>= opt_prop "tvl" >>= or_ (num 0) ;;
  last <- (get history "length" >>= fun n => js_sub n (num 1)) >>= idx history
          >>= opt_prop "tvl" >>= or_ (num 0) ;;
  change <- change_or_na last first ;;
  object [
    ("chain", Ok (VStr (ci_chain input)));
    ("current_tvl", Ok last);
    ("tvl_90d_ago", Ok first);
    ("change_90d", Ok change);
    ("history", Ok history)
  ].

Definition getChainTVLTrend (input : ChainInput) : io ToolResult :=
  (r <- getChainTVLHistory (ci_chain input) ;;
   payload <- lift (getChainTVLTrend_body input (data r)) ;;
   io_ret (formatToolResult payload [url r]))%io.

(** *** [get_defi_yields] *)

Record DefiYieldsInput : Type := {
  dy_chain : option string;
  dy_project : option string;
  dy_min_tvl : option Num.t;
  dy_stablecoin_only : bool;        (* z.boolean().default(false) *)
  dy_limit : Num.t                  (* z.number().default(20) *)
}.

Definition pool_row (p : value) : res value :=
  object [
    ("pool", get p "pool");
    ("symbol", get p "symbol");
    ("project", get p "project");
    ("chain", get p "chain");
    ("tvl_usd", get p "tvlUsd");
    ("apy", get p "apy" >>= percent);
    ("apy_base", get p "apyBase" >>= percent);
    ("apy_reward", get p "apyReward" >>= percent);
    ("stablecoin", get p "stablecoin");
    ("il_risk", get p "ilRisk")
  ].

(** [if (input.min_tvl)]: given, and neither zero nor NaN. *)
Definition given_num (o : option Num.t) : option Num.t :=
  match o with
  | Some n => if Num.truthy n then Some n else None
  | None => None
  end.

Definition getDefiYields_body (input : DefiYieldsInput) (data : value) : res value :=
  pools <- get data "data" >>= or_ (VArr []) ;;
  pools <- match given (dy_chain input) with
           | Some chain =>
               chainLower <- lower chain ;;
               filter_ (fun p => own <- get p "chain" >>= opt toLowerCase_ ;;
                                 Ok (VBool (strict_eq_str own chainLower))) pools
           | None => Ok pools
           end ;;
  pools <- match given (dy_project input) with
           | Some project =>
               projLower <- lower project ;;
               filter_ (in_category "project" projLower) pools
           | None => Ok pools
           end ;;
  pools <- match given_num (dy_min_tvl input) with
           | Some min_tvl =>
               filter_ (fun p => t <- get p "tvlUsd" ;;
                                 b <- js_ge t (VNum min_tvl) ;; Ok (VBool b)) pools
           | None => Ok pools
           end ;;
  pools <- (if dy_stablecoin_only input then
              filter_ (fun p => s <- get p "stablecoin" ;;
                                Ok (VBool (strict_eq_true s))) pools
            else Ok pools) ;;
  pools <- sort_ (by_desc "apy") pools
           >>= slice_ (Num.of_Z 0) (Some (dy_limit input)) ;;
  result <- map_ pool_row pools ;;
  object [("pools", Ok result); ("count", get result "length")].

Definition getDefiYields (input : DefiYieldsInput) : io ToolResult :=
  (r <- getYieldPools ;;
   payload <- lift (getDefiYields_body input (data r)) ;;
   io_ret (formatToolResult payload [url r]))%io.

(** *** [get_stablecoin_data] *)

(** [(a, b) => (b.circulating?.peggedUSD || 0) - (a.circulating?.peggedUSD || 0)] *)
Definition by_circulating : comparator :=
  fun a b =>
    kb <- get b "circulating" >>= opt_prop "peggedUSD" ;;
    ka <- get a "circulating" >>= opt_prop "peggedUSD" ;;
    js_sub (or_else kb (num 0)) (or_else ka (num 0)).

Definition stablecoin_row (s : value) : res value :=
  object [
    ("name", get s "name");
    ("symbol", get s "symbol");
    ("peg_type", get s "pegType");
    ("peg_mechanism", get s "pegMechanism");
    ("circulating", get s "circulating" >>= opt_prop "peggedUSD");
    ("price", get s "price");
    ("chains", get s "chainCirculating" >>= or_ (VObj []) >>= keys
               >>= slice_ (Num.of_Z 0) (Some (Num.of_Z 5)))
  ].

Definition getStablecoinData_body (data : value) : res value :=
  stables <- get data "peggedAssets"
             >>= opt (fun a => sort_ by_circulating a
                               >>= slice_ (Num.of_Z 0) (Some (Num.of_Z 20))
                               >>= map_ stablecoin_row) ;;
  object [("stablecoins", Ok stables); ("count", count_or_zero stables)].

Definition getStablecoinData : io ToolResult :=
  (r <- getStablecoins ;;
   payload <- lift (getStablecoinData_body (data r)) ;;
   io_ret (formatToolResult payload [url r]))%io.

(** *** [get_dex_volume_data] *)

Definition dex_row (p : value) : res value :=
  object [
    ("name", get p "name");
    ("volume_24h", get p "total24h");
    ("volume_7d", get p "total7d");
    ("volume_30d", get p "total30d");
    ("change_24h", get p "change_1d" >>= percent);
    ("chains", get p "chains" >>= opt (slice_ (Num.of_Z 0) (Some (Num.of_Z 5))))
  ].

Definition getDexVolumeData_body (d : value) : res value :=
  protocols <- get d "protocols"
               >>= opt (fun ps => sort_ (by_desc "total24h") ps
                                  >>= slice_ (Num.of_Z 0) (Some (Num.of_Z 20))
                                  >>= map_ dex_row) ;;
  object [
    ("total_volume_24h", get d "total24h");
    ("total_volume_7d", get d "total7d");
    ("protocols", Ok protocols)
  ].

Definition getDexVolumeData : io ToolResult :=
  (r <- getDexVolumes ;;
   payload <- lift (getDexVolumeData_body (data r)) ;;
   io_ret (formatToolResult payload [url r]))%io.

(** *** [compare_defi_protocols] *)

Record CompareInput : Type := { cmp_protocols : list string }.

(** [d.tvl?.[Math.max(0, d.tvl.length - 30)]?.totalLiquidityUSD] *)
Definition liquidity_30_ago (d : value) : res value :=
  get d "tvl" >>=
  opt (fun tvl =>
         i <- get tvl "length" >>= fun n => js_sub n (num 30) ;;
         idx tvl (Num.max (Num.of_Z 0) i) >>= opt_prop "totalLiquidityUSD").

Definition comparison_entry (d : value) : res value :=
  object [
    ("name", get d "name");
    ("symbol", get d "symbol");
    ("category", get d "category");
    ("chains", get d "chains" >>= opt_prop "length" >>= or_ (num 0));
    ("current_tvl", latest_liquidity d >>= or_ (num 0));
    ("tvl_30d_ago", liquidity_30_ago d >>= or_ (num 0))
  ].

Definition failed_entry (protocol : string) : value :=
  VObj [("name", VStr protocol); ("error", VStr "Failed to fetch data")].

(** The body of the [map] over the protocols: one fetch, under its own
    [try]. *)
Definition compare_one (protocol : string) : io value :=
  try_catch
    (r <- getProtocolTVL protocol ;; lift (comparison_entry (data r)))%io
    (io_ret (failed_entry protocol)).

(** [{ ...r, tvl_change_30d: ... }] for an entry [r] built above. *)
Definition with_change (r : value) : res value :=
  ago <- get r "tvl_30d_ago" ;;
  positive <- js_gt ago (num 0) ;;
  change <- (if positive then
               cur <- get r "current_tvl" ;;
               ago <- get r "tvl_30d_ago" ;;
               percent_change cur ago
             else Ok (VStr "N/A")) ;;
  match r with
  | VObj ps => Ok (VObj (set_prop "tvl_change_30d" change ps))
  | _ => Unmodelled
  end.

Definition compareDefiProtocols (input : CompareInput) : io ToolResult :=
  (results <- promise_all compare_one
                (list_slice (Num.of_Z 0) (Some (Num.of_Z 5)) (cmp_protocols input)) ;;
   comparison <- lift (mapM with_change results) ;;
   io_ret (formatToolResult (VObj [("comparison", VArr comparison)])
             ["https://api.llama.fi"]))%io.

(** ** Market tools *)

(** *** [search_crypto_tokens] *)

Record SearchInput : Type := { si_query : string }.

Definition upper_symbol (c : value) : res value :=
  get c "symbol" >>= opt toUpperCase_.

Definition searchCryptoTokens_body (data : value) : res value :=
  object [
    ("coins", get data "coins"
              >>= opt (fun cs => slice_ (Num.of_Z 0) (Some (Num.of_Z 10)) cs
                                 >>= map_ (fun c => object [
                                       ("id", get c "id");
                                       ("name", get c "name");
                                       ("symbol", upper_symbol c);
                                       ("market_cap_rank", get c "market_cap_rank")]))
              >>= or_ (VArr []));
    ("categories", get data "categories"
                   >>= opt (slice_ (Num.of_Z 0) (Some (Num.of_Z 5))) >>= or_ (VArr []));
    ("nfts", get data "nfts"
             >>= opt (slice_ (Num.of_Z 0) (Some (Num.of_Z 3))) >>= or_ (VArr []))
  ].

Definition searchCryptoTokens (input : SearchInput) : io ToolResult :=
  (r <- searchTokens (si_query input) ;;
   payload <- lift (searchCryptoTokens_body (data r)) ;;
   io_ret (formatToolResult payload [url r]))%io.

(** *** [get_trending_crypto] *)

Definition trending_row (item : value) : res value :=
  object [
    ("id", get item "item" >>= opt_prop "id");
    ("name", get item "item" >>= opt_prop "name");
    ("symbol", get item "item" >>= opt_prop "symbol" >>= opt toUpperCase_);
    ("market_cap_rank", get item "item" >>= opt_prop "market_cap_rank");
    ("price_btc", get item "item" >>= opt_prop "price_btc");
    ("score", get item "item" >>= opt_prop "score")
  ].

Definition getTrendingCrypto_body (data : value) : res value :=
  coins <- get data "coins" >>= opt (map_ trending_row) >>= or_ (VArr []) ;;
  object [("trending_coins", Ok coins)].

Definition getTrendingCrypto : io ToolResult :=
  (r <- getTrendingTokens ;;
   payload <- lift (getTrendingCrypto_body (data r)) ;;
   io_ret (formatToolResult payload [url r]))%io.

(** *** [get_crypto_token_info] *)

Record TokenInput : Type := { ti_token_id : string }.

Definition market_data_summary (m : value) : res value :=
  object [
    ("current_price_usd", get m "current_price" >>= opt_prop "usd");
    ("market_cap_usd", get m "market_cap" >>= opt_prop "usd");
    ("market_cap_rank", get m "market_cap_rank");
    ("fully_diluted_valuation", get m "fully_diluted_valuation" >>= opt_prop "usd");
    ("total_volume_24h", get m "total_volume" >>= opt_prop "usd");
    ("circulating_supply", get m "circulating_supply");
    ("total_supply", get m "total_supply");
    ("max_supply", get m "max_supply");
    ("price_change_24h", get m "price_change_percentage_24h");
    ("price_change_7d", get m "price_change_percentage_7d");
    ("price_change_30d", get m "price_change_percentage_30d");
    ("ath", get m "ath" >>= opt_prop "usd");
    ("ath_change_percentage", get m "ath_change_percentage" >>= opt_prop "usd");
    ("ath_date", get m "ath_date" >>= opt_prop "usd");
    ("atl", get m "atl" >>= opt_prop "usd");
    ("atl_date", get m "atl_date" >>= opt_prop "usd")
  ].

Definition getCryptoTokenInfo_body (d : value) : res value :=
  object [
    ("id", get d "id");
    ("name", get d "name");
    ("symbol", upper_symbol d);
    ("description", get d "description" >>= opt_prop "en"
                    >>= opt (slice_ (Num.of_Z 0) (Some (Num.of_Z 500))));
    ("categories", get d "categories");
    ("links", object [
       ("homepage", get d "links" >>= opt_prop "homepage" >>= opt_at 0);
       ("twitter", get d "links" >>= opt_prop "twitter_screen_name");
       ("github", get d "links" >>= opt_prop "repos_url" >>= opt_prop "github"
                  >>= opt_at 0)]);
    ("market_data", m <- get d "market_data" ;;
                    if truthy m then get d "market_data" >>= market_data_summary
                    else Ok VNull);
    ("genesis_date", get d "genesis_date");
    ("sentiment_votes_up_percentage", get d "sentiment_votes_up_percentage");
    ("sentiment_votes_down_percentage", get d "sentiment_votes_down_percentage")
  ].

Definition getCryptoTokenInfo (input : TokenInput) : io ToolResult :=
  (r <- getTokenInfo (ti_token_id input)
          {| localization := None; tickers := None; market_data := Some true;
             community_data := None; developer_data := None |} ;;
   payload <- lift (getCryptoTokenInfo_body (data r)) ;;
   io_ret (formatToolResult payload [url r]))%io.

(** *** [get_crypto_price] *)

Record PriceInput : Type := {
  pr_token_ids : list string;
  pr_vs_currency : string           (* z.string().default('usd') *)
}.

Definition getCryptoPrice (input : PriceInput) : io ToolResult :=
  (r <- getTokenPrice (pr_token_ids input) (Some [pr_vs_currency input])
          {| include_market_cap := Some true; include_24hr_vol := Some true;
             include_24hr_change := Some true |} ;;
   io_ret (formatToolResult (data r) [url r]))%io.

(** *** [get_crypto_ohlc] *)

Record OHLCInput : Type := {
  oh_token_id : string;
  oh_days : Num.t;                  (* z.number().default(30) *)
  oh_vs_currency : string           (* z.string().default('usd') *)
}.

Definition candle_row (candle : value) : res value :=
  object [
    ("timestamp", at_ 0 candle >>= iso_date);
    ("open", at_ 1 candle);
    ("high", at_ 2 candle);
    ("low", at_ 3 candle);
    ("close", at_ 4 candle)
  ].

Definition getCryptoOHLC_body (data : value) : res value :=
  formatted <- opt (map_ candle_row) data >>= or_ (VArr []) ;;
  object [("ohlc", Ok formatted); ("count", get formatted "length")].

Definition getCryptoOHLC (input : OHLCInput) : io ToolResult :=
  (r <- getTokenOHLC (oh_token_id input) (Some (oh_vs_currency input))
          (Some (oh_days input)) ;;
   payload <- lift (getCryptoOHLC_body (data r)) ;;
   io_ret (formatToolResult payload [url r]))%io.

(** *** [get_crypto_price_history] *)

Record PriceHistoryInput : Type := {
  ph_token_id : string;
  ph_days : days_or_max;            (* default(30) *)
  ph_vs_currency : string           (* z.string().default('usd') *)
}.

Definition price_point (p : value) : res value :=
  object [
    ("date", at_ 0 p >>= iso_date);
    ("price", at_ 1 p)
  ].

(** [prices[prices.length - 1]] *)
Definition last_of (prices : value) : res value :=
  (get prices "length" >>= fun n => js_sub n (num 1)) >>= idx prices.

(** [i % Math.ceil(prices.length / 20) === 0] *)
Definition sampled (prices : value) (i : nat) : res value :=
  step <- get prices "length" >>= fun n => js_div n (num 20) ;;
  r <- modelled (Num.rem (Num.of_nat i) (Num.ceil step)) ;;
  Ok (VBool (strict_eq_zero (VNum r))).

Definition getCryptoPriceHistory_body (d : value) : res value :=
  prices <- get d "prices" >>= or_ (VArr []) ;;
  object [
    ("data_points", get prices "length");
    ("first_price", f <- at_ 0 prices ;;
                    if truthy f then at_ 0 prices >>= price_point else Ok VNull);
    ("last_price", l <- last_of prices ;;
                   if truthy l then last_of prices >>= price_point else Ok VNull);
    ("price_change", enough <- get prices "length" >>= fun n => js_ge n (num 2) ;;
                     if enough then
                       last <- last_of prices >>= at_ 1 ;;
                       first <- at_ 0 prices >>= at_ 1 ;;
                       percent_change last first
                     else Ok VNull);
    ("sampled_prices", filteri_ (fun _ i => sampled prices i) prices >>= map_ price_point)
  ].

Definition getCryptoPriceHistory (input : PriceHistoryInput) : io ToolResult :=
  (r <- getTokenMarketChart (ph_token_id input) (Some (ph_vs_currency input))
          (Some (ph_days input)) ;;
   payload <- lift (getCryptoPriceHistory_body (data r)) ;;
   io_ret (formatToolResult payload [url r]))%io.

(** *** [get_global_crypto_data] *)

Definition getGlobalCryptoData_body (data : value) : res value :=
  d <- get data "data" ;;
  object [
    ("active_cryptocurrencies", get d "active_cryptocurrencies");
    ("markets", get d "markets");
    ("total_market_cap_usd", get d "total_market_cap" >>= opt_prop "usd");
    ("total_volume_24h_usd", get d "total_volume" >>= opt_prop "usd");
    ("btc_dominance", get d "market_cap_percentage" >>= opt_prop "btc" >>= percent);
    ("eth_dominance", get d "market_cap_percentage" >>= opt_prop "eth" >>= percent);
    ("market_cap_change_24h", get d "market_cap_change_percentage_24h_usd" >>= percent)
  ].

Definition getGlobalCryptoData : io ToolResult :=
  (r <- getGlobalMarketData ;;
   payload <- lift (getGlobalCryptoData_body (data r)) ;;
   io_ret (formatToolResult payload [url r]))%io.

(** *** [get_top_crypto_coins] *)

Record TopCoinsInput : Type := {
  tc_limit : Num.t;                 (* z.number().default(20) *)
  tc_page : Num.t                   (* z.number().default(1) *)
}.

Definition coin_row (c : value) : res value :=
  object [
    ("rank", get c "market_cap_rank");
    ("id", get c "id");
    ("symbol", upper_symbol c);
    ("name", get c "name");
    ("price_usd", get c "current_price");
    ("market_cap", get c "market_cap");
    ("volume_24h", get c "total_volume");
    ("price_change_1h", get c "price_change_percentage_1h_in_currency" >>= percent);
    ("price_change_24h", get c "price_change_percentage_24h" >>= percent);
    ("price_change_7d", get c "price_change_percentage_7d_in_currency" >>= percent);
    ("price_change_30d", get c "price_change_percentage_30d_in_currency" >>= percent);
    ("ath", get c "ath");
    ("ath_change", get c "ath_change_percentage" >>= percent)
  ].

Definition getTopCryptoCoins_body (data : value) : res value :=
  coins <- opt (map_ coin_row) data >>= or_ (VArr []) ;;
  object [("coins", Ok coins); ("count", get coins "length")].

(** The page size [get_top_crypto_coins] asks for. *)
Definition top_coins_limit (input : TopCoinsInput) : Num.t :=
  Num.min (tc_limit input) (Num.of_Z 100).

Definition getTopCryptoCoins (input : TopCoinsInput) : io ToolResult :=
  let limit := top_coins_limit input in
  (r <- getTopCoins (Some "usd") (Some limit) (Some (tc_page input)) None ;;
   payload <- lift (getTopCryptoCoins_body (data r)) ;;
   io_ret (formatToolResult payload [url r]))%io.

(** *** [get_crypto_fear_greed] *)

(** [parseInt(v)] as a value. *)
Definition parseInt_ (v : value) : res value :=
  n <- parseInt v ;; Ok (VNum n).

(** [new Date(parseInt(v) * 1000).toISOString()] *)
Definition iso_of_timestamp (v : value) : res value :=
  n <- parseInt v ;;
  Date.toISOString (Date.of_num (Num.mul n (Num.of_Z 1000))).

(** The [interpretation] literal.  Its key [50] is an array index, and an
    object enumerates those before its other keys: the literal writes it
    third, the object lists it first. *)
Definition interpretation : value :=
  VObj [
    ("50", VStr "Neutral");
    ("0-24", VStr "Extreme Fear - potential buying opportunity");
    ("25-49", VStr "Fear - market is worried");
    ("51-74", VStr "Greed - market is getting greedy");
    ("75-100", VStr "Extreme Greed - potential correction ahead")
  ].

Definition fear_greed_row (item : value) : res value :=
  object [
    ("value", get item "value" >>= parseInt_);
    ("classification", get item "value_classification");
    ("date", get item "timestamp" >>= iso_of_timestamp >>= split_T_0)
  ].

(** [d.data?.[0]?.k] *)
Definition latest_reading (d : value) (k : string) : res value :=
  get d "data" >>= opt_at 0 >>= opt_prop k.

Definition getCryptoFearGreed_body (d : value) : res value :=
  object [
    ("current", object [
       ("value", latest_reading d "value" >>= parseInt_);
       ("classification", latest_reading d "value_classification");
       ("timestamp", latest_reading d "timestamp" >>= iso_of_timestamp)]);
    ("history", get d "data"
                >>= opt (fun a => slice_ (Num.of_Z 0) (Some (Num.of_Z 7)) a
                                  >>= map_ fear_greed_row));
    ("interpretation", Ok interpretation)
  ].

Definition getCryptoFearGreed : io ToolResult :=
  (r <- getFearGreedIndex ;;
   payload <- lift (getCryptoFearGreed_body (data r)) ;;
   io_ret (formatToolResult payload [url r]))%io.

(** *** [get_crypto_categories] *)

Definition category_row (c : value) : res value :=
  object [
    ("id", get c "id");
    ("name", get c "name");
    ("market_cap", get c "market_cap");
    ("market_cap_change_24h", get c "market_cap_change_24h" >>= percent);
    ("volume_24h", get c "volume_24h");
    ("top_3_coins", get c "top_3_coins")
  ].

Definition getCryptoCategories_body (data : value) : res value :=
  categories <- opt (fun d => slice_ (Num.of_Z 0) (Some (Num.of_Z 30)) d
                              >>= map_ category_row) data
                >>= or_ (VArr []) ;;
  object [("categories", Ok categories); ("count", get categories "length")].

Definition getCryptoCategories : io ToolResult :=
  (r <- getCategories ;;
   payload <- lift (getCryptoCategories_body (data r)) ;;
   io_ret (formatToolResult payload [url r]))%io.

(** *** [get_crypto_by_sector] *)

Record SectorInput : Type := { se_category_id : string }.

Definition sector_row (c : value) : res value :=
  object [
    ("rank", get c "market_cap_rank");
    ("id", get c "id");
    ("symbol", upper_symbol c);
    ("name", get c "name");
    ("price_usd", get c "current_price");
    ("market_cap", get c "market_cap");
    ("price_change_24h", get c "price_change_percentage_24h" >>= percent)
  ].

Definition getCryptoBySector_body (input : SectorInput) (data : value) : res value :=
  coins <- opt (fun d => slice_ (Num.of_Z 0) (Some (Num.of_Z 25)) d
                         >>= map_ sector_row) data
           >>= or_ (VArr []) ;;
  object [
    ("category", Ok (VStr (se_category_id input)));
    ("coins", Ok coins);
    ("count", get coins "length")
  ].

Definition getCryptoBySector (input : SectorInput) : io ToolResult :=
  (r <- getCategoryCoins (se_category_id input) None ;;
   payload <- lift (getCryptoBySector_body input (data r)) ;;
   io_ret (formatToolResult payload [url r]))%io.

(** *** [get_crypto_exchanges] *)

Record ExchangesInput : Type := { ex_limit : Num.t }.   (* z.number().default(20) *)

Definition exchange_row (e : value) : res value :=
  object [
    ("rank", get e "trust_score_rank");
    ("id", get e "id");
    ("name", get e "name");
    ("trust_score", get e "trust_score");
    ("volume_24h_btc", get e "trade_volume_24h_btc");
    ("year_established", get e "year_established");
    ("country", get e "country")
  ].

Definition getCryptoExchanges_body (data : value) : res value :=
  exchanges <- opt (map_ exchange_row) data >>= or_ (VArr []) ;;
  object [("exchanges", Ok exchanges); ("count", get exchanges "length")].

Definition getCryptoExchanges (input : ExchangesInput) : io ToolResult :=
  (r <- getExchanges (Some (Num.min (ex_limit input) (Num.of_Z 50))) ;;
   payload <- lift (getCryptoExchanges_body (data r)) ;;
   io_ret (formatToolResult payload [url r]))%io.

(** ** The registry of crypto tools

    [src/tools/index.ts] lists the tools an agent can call; a call is a tool
    with an input that passed its schema. *)

Inductive tool_call : Type :=
| SearchCryptoTokens (input : SearchInput)
| GetTrendingCrypto
| GetCryptoTokenInfo (input : TokenInput)
| GetCryptoPrice (input : PriceInput)
| GetCryptoOHLC (input : OHLCInput)
| GetCryptoPriceHistory (input : PriceHistoryInput)
| GetGlobalCryptoData
| GetTopCryptoCoins (input : TopCoinsInput)
| GetCryptoFearGreed
| GetCryptoCategories
| GetCryptoBySector (input : SectorInput)
| GetCryptoExchanges (input : ExchangesInput)
| GetTopDefiProtocols (input : TopDefiProtocolsInput)
| GetDefiProtocolDetail (input : ProtocolInput)
| GetChainTVLData
| GetChainTVLTrend (input : ChainInput)
| GetDefiYields (input : DefiYieldsInput)
| GetStablecoinData
| GetDexVolumeData
| CompareDefiProtocols (input : CompareInput).

Definition invoke (c : tool_call) : io ToolResult :=
  match c with
  | SearchCryptoTokens input => searchCryptoTokens input
  | GetTrendingCrypto => getTrendingCrypto
  | GetCryptoTokenInfo input => getCryptoTokenInfo input
  | GetCryptoPrice input => getCryptoPrice input
  | GetCryptoOHLC input => getCryptoOHLC input
  | GetCryptoPriceHistory input => getCryptoPriceHistory input
  | GetGlobalCryptoData => getGlobalCryptoData
  | GetTopCryptoCoins input => getTopCryptoCoins input
  | GetCryptoFearGreed => getCryptoFearGreed
  | GetCryptoCategories => getCryptoCategories
  | GetCryptoBySector input => getCryptoBySector input
  | GetCryptoExchanges input => getCryptoExchanges input
  | GetTopDefiProtocols input => getTopDefiProtocols input
  | GetDefiProtocolDetail input => getDefiProtocolDetail input
  | GetChainTVLData => getChainTVLData
  | GetChainTVLTrend input => getChainTVLTrend input
  | GetDefiYields input => getDefiYields input
  | GetStablecoinData => getStablecoinData
  | GetDexVolumeData => getDexVolumeData
  | CompareDefiProtocols input => compareDefiProtocols input
  end.

(** The two providers: [api.ts] has a base URL constant for each. *)
Inductive provider : Type :=
| CoinGecko
| DefiLlama.

Definition base_url (p : provider) : string :=
  match p with
  | CoinGecko => COINGECKO_BASE
  | DefiLlama => DEFILLAMA_BASE
  end.

(** The provider of a tool: the section of [api.ts] that holds its client
    function, which is also the provider the tool lists name for it
    ([getFearGreedIndex] stands among the CoinGecko functions,
    [getStablecoins] among the DeFiLlama ones). *)
Definition provider_of (c : tool_call) : provider :=
  match c with
  | SearchCryptoTokens _ | GetTrendingCrypto | GetCryptoTokenInfo _ | GetCryptoPrice _
  | GetCryptoOHLC _ | GetCryptoPriceHistory _ | GetGlobalCryptoData
  | GetTopCryptoCoins _ | GetCryptoFearGreed | GetCryptoCategories | GetCryptoBySector _
  | GetCryptoExchanges _ => CoinGecko
  | GetTopDefiProtocols _ | GetDefiProtocolDetail _ | GetChainTVLData
  | GetChainTVLTrend _ | GetDefiYields _ | GetStablecoinData | GetDexVolumeData
  | CompareDefiProtocols _ => DefiLlama
  end.

(** The two tools whose client function fetches a URL written out in full,
    on a host of its own, instead of one built from a base URL constant. *)
Definition fetches_literal_url (c : tool_call) : bool :=
  match c with
  | GetCryptoFearGreed | GetStablecoinData => true
  | _ => false
  end.

(** * Notions the statements use *)

(** ** Requests *)

(** The URL [getProtocolTVL] requests. *)
Definition protocol_url (protocol : string) : string :=
  DEFILLAMA_BASE ++ "/protocol/" ++ encodeURIComponent protocol.

(** The protocols [compare_defi_protocols] fetches. *)
Definition compared (input : CompareInput) : list string :=
  list_slice (Num.of_Z 0) (Some (Num.of_Z 5)) (cmp_protocols input).


(** ** Lists and counts *)

(** The step [x?.[slice(...)].map(row)], alone or followed by [|| []]. *)
Definition rows_of (row : value -> res value) (v : value) : Prop :=
  exists l rows, v = VArr rows /\ Forall2 (fun x y => row x = Ok y) l rows.

(** The list a tool returns next to a [count], by its key in the result. *)
Definition counted_list (c : tool_call) : option string :=
  match c with
  | GetTopDefiProtocols _ => Some "protocols"
  | GetChainTVLData => Some "chains"
  | GetDefiYields _ => Some "pools"
  | GetStablecoinData => Some "stablecoins"
  | GetCryptoOHLC _ => Some "ohlc"
  | GetTopCryptoCoins _ => Some "coins"
  | GetCryptoCategories => Some "categories"
  | GetCryptoBySector _ => Some "coins"
  | GetCryptoExchanges _ => Some "exchanges"
  | _ => None
  end.

(** [count] is the length of the list under [key], and 0 when the list is
    [undefined]. *)
Definition count_agrees (key : string) (payload : value) : Prop :=
  match payload with
  | VObj ps =>
      match field key ps with
      | VArr l => field "count" ps = VNum (Num.of_nat (List.length l))
      | VUndef => field "count" ps = num 0
      | _ => False
      end
  | _ => False
  end.

(** An object literal evaluates to the object of the values of its
    properties. *)
Definition evaluates (f : string * res value) (p : string * value) : Prop :=
  fst f = fst p /\ snd f = Ok (snd p).

(** ** The comparison of protocols *)

(** What the [try] block of one compared protocol comes to, from the outcome
    of its request. *)
Definition fetched_entry (o : http_outcome) (protocol : string) : res value :=
  match o with
  | Response status _ (Some d) =>
      if response_ok status then
        match comparison_entry d with
        | Ok r => Ok r
        | Throw _ => Ok (failed_entry protocol)
        | Unmodelled => Unmodelled
        end
      else Ok (failed_entry protocol)
  | _ => Ok (failed_entry protocol)
  end.




(** ** Decimals *)

(** One digit at least, a point, two digits. *)
Fixpoint digits_point_2 (seen : bool) (s : string) : bool :=
  match s with
  | String "." (String d1 (String d2 "")) => seen && Str.is_digit d1 && Str.is_digit d2
  | String c r => Str.is_digit c && digits_point_2 true r
  | EmptyString => false
  end.

(** The shape of a number written with exactly two decimal places. *)
Definition two_decimals (s : string) : bool :=
  match s with
  | String "-" r => digits_point_2 false r
  | _ => digits_point_2 false s
  end.

(** Reading the decimal digits of a string back, skipping what is not a
    digit (the sign and the point). *)
Fixpoint read_digits (acc : N) (s : string) : N :=
  match s with
  | EmptyString => acc
  | String c r =>
      if Str.is_digit c then read_digits (acc * 10 + (Str.byte c - 48)) r
      else read_digits acc r
  end.


(** ** Order *)

(** The sort key of the comparator [by_desc k]: [p.k || 0], as a Number. *)
Definition sort_key (k : string) (p : value) : res Num.t :=
  v <- get p k ;; to_number (or_else v (num 0)).

(** [a] does not come after [b] in decreasing order of the key. *)
Definition desc (key : value -> res Num.t) (a b : value) : Prop :=
  exists ka kb, key a = Ok ka /\ key b = Ok kb /\ Num.ge ka kb = true.

(** The result lists, under [key], the rows of the first entries of the
    candidates sorted by [sort] in decreasing order; no more of them than a
    limit that is not negative. *)
Definition top_n (key sort : string) (row : value -> res value) (limit : Num.t)
    (candidates : list value) (payload : value) : Prop :=
  exists all selected rows,
    get payload key = Ok (VArr rows) /\
    Permutation candidates all /\
    Sorted (desc (sort_key sort)) all /\
    selected = list_slice (Num.of_Z 0) (Some limit) all /\
    Sorted (desc (sort_key sort)) selected /\
    Forall2 (fun p e => row p = Ok e) selected rows /\
    (Num.ge limit (Num.of_Z 0) = true ->
     Num.ge limit (Num.of_nat (List.length rows)) = true).

(** A filter step, taken or not: what it keeps comes from what it got. *)
Definition kept (v r : value) : Prop :=
  v = r \/ exists l l', v = VArr l /\ r = VArr l' /\ incl l' l.

(** ** Percentages *)

(** A percentage as the tools render one: a string that ends in a percent
    sign, or the literal N/A. *)
Definition percent_or_na (v : value) : bool :=
  match v with
  | VStr s => Str.ends_with "%" s || (s =? "N/A")
  | _ => false
  end.

(** The property [f] of the object [e] is a string that ends in a percent
    sign; where [na] is set it may be the literal N/A instead. *)
Definition percent_field (na : bool) (e : value) (f : string) : Prop :=
  exists s, get e f = Ok (VStr s) /\
            (Str.ends_with "%" s = true \/ (na = true /\ s = "N/A")).

(** [change] is N/A exactly when [baseline > 0] is false. *)
Definition na_unless_positive (baseline change : value) : Prop :=
  exists b, js_gt baseline (num 0) = Ok b /\
            percent_or_na change = true /\
            (change = VStr "N/A" <-> b = false).

(** Where a tool puts the percentages it renders: in each row of a list, or
    in the result itself. *)
Inductive percent_spec : Type :=
| InRows (na : bool) (key : string) (fields : list string)
| TopLevel (na : bool) (fields : list string).

(** The percentage fields the tools render themselves; [na] is set for the
    two changes the tools compute from a baseline.  Two tools carry
    percentages that are not in this table: [get_crypto_token_info] passes
    the upstream numbers through, and the [price_change] of
    [get_crypto_price_history] is [null] on fewer than two price points. *)
Definition percent_fields (c : tool_call) : option percent_spec :=
  match c with
  | GetTopDefiProtocols _ =>
      Some (InRows false "protocols" ["tvl_change_1d"; "tvl_change_7d"; "tvl_change_1m"])
  | GetDefiYields _ => Some (InRows false "pools" ["apy"; "apy_base"; "apy_reward"])
  | GetDexVolumeData => Some (InRows false "protocols" ["change_24h"])
  | GetChainTVLTrend _ => Some (TopLevel true ["change_90d"])
  | CompareDefiProtocols _ => Some (InRows true "comparison" ["tvl_change_30d"])
  | GetGlobalCryptoData =>
      Some (TopLevel false ["btc_dominance"; "eth_dominance"; "market_cap_change_24h"])
  | GetTopCryptoCoins _ =>
      Some (InRows false "coins" ["price_change_1h"; "price_change_24h"; "price_change_7d";
                            "price_change_30d"; "ath_change"])
  | GetCryptoCategories => Some (InRows false "categories" ["market_cap_change_24h"])
  | GetCryptoBySector _ => Some (InRows false "coins" ["price_change_24h"])
  | _ => None
  end.

Definition rendered (spec : percent_spec) (payload : value) : Prop :=
  match spec with
  | InRows na key fields =>
      forall rows, get payload key = Ok (VArr rows) ->
                   Forall (fun e => Forall (percent_field na e) fields) rows
  | TopLevel na fields => Forall (percent_field na payload) fields
  end.

(** ** Sample responses *)

(** The network that answers every request alike. *)
Definition always (o : http_outcome) : network := fun _ _ => o.

(** The network that answers every request with 200 and [body]. *)
Definition ok_json (body : value) : network := always (Response 200 "OK" (Some body)).

Definition decimal (n : Z) (d : positive) : value := VNum (Num.Fin (n # d)).

Definition three_protocols : value :=
  VArr [
    VObj [("name", VStr "Aave"); ("tvl", num 100); ("change_1d", decimal 123 100)];
    VObj [("name", VStr "Lido"); ("tvl", num 300); ("change_1d", VNull)];
    VObj [("name", VStr "Maker"); ("tvl", num 200)]
  ].

Definition protocol_out (name : string) (tvl : Z) (change_1d : string) : value :=
  VObj [("name", VStr name); ("symbol", VUndef); ("tvl", num tvl);
        ("tvl_change_1d", VStr change_1d); ("tvl_change_7d", VStr "undefined%");
        ("tvl_change_1m", VStr "undefined%"); ("category", VUndef);
        ("chains", VUndef); ("slug", VUndef)].

Definition top (limit : Z) : tool_call :=
  GetTopDefiProtocols {| tdp_limit := Num.of_Z limit; tdp_chain := None;
                         tdp_category := None |}.

Definition top_two : ToolResult :=
  {| result := VObj [("protocols", VArr [protocol_out "Lido" 300 "undefined%";
                                         protocol_out "Maker" 200 "undefined%"]);
                     ("count", num 2)];
     sourceUrls := ["https://api.llama.fi/protocols"] |}.


Definition tvl_point (usd : Z) : value := VObj [("totalLiquidityUSD", num usd)].

(** What DeFiLlama answers for a protocol whose TVL went from [ago] to [now]. *)
Definition protocol_response (name symbol : string) (chains : list string) (ago now : Z)
  : http_outcome :=
  Response 200 "OK"
    (Some (VObj [("name", VStr name); ("symbol", VStr symbol);
                 ("category", VStr "Lending"); ("chains", VArr (List.map VStr chains));
                 ("tvl", VArr [tvl_point ago; tvl_point now])])).




(** A protocol with its three upstream changes. *)
Definition protocol_with_changes : value :=
  VArr [VObj [("name", VStr "Aave"); ("tvl", num 100); ("change_1d", decimal 3 2);
              ("change_7d", decimal (-9) 4); ("change_1m", num 10)]].

Definition protocol_with_changes_out : value :=
  VObj [("name", VStr "Aave"); ("symbol", VUndef); ("tvl", num 100);
        ("tvl_change_1d", VStr "1.50%"); ("tvl_change_7d", VStr "-2.25%");
        ("tvl_change_1m", VStr "10.00%"); ("category", VUndef);
        ("chains", VUndef); ("slug", VUndef)].

(** A chain whose TVL rose from 100 to 150. *)
Definition rising : value :=
  VArr [VObj [("date", num 1700000000); ("tvl", num 100)];
        VObj [("date", num 1700086400); ("tvl", num 150)]].

(** A chain whose TVL was negative ninety days ago. *)
Definition from_negative : value :=
  VArr [VObj [("date", num 1700000000); ("tvl", num (-5))];
        VObj [("date", num 1700086400); ("tvl", num 3)]].

Definition trend_from_negative : ToolResult :=
  {| result := VObj [("chain", VStr "Ethereum"); ("current_tvl", num 3);
                     ("tvl_90d_ago", num (-5)); ("change_90d", VStr "N/A");
                     ("history", VArr [VObj [("date", VStr "2023-11-14"); ("tvl", num (-5))];
                                       VObj [("date", VStr "2023-11-15"); ("tvl", num 3)]])];
     sourceUrls := ["https://api.llama.fi/v2/historicalChainTvl/Ethereum"] |}.

Definition one_price : value :=
  VObj [("prices", VArr [VArr [num 1700000000000; num 42]])].

Definition token_with_change : value :=
  VObj [("id", VStr "bitcoin");
        ("market_data", VObj [("price_change_percentage_24h", decimal 15 10)])].

Definition trending_item (id : string) (score : Z) : value :=
  VObj [("item", VObj [("id", VStr id); ("name", VStr id); ("symbol", VStr "tkn");
                       ("score", num score)])].

Definition trending_out (id : string) (score : Z) : value :=
  VObj [("id", VStr id); ("name", VStr id); ("symbol", VStr "TKN");
        ("market_cap_rank", VUndef); ("price_btc", VUndef); ("score", num score)].

Definition eight_ids : list string := ["a"; "b"; "c"; "d"; "e"; "f"; "g"; "h"].

Definition eight_trending : value :=
  VObj [("coins", VArr (List.map (fun id => trending_item id 0) eight_ids))].

(** The double nearest to 54.3189, which is what [JSON.parse] makes of that
    literal: 3822352778112113 / 2^46, a little below 54.3189. *)
Definition btc_share : Q := 3822352778112113 # 70368744177664.

Definition global_sample : value :=
  VObj [("data", VObj [("active_cryptocurrencies", num 17000);
                       ("market_cap_percentage",
                        VObj [("btc", VNum (Num.Fin btc_share)); ("eth", decimal 171 10)]);
                       ("market_cap_change_percentage_24h_usd", decimal (-125) 100)])].


Definition global_result : ToolResult :=
  {| result := VObj [("active_cryptocurrencies", num 17000); ("markets", VUndef);
                     ("total_market_cap_usd", VUndef); ("total_volume_24h_usd", VUndef);
                     ("btc_dominance", VStr "54.32%"); ("eth_dominance", VStr "17.10%");
                     ("market_cap_change_24h", VStr "-1.25%")];
     sourceUrls := ["https://api.coingecko.com/api/v3/global"] |}.

(** ** The request of a tool *)

(** The URL of the one request a tool makes, as its client function builds
    it; [None] for [compare_defi_protocols], which makes a request per
    protocol. *)
Definition single_request (c : tool_call) : option (res string) :=
  match c with
  | SearchCryptoTokens i =>
      Some (Ok (COINGECKO_BASE ++ "/search?query=" ++ encodeURIComponent (si_query i)))
  | GetTrendingCrypto => Some (Ok (COINGECKO_BASE ++ "/search/trending"))
  | GetCryptoTokenInfo i =>
      Some (Ok (COINGECKO_BASE ++ "/coins/" ++ encodeURIComponent (ti_token_id i)
                ++ "?localization=false&tickers=false&market_data=true"
                ++ "&community_data=false&developer_data=false"))
  | GetCryptoPrice i =>
      Some (Ok (COINGECKO_BASE ++ "/simple/price?ids="
                ++ form_encode (Str.join "," (pr_token_ids i))
                ++ "&vs_currencies=" ++ form_encode (pr_vs_currency i)
                ++ "&include_market_cap=true&include_24hr_vol=true"
                ++ "&include_24hr_change=true"))
  | GetCryptoOHLC i =>
      Some (getTokenOHLC_url (oh_token_id i) (Some (oh_vs_currency i)) (Some (oh_days i)))
  | GetCryptoPriceHistory i =>
      Some (getTokenMarketChart_url (ph_token_id i) (Some (ph_vs_currency i))
              (Some (ph_days i)))
  | GetGlobalCryptoData => Some (Ok (COINGECKO_BASE ++ "/global"))
  | GetTopCryptoCoins i =>
      Some (getTopCoins_url (Some "usd") (Some (top_coins_limit i)) (Some (tc_page i)) None)
  | GetCryptoFearGreed => Some (Ok "https://api.alternative.me/fng/?limit=10")
  | GetCryptoCategories => Some (Ok (COINGECKO_BASE ++ "/coins/categories"))
  | GetCryptoBySector i =>
      Some (Ok (COINGECKO_BASE ++ "/coins/markets?vs_currency=usd&category="
                ++ form_encode (se_category_id i)
                ++ "&order=market_cap_desc&per_page=50&page=1&sparkline=false"))
  | GetCryptoExchanges i =>
      Some (getExchanges_url (Some (Num.min (ex_limit i) (Num.of_Z 50))))
  | GetTopDefiProtocols _ => Some (Ok (DEFILLAMA_BASE ++ "/protocols"))
  | GetDefiProtocolDetail i =>
      Some (Ok (DEFILLAMA_BASE ++ "/protocol/" ++ encodeURIComponent (pi_protocol i)))
  | GetChainTVLData => Some (Ok (DEFILLAMA_BASE ++ "/v2/chains"))
  | GetChainTVLTrend i =>
      Some (Ok (DEFILLAMA_BASE ++ "/v2/historicalChainTvl/"
                ++ encodeURIComponent (ci_chain i)))
  | GetDefiYields _ => Some (Ok (DEFILLAMA_BASE ++ "/pools"))
  | GetStablecoinData =>
      Some (Ok "https://stablecoins.llama.fi/stablecoins?includePrices=true")
  | GetDexVolumeData => Some (Ok (DEFILLAMA_BASE ++ "/overview/dexs"))
  | CompareDefiProtocols _ => None
  end.

(** What a tool that makes one request comes to: the outcome of building
    the URL, then of the request, then of reshaping the body. *)
Definition after_fetch (body : value -> res value) (built : res string) (net : network)
  : res ToolResult * list string :=
  match built with
  | Ok u =>
      match fetchJson u net [] with
      | (Ok resp, log) =>
          (payload <- body (data resp) ;; Ok (formatToolResult payload [url resp]), log)
      | (Throw e, log) => (Throw e, log)
      | (Unmodelled, log) => (Unmodelled, log)
      end
  | Throw e => (Throw e, [])
  | Unmodelled => (Unmodelled, [])
  end.

(** ** Reading a URL back

    What the server does with the URL it receives: percent decoding of a
    path segment, and the parsing of a query string into its parameters
    (the [application/x-www-form-urlencoded] parser of the URL standard). *)

(** A byte that continues a UTF-8 sequence. *)
Definition continuation (c : ascii) : bool :=
  ((128 <=? Str.byte c) && (Str.byte c <=? 191))%N.

(** [s] is the UTF-8 form of a text, that is, of a JavaScript string in
    which every surrogate is half of a pair.  A string with a lone
    surrogate has no UTF-8 form: no [string] of the embedding stands for
    it, and on it [encodeURIComponent] throws a URIError where
    [URLSearchParams] writes U+FFFD. *)
Fixpoint well_formed (s : string) : bool :=
  match s with
  | EmptyString => true
  | String a r =>
      let b := Str.byte a in
      if (b <? 128)%N then well_formed r
      else if ((194 <=? b) && (b <=? 223))%N then
        match r with
        | String c1 r1 => continuation c1 && well_formed r1
        | _ => false
        end
      else if ((224 <=? b) && (b <=? 239))%N then
        match r with
        | String c1 (String c2 r2) =>
            continuation c1 && continuation c2
            && (if (b =? 224)%N then (160 <=? Str.byte c1)%N else true)
            && (if (b =? 237)%N then (Str.byte c1 <=? 159)%N else true)
            && well_formed r2
        | _ => false
        end
      else if ((240 <=? b) && (b <=? 244))%N then
        match r with
        | String c1 (String c2 (String c3 r3)) =>
            continuation c1 && continuation c2 && continuation c3
            && (if (b =? 240)%N then (144 <=? Str.byte c1)%N else true)
            && (if (b =? 244)%N then (Str.byte c1 <=? 143)%N else true)
            && well_formed r3
        | _ => false
        end
      else false
  end.

(** Percent decoding: [%XY] is the byte [16 X + Y]; a percent sign that two
    hexadecimal digits do not follow stands for itself. *)
Fixpoint percent_decode (s : string) : string :=
  match s with
  | EmptyString => EmptyString
  | String c r =>
      match r with
      | String h (String l t) =>
          match Ascii.eqb c "%", digit_value 16 h, digit_value 16 l with
          | true, Some x, Some y => String (ascii_of_N (16 * x + y)) (percent_decode t)
          | _, _, _ => String c (percent_decode r)
          end
      | _ => String c (percent_decode r)
      end
  end.

(** The pieces of [s] between the occurrences of [sep]. *)
Fixpoint split_on (sep : ascii) (s : string) : list string :=
  match s with
  | EmptyString => [EmptyString]
  | String c r =>
      if Ascii.eqb c sep then EmptyString :: split_on sep r
      else match split_on sep r with
           | h :: t => String c h :: t
           | [] => [String c EmptyString]
           end
  end.

(** The text after the first [sep]; empty when there is none. *)
Fixpoint after (sep : ascii) (s : string) : string :=
  match s with
  | EmptyString => EmptyString
  | String c r => if Ascii.eqb c sep then r else after sep r
  end.

Definition plus_to_space (s : string) : string :=
  Str.map (fun c => if Ascii.eqb c "+" then " "%char else c) s.

Definition form_decode (s : string) : string := percent_decode (plus_to_space s).

(** The parameters of a query string: the pieces between the ampersands
    that are not empty, each split at its first equals sign and decoded. *)
Definition parse_query (q : string) : list (string * string) :=
  List.map (fun piece => (form_decode (Str.before "=" piece), form_decode (after "=" piece)))
    (List.filter (fun piece => negb (piece =? "")) (split_on "&" q)).


(** The characters [URLSearchParams] writes a name or a value with. *)
Definition query_char (c : ascii) : bool := is_alnum c || mem_char c "*-._+%".

(** ** Caps *)

(** A list of at most [n] entries, a text of at most [n] characters, or
    nothing at all. *)
Definition at_most (n : nat) (v : value) : Prop :=
  match v with
  | VArr l => (List.length l <= n)%nat
  | VStr s => (String.length s <= n)%nat
  | VUndef => True
  | _ => False
  end.

(** The lists and texts a tool cuts to a fixed size, by their key in the
    result. *)
Definition caps (c : tool_call) : list (string * nat) :=
  match c with
  | SearchCryptoTokens _ => [("coins", 10); ("categories", 5); ("nfts", 3)]%nat
  | GetCryptoTokenInfo _ => [("description", 500)]%nat
  | GetCryptoFearGreed => [("history", 7)]%nat
  | GetCryptoCategories => [("categories", 30)]%nat
  | GetCryptoBySector _ => [("coins", 25)]%nat
  | GetDefiProtocolDetail _ => [("description", 500); ("tvl_history_30d", 30)]%nat
  | GetChainTVLData => [("chains", 30)]%nat
  | GetChainTVLTrend _ => [("history", 90)]%nat
  | GetStablecoinData => [("stablecoins", 20)]%nat
  | GetDexVolumeData => [("protocols", 20)]%nat
  | CompareDefiProtocols _ => [("comparison", 5)]%nat
  | _ => []
  end.

Definition capped (payload : value) (kc : string * nat) : Prop :=
  exists v, get payload (fst kc) = Ok v /\ at_most (snd kc) v.

(** ** Rankings *)



(** ** Filters *)

(** The callback [f] of a [filter] accepts [p]: it returns a truthy value. *)
Definition accepts (f : value -> res value) (p : value) : bool :=
  match f p with
  | Ok v => truthy v
  | _ => false
  end.

(** A filter the input may leave out. *)
Definition when_given {A : Type} (o : option A) (f : A -> value -> bool) (p : value) : bool :=
  match o with
  | Some a => f a p
  | None => true
  end.


(** The text under [k] contains the given text, up to case. *)
Definition mentions (k text : string) (p : value) : bool :=
  match lower text with
  | Ok textLower => accepts (in_category k textLower) p
  | _ => false
  end.


(** The chain filter of [get_defi_yields]: the pool's [chain] is the given
    chain up to case. *)
Definition pool_on_chain (chain : string) (p : value) : bool :=
  match lower chain with
  | Ok chainLower =>
      accepts (fun p => own <- get p "chain" >>= opt toLowerCase_ ;;
                        Ok (VBool (strict_eq_str own chainLower))) p
  | _ => false
  end.

Definition tvl_at_least (min_tvl : Num.t) (p : value) : bool :=
  accepts (fun p => t <- get p "tvlUsd" ;; b <- js_ge t (VNum min_tvl) ;; Ok (VBool b)) p.

Definition is_stablecoin (p : value) : bool :=
  accepts (fun p => s <- get p "stablecoin" ;; Ok (VBool (strict_eq_true s))) p.

(** The pools [get_defi_yields] keeps. *)
Definition pool_matches (input : DefiYieldsInput) (p : value) : bool :=
  when_given (given (dy_chain input)) pool_on_chain p &&
  when_given (given (dy_project input)) (mentions "project") p &&
  when_given (given_num (dy_min_tvl input)) tvl_at_least p &&
  (if dy_stablecoin_only input then is_stablecoin p else true).

(** ** Sampling *)

(** The step of the sample [get_crypto_price_history] takes of [n] price
    points: [Math.ceil(n / 20)]. *)
Definition sample_step (n : nat) : Z := Qceiling (inject_Z (Z.of_nat n) / inject_Z 20).

(** ** The latest point of a history *)

(** [a[a.length - 1]]: the last element of a list, [undefined] for the
    empty one. *)
Definition latest (a : list value) : value := nth (List.length a - 1) a VUndef.

(** The chains [tvl_by_chain] lists: those whose history is a list, but
    for the key [__proto__], under which an assignment creates nothing. *)
Definition listed_chain (e : string * value) : bool :=
  isArray (snd e) && negb (fst e =? "__proto__").

(** The array index a property name writes, if it writes one: the digits
    of an integer below [2^32 - 1], without a leading zero. *)
Definition array_index (k : string) : option N :=
  let n := read_digits 0 k in
  if (Str.of_N n =? k) && (n <? 2 ^ 32 - 1)%N then Some n else None.

(** The order in which an object lists its own properties: the array
    indices first, ascending, then the other names as they were added. *)
Fixpoint enumerated (keys : list string) : bool :=
  match keys with
  | [] => true
  | k :: r =>
      match array_index k with
      | Some n =>
          match r with
          | k' :: _ =>
              match array_index k' with
              | Some n' => (n <? n')%N
              | None => true
              end
          | [] => true
          end && enumerated r
      | None =>
          forallb (fun k' => match array_index k' with
                             | Some _ => false
                             | None => true
                             end) r
      end
  end.

(** One entry of [tvl_by_chain]: the history of a chain that is a list gives
    the [totalLiquidityUSD] of its latest point, or 0. *)
Definition chain_total (source entry : string * value) : Prop :=
  fst entry = fst source /\
  exists history liq,
    snd source = VArr history /\
    opt_get (latest history) "totalLiquidityUSD" = Ok liq /\
    snd entry = or_else liq (num 0).

(** ** The data of a compared protocol *)

(** A figure the tools can compute with: a Number, or nothing. *)
Definition number_or_missing (v : value) : bool :=
  match v with
  | VUndef | VNull | VNum _ => true
  | _ => false
  end.





(** ** The date of a point *)

(** [new Date(p.date * 1000)]: the date of a point of a history, [None]
    for an invalid date. *)
Definition date_of (p : value) : res Date.t :=
  d <- get p "date" ;; n <- js_mul d (num 1000) ;; Ok (Date.of_num n).

(** ** Readings of the Fear and Greed index *)

(** A reading as alternative.me sends one: the value and the time stamp
    (seconds since the epoch) are decimal strings, of an integer up to
    [2^53] and of a time that a [Date] can hold. *)
Definition reading_of (item : value) (r : N * value * N) : Prop :=
  exists ps,
    item = VObj ps /\
    field "value" ps = VStr (Str.of_N (fst (fst r))) /\
    field "value_classification" ps = snd (fst r) /\
    field "timestamp" ps = VStr (Str.of_N (snd r)) /\
    (fst (fst r) <= 2 ^ 53)%N /\
    (Z.of_N (snd r) * 1000 <= 8640000000000000)%Z.

(** The row of the history for a reading. *)
Definition reading_row (r : N * value * N) : value :=
  VObj [("value", VNum (Num.of_Z (Z.of_N (fst (fst r)))));
        ("classification", snd (fst r));
        ("date", VStr (Str.before "T" (Date.iso (Z.of_N (snd r) * 1000))))].

(** ** More sample responses *)

Definition found_coin : value :=
  VObj [("id", VStr "bitcoin"); ("name", VStr "Bitcoin"); ("symbol", VStr "btc");
        ("market_cap_rank", num 1)].

Definition found_row : value :=
  VObj [("id", VStr "bitcoin"); ("name", VStr "Bitcoin"); ("symbol", VStr "BTC");
        ("market_cap_rank", num 1)].

(** A search that finds twelve coins. *)
Definition twelve_found : value := VObj [("coins", VArr (List.repeat found_coin 12))].








Definition pool_in (name chain project : string) (tvl : Z) (stable : bool) (apy : Z)
  : value :=
  VObj [("pool", VStr name); ("chain", VStr chain); ("project", VStr project);
        ("tvlUsd", num tvl); ("stablecoin", VBool stable); ("apy", num apy)].

Definition five_pools : value :=
  VObj [("data", VArr [pool_in "p1" "Ethereum" "aave-v3" 500 true 3;
                       pool_in "p2" "Ethereum" "aave-v3" 50 true 9;
                       pool_in "p3" "Solana" "aave-v3" 500 true 4;
                       pool_in "p4" "Ethereum" "Aave-v2" 900 true 5;
                       pool_in "p5" "Ethereum" "aave-v3" 500 false 7])].

(** Stablecoin pools of Aave on Ethereum with a TVL of 100 at least. *)
Definition stable_aave_pools : DefiYieldsInput :=
  {| dy_chain := Some "ETHEREUM"; dy_project := Some "aave";
     dy_min_tvl := Some (Num.of_Z 100); dy_stablecoin_only := true;
     dy_limit := Num.of_Z 20 |}.

(** Twenty-five hourly prices. *)
Definition price_at (i : nat) : value :=
  VArr [num (1700000000000 + 3600000 * Z.of_nat i); num (100 + Z.of_nat i)].

Definition a_day_of_prices : value :=
  VObj [("prices", VArr (List.map price_at (seq 0 25)))].

Definition bitcoin_day : PriceHistoryInput :=
  {| ph_token_id := "bitcoin"; ph_days := Days (Num.of_Z 1); ph_vs_currency := "usd" |}.

Definition aave_detail : value :=
  VObj [("name", VStr "Aave"); ("mcap", num 30);
        ("chainTvls", VObj [("Ethereum", VArr [tvl_point 8; tvl_point 12]);
                            ("borrowed", VObj [("tvl", VArr [])]);
                            ("Solana", VArr [])]);
        ("tvl", VArr [VObj [("date", num 1700000000); ("totalLiquidityUSD", num 10)];
                      VObj [("date", num 1700086400); ("totalLiquidityUSD", num 15)]])].

(** A protocol with a chain called [__proto__]. *)
Definition detail_with_proto : value :=
  VObj [("name", VStr "Aave");
        ("chainTvls", VObj [("Ethereum", VArr [tvl_point 8; tvl_point 12]);
                            ("__proto__", VArr [tvl_point 5]);
                            ("borrowed", VObj [("tvl", VArr [])]);
                            ("Solana", VArr [])])].

(** A history whose second point has no date. *)
Definition undated_point : list value :=
  [VObj [("date", num 1700000000); ("tvl", num 1)]; VObj [("tvl", num 2)]].

Definition reading (v c t : string) : value :=
  VObj [("value", VStr v); ("value_classification", VStr c); ("timestamp", VStr t)].

Definition two_readings : value :=
  VObj [("name", VStr "Fear and Greed Index");
        ("data", VArr [reading "25" "Extreme Fear" "1700000000";
                       reading "31" "Fear" "1699913600"])].

(** The text "1 € / coin?", with the euro sign as its three UTF-8 bytes. *)
Definition euro_text : string :=
  "1 " ++ String "226" (String "130" (String "172" " / coin?")).

Definition exchange (id : string) (rank : Z) : value :=
  VObj [("id", VStr id); ("name", VStr id); ("trust_score_rank", num rank)].

Definition exchange_out (id : string) (rank : Z) : value :=
  VObj [("rank", num rank); ("id", VStr id); ("name", VStr id); ("trust_score", VUndef);
        ("volume_24h_btc", VUndef); ("year_established", VUndef); ("country", VUndef)].

(** A category whose change is a string. *)
Definition change_as_text : value :=
  VArr [VObj [("id", VStr "layer-1"); ("market_cap_change_24h", VStr "1.5")]].

(** * The tool selection prompt (src/agent/prompts.ts) *)

Definition LF : string := String "010"%char "".

Definition TOOL_SELECTION_SYSTEM_PROMPT : string :=
  "Select and call tools to complete the task. Use the provided tickers and parameters."
  ++ LF ++ LF ++ "{tools}".

(** [StringIndexOf(s, p, 0)], given as the text before and the text after
    the first occurrence of [p] in [s]. *)
Fixpoint index_of (p s : string) : option (string * string) :=
  if prefix p s then Some ("", Str.drop (length p) s)
  else match s with
       | EmptyString => None
       | String c r =>
           match index_of p r with
           | Some (before, after) => Some (String c before, after)
           | None => None
           end
       end.

(** [GetSubstitution] for a pattern that is a string, so without captures:
    in the replacement text [$$] stands for a dollar sign, [$&] for the
    matched text, [$`] for the text before the match and [$'] for the text
    after it; a dollar sign before anything else ([$1] and [$<] too, there
    being no capture) stands for itself. *)
Fixpoint GetSubstitution (matched before after template : string) : string :=
  match template with
  | EmptyString => ""
  | String c t =>
      if Ascii.eqb c "$" then
        match t with
        | String k r =>
            if Ascii.eqb k "$" then String "$" (GetSubstitution matched before after r)
            else if Ascii.eqb k "&" then matched ++ GetSubstitution matched before after r
            else if Ascii.eqb k "`" then before ++ GetSubstitution matched before after r
            else if Ascii.eqb k "'" then after ++ GetSubstitution matched before after r
            else String "$" (GetSubstitution matched before after t)
        | EmptyString => "$"
        end
      else String c (GetSubstitution matched before after t)
  end.

(** [s.replace(pattern, replacement)] with two strings: the first
    occurrence only, and [s] itself when there is none. *)
Definition replace (s pattern replacement : string) : string :=
  match index_of pattern s with
  | Some (before, after) =>
      before ++ GetSubstitution pattern before after replacement ++ after
  | None => s
  end.

Definition getToolSelectionSystemPrompt (toolDescriptions : string) : string :=
  replace TOOL_SELECTION_SYSTEM_PROMPT "{tools}" toolDescriptions.

(** The text of the prompt before its placeholder. *)
Definition selection_intro : string :=
  "Select and call tools to complete the task. Use the provided tickers and parameters."
  ++ LF ++ LF.

Definition no_dollar (s : string) : bool :=
  Str.forallb (fun c => negb (Ascii.eqb c "$")) s.

Definition special (c : ascii) : bool :=
  Ascii.eqb c "$" || Ascii.eqb c "&" || Ascii.eqb c "`" || Ascii.eqb c "'".

(** A dollar sign followed by [$], [&], a backquote or a quote occurs in
    [s]. *)
Fixpoint has_dollar_pattern (s : string) : bool :=
  match s with
  | EmptyString => false
  | String c t =>
      (Ascii.eqb c "$" && match t with String k _ => special k | EmptyString => false end)
      || has_dollar_pattern t
  end.

(** * Properties *)

(** ** The model on examples *)

Example toFixed_ex1 : toFixed 2 (Num.Fin (543189 # 10000)) = Some "54.32".
Proof. reflexivity. Qed.
Example toFixed_of_double : toFixed 2 (Num.Fin btc_share) = Some "54.32".
Proof. reflexivity. Qed.
Example toFixed_ex2 : toFixed 2 (Num.Fin (-(1 # 1000))) = Some "-0.00".
Proof. reflexivity. Qed.
Example toFixed_ex3 : toFixed 2 (Num.Fin (5 # 1000)) = Some "0.01".
Proof. reflexivity. Qed.
Example toFixed_ex4 : toFixed 2 (Num.Fin (-(12345 # 10))) = Some "-1234.50".
Proof. reflexivity. Qed.
Example toFixed_ex5 : toFixed 2 (Num.Fin 0) = Some "0.00".
Proof. reflexivity. Qed.
Example of_Z_ex : Str.of_Z 1700000000 = "1700000000" /\ Str.of_Z (-42) = "-42" /\ Str.of_Z 0 = "0".
Proof. repeat split. Qed.

Example iso_epoch : Date.iso 0 = "1970-01-01T00:00:00.000Z".
Proof. reflexivity. Qed.
Example iso_2023 : Date.iso 1700000000000 = "2023-11-14T22:13:20.000Z".
Proof. reflexivity. Qed.
Example iso_leap : Date.iso 1709164800123 = "2024-02-29T00:00:00.123Z".
Proof. reflexivity. Qed.
Example iso_before_epoch : Date.iso (-1) = "1969-12-31T23:59:59.999Z".
Proof. reflexivity. Qed.

Example parseInt_ex :
  parseInt (VStr "1700000000") = Ok (Num.of_Z 1700000000) /\
  parseInt (VStr " -12px") = Ok (Num.of_Z (-12)) /\
  parseInt (VStr "0x1f") = Ok (Num.of_Z 31) /\
  parseInt (VStr "abc") = Ok Num.NaN /\
  parseInt VUndef = Ok Num.NaN.
Proof. repeat split. Qed.

Example encodeURIComponent_ex :
  encodeURIComponent "usd&days=1 a/b" = "usd%26days%3D1%20a%2Fb".
Proof. reflexivity. Qed.

Example URLSearchParams_ex :
  URLSearchParams [("ids", "bitcoin,ethereum"); ("vs_currencies", "us d")]
  = "ids=bitcoin%2Cethereum&vs_currencies=us+d".
Proof. reflexivity. Qed.

Example top_two_run :
  run (invoke (top 2)) (ok_json three_protocols) = (Ok top_two, ["https://api.llama.fi/protocols"]).
Proof. reflexivity. Qed.

(** ** Inversion of the monads *)

Lemma bind_Ok {A B : Type} (m : res A) (k : A -> res B) (b : B) :
  bind m k = Ok b -> exists a, m = Ok a /\ k a = Ok b.
Proof. destruct m; simpl; intros H; try discriminate. eauto. Qed.

Lemma and_then_Ok {A B : Type} (m : res A) (k : A -> res B) (b : B) :
  (m >>= k) = Ok b -> exists a, m = Ok a /\ k a = Ok b.
Proof. apply bind_Ok. Qed.

Lemma mapM_Ok {A B : Type} (f : A -> res B) (l : list A) (r : list B) :
  mapM f l = Ok r -> Forall2 (fun x y => f x = Ok y) l r.
Proof.
  revert r. induction l as [|x l IH]; simpl; intros r H.
  - injection H as <-. constructor.
  - apply bind_Ok in H as (y & Hy & H).
    apply bind_Ok in H as (ys & Hys & H).
    injection H as <-. constructor; auto.
Qed.

Lemma Forall2_length_eq {A B : Type} (R : A -> B -> Prop) l r :
  Forall2 R l r -> List.length l = List.length r.
Proof. induction 1; simpl; congruence. Qed.

Lemma io_bind_Ok {A B : Type} (m : io A) (k : A -> io B) net log b log' :
  io_bind m k net log = (Ok b, log') ->
  exists a log1, m net log = (Ok a, log1) /\ k a net log1 = (Ok b, log').
Proof.
  unfold io_bind. destruct (m net log) as [[a|e|] log1]; intros H; try discriminate.
  eauto.
Qed.

Lemma lift_Ok {A : Type} (r : res A) net log a log' :
  lift r net log = (Ok a, log') -> r = Ok a /\ log' = log.
Proof. unfold lift. intros H. injection H as -> ->. auto. Qed.

Lemma fetchJson_Ok u net log resp log' :
  fetchJson u net log = (Ok resp, log') ->
  url resp = u /\ log' = (log ++ [u])%list /\
  exists status text,
    net (List.length log) u = Response status text (Some (data resp)) /\
    response_ok status = true.
Proof.
  unfold fetchJson.
  destruct (net (List.length log) u) as [|status text body]; try discriminate.
  destruct (response_ok status) eqn:Hok; simpl.
  - destruct body as [d|]; intros H; try discriminate.
    injection H as <- <-. simpl. eauto 6.
  - destruct (status =? 429)%Z; discriminate.
Qed.

(** The shape every single-fetch tool has: one client call, the reshaping
    of its data, the result with the URL of the call. *)
Lemma single_fetch_tool (client : io ApiResponse) (body : value -> res value)
    net log tr log' :
  (r <- client ;; payload <- lift (body (data r)) ;;
   io_ret (formatToolResult payload [url r]))%io net log = (Ok tr, log') ->
  exists resp, client net log = (Ok resp, log') /\
               body (data resp) = Ok (result tr) /\
               sourceUrls tr = [url resp].
Proof.
  intros H. apply io_bind_Ok in H as (resp & log1 & Hc & H).
  apply io_bind_Ok in H as (payload & log2 & Hl & H).
  apply lift_Ok in Hl as [Hb ->].
  unfold io_ret in H. injection H as <- <-.
  exists resp. auto.
Qed.

Lemma prefix_app (a b : string) : prefix a (a ++ b) = true.
Proof.
  induction a as [|c a IH]; simpl; [now destruct b|].
  destruct (ascii_dec c c); congruence.
Qed.

Lemma prefix_app_r (a b c : string) : prefix a b = true -> prefix a (b ++ c) = true.
Proof.
  revert b. induction a as [|x a IH]; intros [|y b]; simpl; auto; try discriminate.
  - now destruct c.
  - destruct (ascii_dec x y); auto.
Qed.

(** ** The fetch layer *)

Lemma fetchJson_log u net log : snd (fetchJson u net log) = (log ++ [u])%list.
Proof.
  unfold fetchJson.
  destruct (net (List.length log) u) as [|status text [d|]]; simpl; auto;
    destruct (response_ok status); simpl; auto; destruct (status =? 429)%Z; auto.
Qed.

Lemma upstream_message_differs (status : Z) (statusText : string) :
  "API request failed: " ++ Str.of_Z status ++ " " ++ statusText <> rate_limit_message.
Proof. discriminate. Qed.

(** C3: a 429 response makes [fetchJson] throw the error whose message asks
    to retry later; any other status outside 200-299 makes it throw the
    error "API request failed: <status> <statusText>", whose message is
    never the retry-later one. *)
Theorem fetchJson_rate_limited (u : string) (net : network) (log : list string)
    (status : Z) (statusText : string) (body : option value) :
  net (List.length log) u = Response status statusText body ->
  response_ok status = false ->
  fetchJson u net log =
    (Throw (Error (if (status =? 429)%Z then rate_limit_message
                   else "API request failed: " ++ Str.of_Z status ++ " " ++ statusText)),
     (log ++ [u])%list)
  /\ response_ok 429 = false
  /\ "API request failed: " ++ Str.of_Z status ++ " " ++ statusText <> rate_limit_message.
Proof.
  intros Hnet Hok. split; [|split].
  - unfold fetchJson. rewrite Hnet, Hok. simpl.
    destruct (status =? 429)%Z; reflexivity.
  - reflexivity.
  - apply upstream_message_differs.
Qed.

Lemma fetchJson_rate_limited_witness :
  fetchJson "https://api.llama.fi/protocols" (always (Response 429 "Too Many Requests" None)) []
  = (Throw (Error "Rate limited by API. Please wait a moment and try again."),
     ["https://api.llama.fi/protocols"])
  /\ fetchJson "https://api.llama.fi/protocols" (always (Response 404 "Not Found" None)) []
  = (Throw (Error "API request failed: 404 Not Found"), ["https://api.llama.fi/protocols"]).
Proof.
  split.
  - exact (proj1 (@fetchJson_rate_limited "https://api.llama.fi/protocols"
                    (always (Response 429 "Too Many Requests" None)) []
                    429 "Too Many Requests" None eq_refl eq_refl)).
  - exact (proj1 (@fetchJson_rate_limited "https://api.llama.fi/protocols"
                    (always (Response 404 "Not Found" None)) []
                    404 "Not Found" None eq_refl eq_refl)).
Defined.

(** ** Source URLs *)

Lemma compare_one_log p net log :
  snd (compare_one p net log) = (log ++ [protocol_url p])%list.
Proof.
  unfold compare_one, try_catch, io_bind, getProtocolTVL.
  pose proof (fetchJson_log (protocol_url p) net log) as Hlog.
  unfold protocol_url in *.
  destruct (fetchJson _ net log) as [[r|e|] log1]; simpl in *; subst log1; auto.
  unfold lift. destruct (comparison_entry (data r)); reflexivity.
Qed.

Lemma promise_all_log l net log :
  snd (promise_all compare_one l net log) = (log ++ List.map protocol_url l)%list.
Proof.
  revert log. induction l as [|p l IH]; intros log; simpl.
  - now rewrite app_nil_r.
  - pose proof (compare_one_log p net log) as H1.
    destruct (compare_one p net log) as [y log1]. simpl in H1. subst log1.
    specialize (IH (log ++ [protocol_url p])%list).
    destruct (promise_all compare_one l net _) as [ys log2]. simpl in *.
    now rewrite IH, <- app_assoc.
Qed.

Lemma compare_log input net log :
  snd (compareDefiProtocols input net log)
  = (log ++ List.map protocol_url (compared input))%list.
Proof.
  unfold compareDefiProtocols, io_bind.
  pose proof (promise_all_log (compared input) net log) as H.
  unfold compared in *.
  destruct (promise_all compare_one _ net log) as [[rs|e|] log1]; simpl in *; subst; auto.
  unfold lift. destruct (mapM with_change rs); reflexivity.
Qed.

Lemma compare_sources input net log tr log' :
  compareDefiProtocols input net log = (Ok tr, log') ->
  sourceUrls tr = ["https://api.llama.fi"].
Proof.
  intros H. unfold compareDefiProtocols in H.
  apply io_bind_Ok in H as (rs & log1 & _ & H).
  apply io_bind_Ok in H as (cs & log2 & _ & H).
  unfold io_ret in H. now injection H as <- _.
Qed.

Ltac fetched H :=
  let resp := fresh "resp" in
  let Hu := fresh "Hu" in
  let Hl := fresh "Hl" in
  apply single_fetch_tool in H as (resp & H & _ & ->);
  first
    [ apply fetchJson_Ok in H as (Hu & Hl & _)
    | let u := fresh "u" in
      let Hurl := fresh "Hurl" in
      let log1 := fresh "log" in
      apply io_bind_Ok in H as (u & log1 & Hurl & H);
      apply lift_Ok in Hurl as [Hurl ->];
      apply fetchJson_Ok in H as (Hu & Hl & _);
      repeat (apply bind_Ok in Hurl as (? & _ & Hurl));
      injection Hurl as <- ];
  rewrite Hu, Hl; simpl;
  split; [discriminate|]; split; intros Hlit; try discriminate;
  repeat split; repeat constructor; try apply prefix_app; try reflexivity.

Lemma Forall_prefix_protocol_url l :
  Forall (fun u => Str.starts_with DEFILLAMA_BASE u = true) (List.map protocol_url l).
Proof.
  induction l; simpl; constructor; auto.
Qed.

(** C8, as the code has it: a successful call returns a list of source
    URLs that is not empty.  For every tool but [get_crypto_fear_greed] and
    [get_stablecoin_data], every URL of that list, and every URL the call
    requested, begins with the base URL of the tool's provider.  Those two
    tools fetch a URL written out in full, on a host of its own: their
    source is the URL they requested, and it begins with neither base
    URL. *)
Theorem source_urls_begin_with_base (c : tool_call) (net : network)
    (tr : ToolResult) (log : list string) :
  run (invoke c) net = (Ok tr, log) ->
  sourceUrls tr <> [] /\
  (fetches_literal_url c = false ->
   Forall (fun u => Str.starts_with (base_url (provider_of c)) u = true) (sourceUrls tr) /\
   Forall (fun u => Str.starts_with (base_url (provider_of c)) u = true) log) /\
  (fetches_literal_url c = true ->
   sourceUrls tr = log /\
   Forall (fun u => Str.starts_with COINGECKO_BASE u = false /\
                    Str.starts_with DEFILLAMA_BASE u = false) log).
Proof.
  unfold run. intros H.
  destruct c; simpl in H |- *;
    try solve [ match goal with
                | H : ?tool _ _ _ = _ |- _ => unfold tool in H
                | H : ?tool _ _ = _ |- _ => unfold tool in H
                end; fetched H ].
  - (* get_crypto_price *)
    unfold getCryptoPrice in H.
    apply io_bind_Ok in H as (resp & log1 & H & Hr).
    unfold io_ret in Hr. injection Hr as <- <-.
    apply fetchJson_Ok in H as (Hu & Hl & _). simpl. rewrite Hu, Hl. simpl.
    split; [discriminate|]. split; intros Hlit; try discriminate.
    repeat split; repeat constructor; apply prefix_app.
  - (* compare_defi_protocols *)
    pose proof (compare_log input net []) as Hlog.
    rewrite H in Hlog. simpl in Hlog. subst log.
    apply compare_sources in H. rewrite H.
    split; [discriminate|]. split; intros Hlit; try discriminate.
    split.
    + repeat constructor.
    + apply Forall_prefix_protocol_url.
Qed.

Lemma source_urls_begin_with_base_witness :
  sourceUrls global_result <> [] /\
  Forall (fun u => Str.starts_with COINGECKO_BASE u = true) (sourceUrls global_result) /\
  Forall (fun u => Str.starts_with COINGECKO_BASE u = true)
    ["https://api.coingecko.com/api/v3/global"].
Proof.
  destruct (@source_urls_begin_with_base GetGlobalCryptoData (ok_json global_sample)
              global_result ["https://api.coingecko.com/api/v3/global"] eq_refl)
    as (Hne & Hbase & _).
  split; [exact Hne|]. exact (Hbase eq_refl).
Defined.

(** C8 fails as stated.  [get_crypto_fear_greed] stands with the CoinGecko
    tools and [get_stablecoin_data] with the DeFiLlama ones, but the source
    each returns is on another host and does not begin with the base URL of
    its provider. *)
Lemma sources_on_another_host :
  (exists tr,
      run (invoke GetCryptoFearGreed) (ok_json two_readings)
      = (Ok tr, ["https://api.alternative.me/fng/?limit=10"]) /\
      sourceUrls tr = ["https://api.alternative.me/fng/?limit=10"] /\
      Str.starts_with (base_url (provider_of GetCryptoFearGreed))
        "https://api.alternative.me/fng/?limit=10" = false) /\
  (exists tr,
      run (invoke GetStablecoinData) (ok_json (VObj [("peggedAssets", VArr [])]))
      = (Ok tr, ["https://stablecoins.llama.fi/stablecoins?includePrices=true"]) /\
      sourceUrls tr = ["https://stablecoins.llama.fi/stablecoins?includePrices=true"] /\
      Str.starts_with (base_url (provider_of GetStablecoinData))
        "https://stablecoins.llama.fi/stablecoins?includePrices=true" = false).
Proof.
  split; eexists; repeat split.
Qed.

(** ** Lists and their counts *)

Lemma map_Ok f v r :
  map_ f v = Ok r ->
  exists l rows, v = VArr l /\ r = VArr rows /\ Forall2 (fun x y => f x = Ok y) l rows.
Proof.
  destruct v; simpl; try discriminate. intros H.
  apply bind_Ok in H as (rows & Hm & H). injection H as <-.
  apply mapM_Ok in Hm. eauto.
Qed.

Lemma opt_Ok m v r :
  opt m v = Ok r -> (nullish v = true /\ r = VUndef) \/ (nullish v = false /\ m v = Ok r).
Proof.
  unfold opt. destruct (nullish v); intros H; [left|right]; split; auto. congruence.
Qed.

Lemma or_Ok d v r : or_ d v = Ok r -> r = or_else v d.
Proof. unfold or_. congruence. Qed.

Lemma rows_of_map row v r : map_ row v = Ok r -> rows_of row r.
Proof. intros H. apply map_Ok in H as (l & rows & _ & -> & H). exists l, rows. auto. Qed.

Lemma rows_of_or_empty row v : v = VUndef \/ rows_of row v -> rows_of row (or_else v (VArr [])).
Proof.
  intros [->|(l & rows & -> & H)]; unfold or_else; simpl.
  - exists [], []. split; auto.
  - exists l, rows. auto.
Qed.

Lemma of_nat_or_zero n : or_else (VNum (Num.of_nat n)) (num 0) = VNum (Num.of_nat n).
Proof. destruct n; reflexivity. Qed.

Lemma count_or_zero_rows row v c :
  v = VUndef \/ rows_of row v ->
  count_or_zero v = Ok c ->
  match v with
  | VArr rows => c = VNum (Num.of_nat (List.length rows))
  | _ => v = VUndef /\ c = num 0
  end.
Proof.
  intros [->|(l & rows & -> & _)]; unfold count_or_zero; simpl; intros H.
  - injection H as <-. auto.
  - unfold or_, and_then in H. simpl in H. injection H as <-. apply of_nat_or_zero.
Qed.

Ltac inv_res :=
  repeat match goal with
    | H : bind _ _ = Ok _ |- _ =>
        let x := fresh "x" in let Hx := fresh "Hx" in
        apply bind_Ok in H as (x & Hx & H)
    | H : (_ >>= _) = Ok _ |- _ =>
        let x := fresh "x" in let Hx := fresh "Hx" in
        apply and_then_Ok in H as (x & Hx & H)
    | H : or_ _ _ = Ok _ |- _ => apply or_Ok in H
    | H : Ok _ = Ok _ |- _ => injection H as H
    end.

Lemma counted_with_length key rows r :
  object [(key, Ok (VArr rows)); ("count", get (VArr rows) "length")] = Ok r ->
  key <> "count" ->
  count_agrees key r.
Proof.
  unfold object. simpl. intros H Hk. injection H as <-.
  apply String.eqb_neq in Hk. rewrite String.eqb_sym in Hk.
  unfold count_agrees, field, lookup. now rewrite String.eqb_refl, Hk, String.eqb_refl.
Qed.

Lemma top_defi_count input data r :
  getTopDefiProtocols_body input data = Ok r -> count_agrees "protocols" r.
Proof.
  unfold getTopDefiProtocols_body. intros H.
  apply bind_Ok in H as (p1 & _ & H). apply bind_Ok in H as (p2 & _ & H).
  apply bind_Ok in H as (p3 & _ & H). apply bind_Ok in H as (res & Hm & H).
  apply map_Ok in Hm as (l & rows & _ & -> & _).
  now apply counted_with_length in H.
Qed.

Lemma yields_count input data r :
  getDefiYields_body input data = Ok r -> count_agrees "pools" r.
Proof.
  unfold getDefiYields_body. intros H.
  do 6 (apply bind_Ok in H as (? & _ & H)).
  apply bind_Ok in H as (res & Hm & H).
  apply map_Ok in Hm as (l & rows & _ & -> & _).
  now apply counted_with_length in H.
Qed.

Lemma opt_rows (F : value -> res value) row v r :
  (forall x y, F x = Ok y -> rows_of row y) ->
  opt F v = Ok r -> r = VUndef \/ rows_of row r.
Proof.
  intros HF H. apply opt_Ok in H as [[_ ->]|[_ H]]; eauto.
Qed.

Lemma slice_map_rows a b row x y :
  (slice_ a b x >>= map_ row) = Ok y -> rows_of row y.
Proof. intros H. inv_res. eapply rows_of_map; eauto. Qed.

Lemma sort_slice_map_rows cmp a b row x y :
  (sort_ cmp x >>= slice_ a b >>= map_ row) = Ok y -> rows_of row y.
Proof. intros H. inv_res. eapply rows_of_map; eauto. Qed.

Lemma counted_or_empty key row v r :
  (formatted <- Ok (or_else v (VArr [])) ;;
   object [(key, Ok formatted); ("count", get formatted "length")]) = Ok r ->
  v = VUndef \/ rows_of row v ->
  key <> "count" ->
  count_agrees key r.
Proof.
  intros H Hv Hk. simpl in H.
  apply rows_of_or_empty in Hv as (l & rows & Hr & _). rewrite Hr in H.
  now apply counted_with_length in H.
Qed.

Lemma counted_or_zero key row v r :
  object [(key, Ok v); ("count", count_or_zero v)] = Ok r ->
  v = VUndef \/ rows_of row v ->
  key <> "count" ->
  count_agrees key r.
Proof.
  unfold object. simpl. intros H Hv Hk.
  destruct (count_or_zero v) as [c| |] eqn:Hc; simpl in H; try discriminate.
  injection H as <-.
  apply (count_or_zero_rows Hv) in Hc.
  apply String.eqb_neq in Hk. rewrite String.eqb_sym in Hk.
  unfold count_agrees, field, lookup. rewrite String.eqb_refl, Hk, String.eqb_refl.
  destruct Hv as [->|(l & rows & -> & _)]; [now destruct Hc|exact Hc].
Qed.

(** C10: in the result of every tool that returns a [count] next to a list,
    [count] is the number of entries of that list, and 0 when the list is
    absent. *)
Theorem count_is_list_length (c : tool_call) (net : network)
    (tr : ToolResult) (log : list string) (key : string) :
  run (invoke c) net = (Ok tr, log) ->
  counted_list c = Some key ->
  count_agrees key (result tr).
Proof.
  unfold run. intros H Hk.
  destruct c; simpl in Hk; try discriminate; injection Hk as <-; simpl in H;
    match goal with
    | H : ?tool _ _ _ = _ |- _ => unfold tool in H
    | H : ?tool _ _ = _ |- _ => unfold tool in H
    end;
    apply single_fetch_tool in H as (resp & _ & H & _).
  - (* get_crypto_ohlc *)
    unfold getCryptoOHLC_body in H.
    apply bind_Ok in H as (f & Hf & H). inv_res. subst f.
    eapply counted_or_empty with (row := candle_row); [exact H| |discriminate].
    eapply opt_rows; [|eassumption]. intros a b. apply rows_of_map.
  - (* get_top_crypto_coins *)
    unfold getTopCryptoCoins_body in H.
    apply bind_Ok in H as (f & Hf & H). inv_res. subst f.
    eapply counted_or_empty with (row := coin_row); [exact H| |discriminate].
    eapply opt_rows; [|eassumption]. intros a b. apply rows_of_map.
  - (* get_crypto_categories *)
    unfold getCryptoCategories_body in H.
    apply bind_Ok in H as (f & Hf & H). inv_res. subst f.
    eapply counted_or_empty with (row := category_row); [exact H| |discriminate].
    eapply opt_rows; [|eassumption]. intros a b. apply slice_map_rows.
  - (* get_crypto_by_sector *)
    unfold getCryptoBySector_body in H.
    apply bind_Ok in H as (f & Hf & H). inv_res. subst f.
    assert (Hrows : rows_of sector_row (or_else x (VArr []))).
    { apply rows_of_or_empty. eapply opt_rows; [|eassumption].
      intros a b. apply slice_map_rows. }
    destruct Hrows as (l & rows & Hr & _). rewrite Hr in H.
    unfold object in H. simpl in H. injection H as <-.
    reflexivity.
  - (* get_crypto_exchanges *)
    unfold getCryptoExchanges_body in H.
    apply bind_Ok in H as (f & Hf & H). inv_res. subst f.
    eapply counted_or_empty with (row := exchange_row); [exact H| |discriminate].
    eapply opt_rows; [|eassumption]. intros a b. apply rows_of_map.
  - (* get_top_defi_protocols *)
    eapply top_defi_count; eauto.
  - (* get_chain_tvl_data *)
    unfold getChainTVLData_body in H.
    apply bind_Ok in H as (chains & Hc & H).
    eapply counted_or_zero with (row := chain_row); [exact H| |discriminate].
    eapply opt_rows; [|eassumption]. intros a b. apply sort_slice_map_rows.
  - (* get_defi_yields *)
    eapply yields_count; eauto.
  - (* get_stablecoin_data *)
    unfold getStablecoinData_body in H.
    apply bind_Ok in H as (stables & Hc & H). inv_res.
    eapply counted_or_zero with (row := stablecoin_row); [exact H| |discriminate].
    eapply opt_rows; [|eassumption]. intros a b. apply sort_slice_map_rows.
Qed.

Lemma count_is_list_length_witness : count_agrees "protocols" (result top_two).
Proof.
  exact (@count_is_list_length (top 2) (ok_json three_protocols) top_two
           ["https://api.llama.fi/protocols"] "protocols" eq_refl eq_refl).
Defined.

Lemma props_of_Ok fields ps :
  props_of fields = Ok ps -> Forall2 evaluates fields ps.
Proof.
  revert ps. induction fields as [|[k m] fields IH]; simpl; intros ps H.
  - injection H as <-. constructor.
  - apply bind_Ok in H as (v & Hv & H). apply bind_Ok in H as (ps' & Hps & H).
    injection H as <-. constructor; [split; auto|auto].
Qed.

Lemma object_Ok fields r :
  object fields = Ok r -> exists ps, r = VObj ps /\ Forall2 evaluates fields ps.
Proof.
  unfold object. intros H. apply bind_Ok in H as (ps & Hps & H). injection H as <-.
  apply props_of_Ok in Hps. eauto.
Qed.

(** Splits the hypothesis that an object literal evaluated into one
    equation for each of its properties. *)
Ltac inv_object H :=
  let ps := fresh "ps" in
  let HF := fresh "HF" in
  apply object_Ok in H as (ps & -> & HF);
  repeat match goal with
    | H : Forall2 evaluates (_ :: _) _ |- _ =>
        let p := fresh "p" in let k := fresh "k" in let v := fresh "v" in
        let E := fresh "E" in let Hk := fresh "Hk" in let Hv := fresh "Hv" in
        inversion H as [|? [k v] ? ? [Hk Hv] ?]; clear H; subst;
        cbn [fst snd] in Hk, Hv; subst k
    | H : Forall2 evaluates [] _ |- _ => inversion H; clear H; subst
    end;
  repeat match goal with
    | H : Ok ?a = Ok ?b |- _ => injection H as H; first [subst b | subst a | idtac]
    end.

(** ** The comparison tool *)

Lemma compare_one_spec p net log :
  compare_one p net log
  = (fetched_entry (net (List.length log) (protocol_url p)) p,
     (log ++ [protocol_url p])%list).
Proof.
  unfold compare_one, try_catch, io_bind, getProtocolTVL, fetchJson, fetched_entry.
  fold (protocol_url p).
  destruct (net (List.length log) (protocol_url p)) as [|status text [d|]]; simpl; auto.
  - destruct (response_ok status); simpl.
    + unfold lift. destruct (comparison_entry d); reflexivity.
    + destruct (status =? 429)%Z; reflexivity.
  - destruct (response_ok status); simpl; auto.
    destruct (status =? 429)%Z; reflexivity.
Qed.

Lemma promise_all_spec l net log :
  fst (promise_all compare_one l net log)
  = mapM (fun ip => fetched_entry (net (fst ip) (protocol_url (snd ip))) (snd ip))
      (indexed (List.length log) l).
Proof.
  revert log. induction l as [|p l IH]; intros log; simpl; auto.
  rewrite compare_one_spec.
  specialize (IH (log ++ [protocol_url p])%list).
  destruct (promise_all compare_one l net _) as [ys log2]. simpl in *.
  rewrite IH, length_app. simpl. now rewrite Nat.add_1_r.
Qed.


Lemma Qtruncate_inject_Z (n : Z) : Num.Qtruncate (inject_Z n) = n.
Proof.
  unfold Num.Qtruncate. destruct (Num.Qis_neg (inject_Z n)).
  - apply Qceiling_Z.
  - apply Qfloor_Z.
Qed.

Lemma list_slice_0_le {A : Type} (n : Z) (l : list A) :
  0 <= n -> (List.length (list_slice (Num.of_Z 0) (Some (Num.of_Z n)) l) <= Z.to_nat n)%nat.
Proof.
  intros Hn. unfold list_slice, slice_bounds, rel_index, Num.of_Z.
  cbn [Num.to_integer_or_infinity]. rewrite !Qtruncate_inject_Z.
  destruct (Z.ltb_spec n 0); try lia.
  change (0 <? 0)%Z with false. cbn iota.
  rewrite length_firstn. lia.
Qed.


(** ** Two decimal places *)

Lemma string_of_uint_digits d : Str.forallb Str.is_digit (NilEmpty.string_of_uint d) = true.
Proof. induction d; simpl; auto. Qed.

Lemma of_N_digits n : Str.forallb Str.is_digit (Str.of_N n) = true.
Proof.
  unfold Str.of_N, NilZero.string_of_uint.
  destruct (N.to_uint n) eqn:E; try reflexivity; rewrite <- E; apply string_of_uint_digits.
Qed.

Lemma forallb_app p a b :
  Str.forallb p (a ++ b) = Str.forallb p a && Str.forallb p b.
Proof. induction a as [|c a IH]; simpl; auto. now rewrite IH, andb_assoc. Qed.

Lemma forallb_repeat p c n : p c = true -> Str.forallb p (Str.repeat c n) = true.
Proof. intros H. induction n; simpl; auto. now rewrite H. Qed.

Lemma length_repeat c n : String.length (Str.repeat c n) = n.
Proof. induction n; simpl; auto. Qed.

Lemma length_app_string (a b : string) :
  String.length (a ++ b) = (String.length a + String.length b)%nat.
Proof. induction a; simpl; auto. Qed.

Lemma pad_left_digits w s :
  Str.forallb Str.is_digit s = true -> Str.forallb Str.is_digit (Str.pad_left w s) = true.
Proof.
  intros H. unfold Str.pad_left. rewrite forallb_app, H, forallb_repeat; auto.
Qed.

Lemma pad_left_length w s : (w <= String.length (Str.pad_left w s))%nat.
Proof. unfold Str.pad_left. rewrite length_app_string, length_repeat. lia. Qed.

Lemma take_drop n s : Str.take n s ++ Str.drop n s = s.
Proof.
  revert s. induction n as [|n IH]; intros [|c s]; simpl; auto. now rewrite IH.
Qed.

Lemma length_take n s : (n <= String.length s)%nat -> String.length (Str.take n s) = n.
Proof.
  revert s. induction n as [|n IH]; intros [|c s]; simpl; auto; try lia.
  intros H. rewrite IH; lia.
Qed.

Lemma length_drop n s : String.length (Str.drop n s) = (String.length s - n)%nat.
Proof. revert s. induction n as [|n IH]; intros [|c s]; simpl; auto. Qed.

Lemma digits_point_2_app a d1 d2 seen :
  Str.forallb Str.is_digit a = true -> Str.is_digit d1 = true -> Str.is_digit d2 = true ->
  (a <> "" \/ seen = true) ->
  digits_point_2 seen (a ++ String "." (String d1 (String d2 ""))) = true.
Proof.
  revert seen. induction a as [|c a IH]; intros seen Ha H1 H2 Hs.
  - destruct Hs as [Hs| ->]; [congruence|]. simpl. now rewrite H1, H2.
  - simpl in Ha. apply andb_true_iff in Ha as [Hc Ha].
    assert (Hr : digits_point_2 true (a ++ String "." (String d1 (String d2 ""))) = true)
      by (apply IH; auto).
    change ((String c a ++ String "." (String d1 (String d2 ""))))
      with (String c (a ++ String "." (String d1 (String d2 "")))).
    cbn [digits_point_2]. rewrite Hc, Hr.
    destruct c as [[] [] [] [] [] [] [] []]; try reflexivity; discriminate.
Qed.

Lemma two_chars s :
  String.length s = 2%nat -> exists d1 d2, s = String d1 (String d2 "").
Proof. destruct s as [|d1 [|d2 [|]]]; simpl; try discriminate. eauto. Qed.

Lemma fixed_digits_shape n : digits_point_2 false (fixed_digits 2 n) = true.
Proof.
  unfold fixed_digits.
  set (m := Str.pad_left 3 (Str.of_N (Z.to_N n))).
  assert (Hd : Str.forallb Str.is_digit m = true) by apply pad_left_digits, of_N_digits.
  assert (Hl : (3 <= String.length m)%nat) by apply pad_left_length.
  rewrite <- (take_drop (String.length m - 2) m) in Hd.
  rewrite forallb_app in Hd. apply andb_true_iff in Hd as [Ht Hdr].
  destruct (@two_chars (Str.drop (String.length m - 2) m)) as (d1 & d2 & E).
  { rewrite length_drop. lia. }
  rewrite E in *. simpl in Hdr.
  apply andb_true_iff in Hdr as [H1 Hdr]. apply andb_true_iff in Hdr as [H2 _].
  apply digits_point_2_app; auto.
  left. intros E0.
  assert (String.length (Str.take (String.length m - 2) m) = (String.length m - 2)%nat)
    by (apply length_take; lia).
  rewrite E0 in H. simpl in H. lia.
Qed.

Lemma digits_point_2_not_minus seen s :
  digits_point_2 seen s = true -> match s with String "-" _ => False | _ => True end.
Proof.
  destruct s as [|c r]; simpl; auto.
  destruct c as [[] [] [] [] [] [] [] []]; auto.
  destruct r as [|? [|? [|]]]; simpl; discriminate.
Qed.

Lemma toFixed_two_decimals q s :
  Qle_bool (inject_Z (10 ^ 21)) (Qabs q) = false ->
  toFixed_finite 2 q = Some s -> two_decimals s = true.
Proof.
  unfold toFixed_finite. intros ->.
  pose proof (fixed_digits_shape (fixed_scaled 2 (Qabs q))) as Hs.
  pose proof (digits_point_2_not_minus _ _ Hs) as Hm.
  generalize dependent (fixed_digits 2 (fixed_scaled 2 (Qabs q))).
  intros m Hs Hm.
  destruct (Num.Qis_neg q); intros H; injection H as <-.
  - exact Hs.
  - unfold two_decimals. destruct m as [|c r]; [exact Hs|].
    destruct c as [[] [] [] [] [] [] [] []]; try exact Hs. contradiction.
Qed.



Lemma read_digits_uint d acc :
  read_digits acc (NilEmpty.string_of_uint d)
  = match acc with
    | N0 => Pos.of_uint d
    | Npos p => Npos (Pos.of_uint_acc d p)
    end.
Proof.
  revert acc. induction d; intros acc; cbn [NilEmpty.string_of_uint read_digits];
    try (destruct acc; reflexivity);
    match goal with
    | |- context [Str.is_digit ?c] =>
        change (Str.is_digit c) with true;
        let v := eval compute in (Str.byte c - 48)%N in
        change (Str.byte c - 48)%N with v
    end;
    cbn iota; rewrite IHd; destruct acc as [|p]; try reflexivity;
    cbn [N.mul N.add Pos.of_uint_acc]; do 2 f_equal; lia.
Qed.

Lemma read_digits_of_N n : read_digits 0 (Str.of_N n) = n.
Proof.
  unfold Str.of_N.
  rewrite <- (DecimalN.Unsigned.of_to n) at 2. unfold N.of_uint.
  destruct (N.to_uint n) eqn:E; try reflexivity; rewrite <- E;
    unfold NilZero.string_of_uint; rewrite E, <- E; apply read_digits_uint.
Qed.




Lemma below_large q :
  (Qabs q < inject_Z (10 ^ 21))%Q -> Qle_bool (inject_Z (10 ^ 21)) (Qabs q) = false.
Proof.
  intros H. destruct (Qle_bool _ _) eqn:E; auto.
  apply Qle_bool_iff in E. exfalso. apply (Qlt_irrefl (Qabs q)).
  eapply Qlt_le_trans; eauto.
Qed.




(** ** Sorting *)

Lemma by_desc_Ok k a b c :
  by_desc k a b = Ok c ->
  exists ka kb, sort_key k a = Ok ka /\ sort_key k b = Ok kb /\ c = Num.sub kb ka.
Proof.
  unfold by_desc, sort_key, js_sub, arith. intros H.
  apply bind_Ok in H as (vb & Hb & H). apply bind_Ok in H as (va & Ha & H).
  apply bind_Ok in H as (x & Hx & H). apply bind_Ok in H as (y & Hy & H).
  injection H as <-. rewrite Ha, Hb. simpl. eauto.
Qed.

Lemma or_zero_number v n : to_number (or_else v (num 0)) = Ok n -> n <> Num.NaN.
Proof.
  unfold or_else. destruct v as [| |b|m|s|l|ps]; simpl; try discriminate;
    try (intros H; injection H as <-; discriminate).
  - destruct b; simpl; intros H; injection H as <-; discriminate.
  - destruct m; simpl; try (intros H; injection H as <-; discriminate).
    destruct (negb (Num.Qis_zero q)); simpl; intros H; injection H as <-; discriminate.
  - destruct (negb (s =? "")); simpl; try discriminate.
    intros H; injection H as <-; discriminate.
  - destruct (has_own "toString" ps); discriminate.
Qed.

Lemma sort_key_number k p n : sort_key k p = Ok n -> n <> Num.NaN.
Proof.
  unfold sort_key. intros H. apply bind_Ok in H as (v & _ & H).
  eapply or_zero_number; eauto.
Qed.

Lemma not_after_ge x y :
  x <> Num.NaN -> y <> Num.NaN ->
  Num.gt (Num.sub y x) (Num.of_Z 0) = false -> Num.ge x y = true.
Proof.
  intros Hx Hy. destruct x as [| | |a], y as [| | |b]; try congruence; simpl; auto;
    try discriminate.
  intros H. apply negb_false_iff in H. apply Qle_bool_iff in H. apply Qle_bool_iff.
  unfold inject_Z in H. lra.
Qed.

Lemma after_ge x y :
  Num.gt (Num.sub y x) (Num.of_Z 0) = true -> Num.ge y x = true.
Proof.
  destruct x as [| | |a], y as [| | |b]; simpl; auto; try discriminate.
  intros H. apply negb_true_iff in H. apply Qle_bool_iff.
  destruct (Qlt_le_dec (b + - a) 0) as [Hlt|Hle].
  - apply Qlt_le_weak, Qle_bool_iff in Hlt. unfold inject_Z in H. congruence.
  - lra.
Qed.

Section SortByKey.

Variable k : string.

Lemma insert_sorted x l l' :
  Sorted (desc (sort_key k)) l -> insert (by_desc k) x l = Ok l' ->
  Sorted (desc (sort_key k)) l' /\ (forall z, HdRel (desc (sort_key k)) z l -> desc (sort_key k) z x -> HdRel (desc (sort_key k)) z l') /\
  Permutation (x :: l) l'.
Proof.
  revert l'. induction l as [|y r IH]; intros l' Hs H; simpl in H.
  - injection H as <-. repeat split; auto.
  - apply bind_Ok in H as (c & Hc & H).
    apply by_desc_Ok in Hc as (kx & ky & Hkx & Hky & ->).
    inversion Hs as [|? ? Hsr Hhd]; subst.
    destruct (Num.gt (Num.sub ky kx) (Num.of_Z 0)) eqn:Hgt.
    + apply bind_Ok in H as (r' & Hr & H). injection H as <-.
      destruct (IH r' Hsr Hr) as (Hs' & Hh' & Hp).
      assert (Hyx : desc (sort_key k) y x).
      { exists ky, kx. repeat split; auto. now apply after_ge. }
      repeat split.
      * constructor; auto.
      * intros z Hz _. inversion Hz; subst. constructor; auto.
      * rewrite perm_swap. now constructor.
    + injection H as <-. repeat split; auto.
      constructor; auto. constructor.
      exists kx, ky. repeat split; auto.
      apply not_after_ge; auto; eapply sort_key_number; eauto.
Qed.

Lemma isort_sorted l l' :
  isort (by_desc k) l = Ok l' -> Sorted (desc (sort_key k)) l' /\ Permutation l l'.
Proof.
  revert l'. induction l as [|x r IH]; intros l' H; simpl in H.
  - injection H as <-. auto.
  - apply bind_Ok in H as (s & Hs & H).
    destruct (IH s Hs) as [Hsorted Hperm].
    destruct (insert_sorted x Hsorted H) as (Hs' & _ & Hp).
    split; auto. rewrite <- Hp. now constructor.
Qed.

End SortByKey.

Lemma Sorted_firstn {A : Type} (R : A -> A -> Prop) n l :
  Sorted R l -> Sorted R (firstn n l).
Proof.
  revert l. induction n as [|n IH]; intros [|x l] H; simpl; auto.
  inversion H as [|? ? Hs Hh]; subst. constructor; auto.
  destruct l as [|y l]; destruct n; simpl; auto.
  inversion Hh; subst. constructor; auto.
Qed.

Lemma Sorted_skipn {A : Type} (R : A -> A -> Prop) n l :
  Sorted R l -> Sorted R (skipn n l).
Proof.
  revert l. induction n as [|n IH]; intros [|x l] H; simpl; auto.
  inversion H; subst. auto.
Qed.

Lemma Sorted_list_slice {A : Type} (R : A -> A -> Prop) a b l :
  Sorted R l -> Sorted R (list_slice a b l).
Proof.
  intros H. unfold list_slice. destruct (slice_bounds _ a b) as [i n].
  now apply Sorted_firstn, Sorted_skipn.
Qed.

Lemma In_firstn {A : Type} (x : A) n l : In x (firstn n l) -> In x l.
Proof.
  revert l. induction n as [|n IH]; intros [|y l]; simpl; try tauto.
  intros [->|H]; auto.
Qed.

Lemma In_skipn {A : Type} (x : A) n l : In x (skipn n l) -> In x l.
Proof.
  revert l. induction n as [|n IH]; intros [|y l]; simpl; auto.
Qed.

Lemma incl_list_slice {A : Type} a b (l : list A) : incl (list_slice a b l) l.
Proof.
  unfold list_slice. destruct (slice_bounds _ a b) as [i n].
  intros x Hx. apply In_firstn in Hx. eapply In_skipn; eauto.
Qed.

(** [slice(0, limit)] keeps at most [limit] elements when [limit] is not
    negative. *)
Lemma list_slice_bounded {A : Type} (limit : Num.t) (l : list A) :
  Num.ge limit (Num.of_Z 0) = true ->
  Num.ge limit (Num.of_nat (List.length (list_slice (Num.of_Z 0) (Some limit) l))) = true.
Proof.
  intros Hpos. unfold list_slice, slice_bounds.
  assert (H0 : rel_index (List.length l) (Num.of_Z 0) = O).
  { unfold rel_index, Num.of_Z. cbn [Num.to_integer_or_infinity].
    rewrite Qtruncate_inject_Z. change (0 <? 0)%Z with false. cbn iota. lia. }
  rewrite H0, Nat.sub_0_r. cbn [skipn].
  destruct limit as [| | |q]; simpl in Hpos; try discriminate; auto.
  unfold rel_index. cbn [Num.to_integer_or_infinity].
  apply Qle_bool_iff in Hpos.
  assert (Ht : Num.Qtruncate q = Qfloor q).
  { unfold Num.Qtruncate, Num.Qis_neg.
    assert (E : Qle_bool 0 q = true) by (apply Qle_bool_iff; unfold inject_Z in Hpos; lra).
    now rewrite E. }
  rewrite Ht.
  assert (Hf : (0 <= Qfloor q)%Z).
  { rewrite <- (Qfloor_Z 0). apply Qfloor_resp_le. unfold inject_Z in *. lra. }
  destruct (Z.ltb_spec (Qfloor q) 0); try lia.
  unfold Num.ge, Num.of_nat, Num.of_Z. apply Qle_bool_iff.
  rewrite length_firstn.
  apply Qle_trans with (inject_Z (Qfloor q)); [|apply Qfloor_le].
  rewrite <- Zle_Qle. lia.
Qed.

Lemma sort_Ok cmp v r :
  sort_ cmp v = Ok r -> exists l all, v = VArr l /\ r = VArr all /\ isort cmp l = Ok all.
Proof.
  destruct v; simpl; try discriminate. intros H.
  apply bind_Ok in H as (all & Hs & H). injection H as <-. eauto.
Qed.

Lemma sort_slice_map_top_n key sort row limit v payload :
  (sorted <- sort_ (by_desc sort) v >>= slice_ (Num.of_Z 0) (Some limit) ;;
   result <- map_ row sorted ;;
   object [(key, Ok result); ("count", get result "length")]) = Ok payload ->
  exists candidates, v = VArr candidates /\ top_n key sort row limit candidates payload.
Proof.
  intros H. apply bind_Ok in H as (sl & Hs & H).
  apply and_then_Ok in Hs as (s & Hs & Hsl).
  apply sort_Ok in Hs as (l & all & -> & -> & Hs).
  simpl in Hsl. injection Hsl as <-.
  apply bind_Ok in H as (res & Hm & H).
  apply map_Ok in Hm as (l0 & rows & E & -> & Hrows). injection E as <-.
  unfold object in H. simpl in H. injection H as <-.
  apply isort_sorted in Hs as [Hsorted Hperm].
  exists l. split; auto.
  exists all, (list_slice (Num.of_Z 0) (Some limit) all), rows.
  repeat split; auto.
  - simpl. unfold field. simpl. now rewrite String.eqb_refl.
  - now apply Sorted_list_slice.
  - intros Hpos. rewrite <- (Forall2_length_eq Hrows). now apply list_slice_bounded.
Qed.

Lemma filterM_incl {A : Type} (f : A -> res bool) l r : filterM f l = Ok r -> incl r l.
Proof.
  revert r. induction l as [|x l IH]; simpl; intros r H.
  - injection H as <-. apply incl_refl.
  - apply bind_Ok in H as (b & _ & H). apply bind_Ok in H as (ys & Hys & H).
    injection H as <-. specialize (IH ys Hys).
    destruct b; [apply incl_cons; [now left|]|]; now apply incl_tl.
Qed.

Lemma filter_kept f v r : filter_ f v = Ok r -> kept v r.
Proof.
  destruct v; simpl; try discriminate. intros H.
  apply bind_Ok in H as (l' & Hf & H). injection H as <-.
  right. exists items, l'. repeat split; auto. eapply filterM_incl; eauto.
Qed.

Lemma kept_trans a b c : kept a b -> kept b c -> kept a c.
Proof.
  intros [->|(l & l' & -> & -> & H1)] H2; auto.
  destruct H2 as [<-|(m & m' & E & -> & H2)].
  - right. exists l, l'. auto.
  - injection E as <-. right. exists l, m'. repeat split; auto.
    eapply incl_tran; eauto.
Qed.

Lemma kept_incl v l l' : kept v (VArr l') -> v = VArr l -> incl l' l.
Proof.
  intros [->|(m & m' & -> & E & H)] Ev.
  - injection Ev as <-. apply incl_refl.
  - injection E as <-. injection Ev as <-. auto.
Qed.

Lemma top_defi_top_n input data r :
  getTopDefiProtocols_body input data = Ok r ->
  exists candidates,
    top_n "protocols" "tvl" protocol_row (tdp_limit input) candidates r /\
    (forall l, data = VArr l -> incl candidates l).
Proof.
  unfold getTopDefiProtocols_body. intros H.
  apply bind_Ok in H as (p1 & H1 & H). apply bind_Ok in H as (p2 & H2 & H).
  apply sort_slice_map_top_n in H as (candidates & -> & H).
  exists candidates. split; auto.
  assert (K1 : kept data p1).
  { destruct (given (tdp_chain input)); [|injection H1 as <-; now left].
    apply bind_Ok in H1 as (c & _ & H1). eapply filter_kept; eauto. }
  assert (K2 : kept p1 (VArr candidates)).
  { destruct (given (tdp_category input)); [|injection H2 as <-; now left].
    apply bind_Ok in H2 as (c & _ & H2). eapply filter_kept; eauto. }
  intros l. apply kept_incl. eapply kept_trans; eauto.
Qed.

Lemma yields_top_n input data r :
  getDefiYields_body input data = Ok r ->
  exists candidates,
    top_n "pools" "apy" pool_row (dy_limit input) candidates r /\
    (forall l, get data "data" = Ok (VArr l) -> incl candidates l).
Proof.
  unfold getDefiYields_body. intros H.
  apply bind_Ok in H as (p0 & H0 & H).
  apply bind_Ok in H as (p1 & H1 & H). apply bind_Ok in H as (p2 & H2 & H).
  apply bind_Ok in H as (p3 & H3 & H). apply bind_Ok in H as (p4 & H4 & H).
  apply sort_slice_map_top_n in H as (candidates & -> & H).
  exists candidates. split; auto.
  assert (K1 : kept p0 p1).
  { destruct (given (dy_chain input)); [|injection H1 as <-; now left].
    apply bind_Ok in H1 as (c & _ & H1). eapply filter_kept; eauto. }
  assert (K2 : kept p1 p2).
  { destruct (given (dy_project input)); [|injection H2 as <-; now left].
    apply bind_Ok in H2 as (c & _ & H2). eapply filter_kept; eauto. }
  assert (K3 : kept p2 p3).
  { destruct (given_num (dy_min_tvl input)); [|injection H3 as <-; now left].
    eapply filter_kept; eauto. }
  assert (K4 : kept p3 (VArr candidates)).
  { destruct (dy_stablecoin_only input); [|injection H4 as <-; now left].
    eapply filter_kept; eauto. }
  intros l Hl. apply and_then_Ok in H0 as (d & Hd & H0). apply or_Ok in H0.
  rewrite Hl in Hd. injection Hd as <-. unfold or_else in H0. simpl in H0.
  eapply kept_incl; [|exact H0].
  eapply kept_trans; [|exact K4]. eapply kept_trans; [|exact K3].
  eapply kept_trans; eauto.
Qed.







(** ** Percentages *)

Lemma append_assoc_string (a b c : string) : (a ++ b) ++ c = a ++ b ++ c.
Proof. induction a; simpl; congruence. Qed.

Lemma rev_onto_app s acc : Str.rev_onto s acc = Str.rev s ++ acc.
Proof.
  unfold Str.rev. revert acc. induction s as [|c s IH]; intros acc; simpl; auto.
  rewrite IH, (IH (String c "")). now rewrite append_assoc_string.
Qed.

Lemma rev_onto_append a b acc :
  Str.rev_onto (a ++ b) acc = Str.rev_onto b (Str.rev_onto a acc).
Proof. revert acc. induction a; intros acc; simpl; auto. Qed.

Lemma ends_with_app s t : Str.ends_with t (s ++ t) = true.
Proof.
  unfold Str.ends_with, Str.rev at 2. rewrite rev_onto_append, rev_onto_app.
  apply prefix_app.
Qed.

Lemma concat_percent t r : concat t "%" = Ok r -> exists s, r = VStr (s ++ "%").
Proof.
  unfold concat. intros H. apply bind_Ok in H as (s & _ & H). injection H as <-. eauto.
Qed.

Lemma percent_Ok v r : percent v = Ok r -> exists s, r = VStr (s ++ "%").
Proof.
  unfold percent. intros H. apply and_then_Ok in H as (t & _ & H).
  eapply concat_percent; eauto.
Qed.

Lemma then_percent (m : res value) r :
  (m >>= percent) = Ok r -> exists s, r = VStr s /\ Str.ends_with "%" s = true.
Proof.
  intros H. apply and_then_Ok in H as (v & _ & H).
  apply percent_Ok in H as (s & ->). exists (s ++ "%"). split; auto. apply ends_with_app.
Qed.

Lemma percent_or_na_inv v :
  percent_or_na v = true ->
  exists s, v = VStr s /\ (Str.ends_with "%" s = true \/ s = "N/A").
Proof.
  destruct v; simpl; try discriminate. intros H. exists s. split; auto.
  apply orb_true_iff in H as [H|H]; auto. right. now apply String.eqb_eq.
Qed.

Lemma percent_change_Ok a b r :
  percent_change a b = Ok r -> exists s, r = VStr (s ++ "%").
Proof.
  unfold percent_change. intros H.
  do 3 (apply bind_Ok in H as (? & _ & H)).
  apply and_then_Ok in H as (t & _ & H). eapply concat_percent; eauto.
Qed.

Lemma percent_not_na s : s ++ "%" <> "N/A".
Proof.
  intros E. pose proof (ends_with_app s "%") as H. rewrite E in H. discriminate.
Qed.

(** The rows of a list, by the percentage fields a row carries. *)
Ltac percent_row H :=
  inv_object H;
  repeat match goal with
    | H : (_ >>= percent) = Ok _ |- _ =>
        let s := fresh "s" in
        apply then_percent in H as (s & -> & H)
    end;
  repeat (apply Forall_cons || apply Forall_nil);
  (eexists; split; [cbn; reflexivity | left; assumption]).

Lemma protocol_row_percent p e :
  protocol_row p = Ok e ->
  Forall (percent_field false e) ["tvl_change_1d"; "tvl_change_7d"; "tvl_change_1m"].
Proof. unfold protocol_row. intros H. percent_row H. Qed.

Lemma pool_row_percent p e :
  pool_row p = Ok e -> Forall (percent_field false e) ["apy"; "apy_base"; "apy_reward"].
Proof. unfold pool_row. intros H. percent_row H. Qed.

Lemma dex_row_percent p e :
  dex_row p = Ok e -> Forall (percent_field false e) ["change_24h"].
Proof. unfold dex_row. intros H. percent_row H. Qed.

Lemma coin_row_percent p e :
  coin_row p = Ok e ->
  Forall (percent_field false e)
    ["price_change_1h"; "price_change_24h"; "price_change_7d"; "price_change_30d";
     "ath_change"].
Proof. unfold coin_row. intros H. percent_row H. Qed.

Lemma category_row_percent p e :
  category_row p = Ok e -> Forall (percent_field false e) ["market_cap_change_24h"].
Proof. unfold category_row. intros H. percent_row H. Qed.

Lemma sector_row_percent p e :
  sector_row p = Ok e -> Forall (percent_field false e) ["price_change_24h"].
Proof. unfold sector_row. intros H. percent_row H. Qed.

Lemma field_set_prop_same k v ps : field k (set_prop k v ps) = v.
Proof.
  unfold field. induction ps as [|[k' v'] ps IH]; simpl.
  - now rewrite String.eqb_refl.
  - destruct (k =? k') eqn:E; simpl; now rewrite ?String.eqb_refl, ?E.
Qed.

Lemma field_set_prop_other k k' v ps : k <> k' -> field k (set_prop k' v ps) = field k ps.
Proof.
  intros Hk. apply String.eqb_neq in Hk.
  unfold field. induction ps as [|[k0 v0] ps IH]; simpl.
  - now rewrite Hk.
  - destruct (k' =? k0) eqn:E; simpl.
    + apply String.eqb_eq in E. subst k0. now rewrite Hk.
    + destruct (k =? k0); auto.
Qed.

Lemma change_or_na_spec last first change :
  change_or_na last first = Ok change -> na_unless_positive first change.
Proof.
  unfold change_or_na. intros H. apply bind_Ok in H as (b & Hb & H).
  exists b. split; auto. destruct b.
  - apply percent_change_Ok in H as (s & ->). simpl. rewrite ends_with_app.
    repeat split; try discriminate. intros E. injection E as E. now apply percent_not_na in E.
  - injection H as <-. repeat split; auto.
Qed.

(** For a baseline that is a number, N/A appears exactly when the number is
    zero or negative; a missing baseline counts as zero. *)
Lemma na_unless_positive_number q change :
  na_unless_positive (VNum (Num.Fin q)) change ->
  (change = VStr "N/A" <-> (q <= 0)%Q).
Proof.
  intros (b & Hb & _ & Hiff). unfold js_gt, relational in Hb. simpl in Hb.
  injection Hb as <-. rewrite Hiff, negb_false_iff, Qle_bool_iff. reflexivity.
Qed.

Lemma na_unless_positive_missing change :
  na_unless_positive VUndef change -> change = VStr "N/A".
Proof.
  intros (b & Hb & _ & Hiff). unfold js_gt, relational in Hb. simpl in Hb.
  injection Hb as <-. now apply Hiff.
Qed.

Lemma trend_change input data r :
  getChainTVLTrend_body input data = Ok r ->
  exists first change,
    get r "tvl_90d_ago" = Ok first /\ get r "change_90d" = Ok change /\
    na_unless_positive first change.
Proof.
  unfold getChainTVLTrend_body. intros H.
  apply bind_Ok in H as (history & _ & H). apply bind_Ok in H as (first & _ & H).
  apply bind_Ok in H as (last & _ & H). apply bind_Ok in H as (change & Hc & H).
  unfold object in H. simpl in H. injection H as <-.
  exists first, change. repeat split. now apply change_or_na_spec in Hc.
Qed.

Lemma with_change_spec r e :
  with_change r = Ok e ->
  exists ago change,
    get r "tvl_30d_ago" = Ok ago /\ get e "tvl_30d_ago" = Ok ago /\
    get e "tvl_change_30d" = Ok change /\ na_unless_positive ago change.
Proof.
  unfold with_change. intros H.
  apply bind_Ok in H as (ago & Hago & H). apply bind_Ok in H as (b & Hb & H).
  apply bind_Ok in H as (change & Hc & H).
  destruct r as [| | | | | |ps]; try discriminate. injection H as <-.
  simpl in Hago. injection Hago as <-.
  exists (field "tvl_30d_ago" ps), change. simpl.
  rewrite field_set_prop_same, field_set_prop_other by discriminate.
  repeat split. exists b. split; auto. destruct b.
  - apply bind_Ok in Hc as (cur & _ & Hc). apply bind_Ok in Hc as (ago' & _ & Hc).
    apply percent_change_Ok in Hc as (s & ->). simpl. rewrite ends_with_app.
    repeat split; try discriminate. intros E. injection E as E. now apply percent_not_na in E.
  - injection Hc as <-. repeat split; auto.
Qed.

Lemma compare_changes input net tr log :
  compareDefiProtocols input net [] = (Ok tr, log) ->
  exists entries,
    result tr = VObj [("comparison", VArr entries)] /\
    Forall (fun e => exists ago change,
                get e "tvl_30d_ago" = Ok ago /\ get e "tvl_change_30d" = Ok change /\
                na_unless_positive ago change) entries.
Proof.
  unfold compareDefiProtocols. intros H.
  apply io_bind_Ok in H as (rs & log1 & _ & H).
  apply io_bind_Ok in H as (cs & log2 & Hc & H).
  apply lift_Ok in Hc as [Hc ->]. unfold io_ret in H. injection H as <- _.
  exists cs. split; auto.
  apply mapM_Ok in Hc. clear -Hc. induction Hc as [|r e rs es He Hc IH]; constructor; auto.
  apply with_change_spec in He as (ago & change & _ & H1 & H2 & H3). eauto.
Qed.

Lemma rows_percent row fields v rows :
  (forall p e, row p = Ok e -> Forall (percent_field false e) fields) ->
  v = VUndef \/ rows_of row v ->
  v = VArr rows ->
  Forall (fun e => Forall (percent_field false e) fields) rows.
Proof.
  intros Hrow [->|(l & rows' & -> & HF)] E; try discriminate.
  injection E as <-. induction HF; constructor; eauto.
Qed.

Lemma rows_or_empty (F : value -> res value) row v r :
  (forall x y, F x = Ok y -> rows_of row y) ->
  (opt F v >>= or_ (VArr [])) = Ok r -> rows_of row r.
Proof.
  intros HF H. apply and_then_Ok in H as (x & Hx & H). apply or_Ok in H as ->.
  apply rows_of_or_empty. eapply opt_rows; eauto.
Qed.

Lemma top_n_rows key sort row limit candidates payload :
  top_n key sort row limit candidates payload ->
  exists v, get payload key = Ok v /\ rows_of row v.
Proof.
  intros (all & selected & rows & Hg & _ & _ & _ & _ & HF & _).
  exists (VArr rows). split; auto. exists selected, rows. auto.
Qed.

Lemma rendered_rows key fields row payload v :
  get payload key = Ok v ->
  v = VUndef \/ rows_of row v ->
  (forall p e, row p = Ok e -> Forall (percent_field false e) fields) ->
  rendered (InRows false key fields) payload.
Proof.
  intros Hg Hv Hrow rows Hr. rewrite Hg in Hr. injection Hr as Hr.
  eapply rows_percent; eauto.
Qed.

Lemma na_unless_positive_percent baseline change e f :
  get e f = Ok change -> na_unless_positive baseline change -> percent_field true e f.
Proof.
  intros Hg (b & _ & H & _). apply percent_or_na_inv in H as (s & -> & [H|H]).
  - exists s. auto.
  - exists s. auto.
Qed.

Lemma rendered_percentages (c : tool_call) (net : network) (tr : ToolResult)
    (log : list string) (spec : percent_spec) :
  run (invoke c) net = (Ok tr, log) ->
  percent_fields c = Some spec ->
  rendered spec (result tr).
Proof.
  unfold run. intros H Hs.
  destruct c; simpl in Hs; try discriminate; injection Hs as <-; simpl in H.
  - (* get_global_crypto_data *)
    unfold getGlobalCryptoData in H. apply single_fetch_tool in H as (resp & _ & H & _).
    unfold getGlobalCryptoData_body in H. apply bind_Ok in H as (d & _ & H).
    unfold rendered. percent_row H.
  - (* get_top_crypto_coins *)
    unfold getTopCryptoCoins in H. apply single_fetch_tool in H as (resp & _ & H & _).
    unfold getTopCryptoCoins_body in H. apply bind_Ok in H as (coins & Hc & H).
    inv_object H.
    eapply rendered_rows with (row := coin_row) (v := coins);
      [reflexivity| |apply coin_row_percent].
    right. eapply rows_or_empty; [|eassumption]. intros a b. apply rows_of_map.
  - (* get_crypto_categories *)
    unfold getCryptoCategories in H. apply single_fetch_tool in H as (resp & _ & H & _).
    unfold getCryptoCategories_body in H. apply bind_Ok in H as (cats & Hc & H).
    inv_object H.
    eapply rendered_rows with (row := category_row) (v := cats);
      [reflexivity| |apply category_row_percent].
    right. eapply rows_or_empty; [|eassumption]. intros a b. apply slice_map_rows.
  - (* get_crypto_by_sector *)
    unfold getCryptoBySector in H. apply single_fetch_tool in H as (resp & _ & H & _).
    unfold getCryptoBySector_body in H. apply bind_Ok in H as (coins & Hc & H).
    inv_object H.
    eapply rendered_rows with (row := sector_row) (v := coins);
      [reflexivity| |apply sector_row_percent].
    right. eapply rows_or_empty; [|eassumption]. intros a b. apply slice_map_rows.
  - (* get_top_defi_protocols *)
    unfold getTopDefiProtocols in H. apply single_fetch_tool in H as (resp & _ & H & _).
    apply top_defi_top_n in H as (candidates & H & _).
    apply top_n_rows in H as (v & Hg & Hv).
    eapply rendered_rows; eauto. apply protocol_row_percent.
  - (* get_chain_tvl_trend *)
    unfold getChainTVLTrend in H. apply single_fetch_tool in H as (resp & _ & H & _).
    apply trend_change in H as (first & change & _ & Hc & Hn).
    repeat constructor. eapply na_unless_positive_percent; eauto.
  - (* get_defi_yields *)
    unfold getDefiYields in H. apply single_fetch_tool in H as (resp & _ & H & _).
    apply yields_top_n in H as (candidates & H & _).
    apply top_n_rows in H as (v & Hg & Hv).
    eapply rendered_rows; eauto. apply pool_row_percent.
  - (* get_dex_volume_data *)
    unfold getDexVolumeData in H. apply single_fetch_tool in H as (resp & _ & H & _).
    unfold getDexVolumeData_body in H. apply bind_Ok in H as (protocols & Hp & H).
    inv_object H. apply and_then_Ok in Hp as (ps0 & _ & Hp).
    eapply rendered_rows with (row := dex_row) (v := protocols);
      [reflexivity| |apply dex_row_percent].
    eapply opt_rows; [|eassumption]. intros a b. apply sort_slice_map_rows.
  - (* compare_defi_protocols *)
    apply compare_changes in H as (entries & -> & HF).
    intros rows Hr. simpl in Hr. injection Hr as <-.
    eapply Forall_impl; [|exact HF].
    intros e (ago & change & _ & Hc & Hn). repeat constructor.
    eapply na_unless_positive_percent; eauto.
Qed.

(** [price_change] of [get_crypto_price_history] is [null] when the
    provider returns fewer than two price points. *)
Lemma price_change_null d r :
  getCryptoPriceHistory_body d = Ok r ->
  exists n, get r "data_points" = Ok n /\
            (js_ge n (num 2) = Ok false -> get r "price_change" = Ok VNull).
Proof.
  unfold getCryptoPriceHistory_body. intros H.
  apply bind_Ok in H as (prices & _ & H). inv_object H.
  match goal with
  | Hn : get prices "length" = Ok ?n,
    Hp : bind (get prices "length" >>= _) _ = Ok ?v |- _ =>
      exists n; split; [reflexivity|]; intros Hge;
      unfold and_then in Hp; rewrite Hn in Hp; cbn [bind] in Hp;
      rewrite Hge in Hp; cbn [bind] in Hp; injection Hp as <-
  end.
  reflexivity.
Qed.

(** [get_crypto_token_info] hands the upstream percentage changes over as
    they are. *)
Lemma token_info_passes_percentages d r :
  getCryptoTokenInfo_body d = Ok r ->
  exists m md,
    get d "market_data" = Ok m /\ get r "market_data" = Ok md /\
    (truthy m = false -> md = VNull) /\
    (truthy m = true ->
     get md "price_change_24h" = get m "price_change_percentage_24h" /\
     get md "price_change_7d" = get m "price_change_percentage_7d" /\
     get md "price_change_30d" = get m "price_change_percentage_30d").
Proof.
  unfold getCryptoTokenInfo_body. intros H. inv_object H.
  match goal with
  | Hm : bind (get d "market_data") _ = Ok ?v |- _ =>
      apply bind_Ok in Hm as (m & Hgm & Hm); exists m, v;
      split; [exact Hgm|]; split; [reflexivity|]; split; intros Ht; rewrite Ht in Hm;
      [ now injection Hm as <- | ];
      apply and_then_Ok in Hm as (m' & Hgm' & Hm);
      rewrite Hgm in Hgm'; injection Hgm' as <-;
      unfold market_data_summary in Hm; inv_object Hm
  end.
  cbn. repeat split; congruence.
Qed.

(** C1, as the code has it: every percentage a tool renders itself is a
    string that ends in a percent sign, or, for the two changes the tools
    compute from a baseline ([change_90d] and [tvl_change_30d]), the literal
    N/A, which appears exactly when the baseline is not greater than zero:
    missing, zero or negative.  [get_crypto_token_info] passes the upstream
    percentage numbers through, and [price_change] of
    [get_crypto_price_history] is [null] on fewer than two price points. *)
Theorem percentages_are_rendered :
  (forall c net tr log spec,
      run (invoke c) net = (Ok tr, log) ->
      percent_fields c = Some spec ->
      rendered spec (result tr)) /\
  (forall input net tr log,
      run (invoke (GetChainTVLTrend input)) net = (Ok tr, log) ->
      exists first change,
        get (result tr) "tvl_90d_ago" = Ok first /\
        get (result tr) "change_90d" = Ok change /\
        na_unless_positive first change) /\
  (forall input net tr log,
      run (invoke (CompareDefiProtocols input)) net = (Ok tr, log) ->
      exists entries,
        result tr = VObj [("comparison", VArr entries)] /\
        Forall (fun e => exists ago change,
                    get e "tvl_30d_ago" = Ok ago /\
                    get e "tvl_change_30d" = Ok change /\
                    na_unless_positive ago change) entries) /\
  (forall q change,
      na_unless_positive (VNum (Num.Fin q)) change ->
      (change = VStr "N/A" <-> (q <= 0)%Q)) /\
  (forall change, na_unless_positive VUndef change -> change = VStr "N/A") /\
  (forall input net tr log,
      run (invoke (GetCryptoPriceHistory input)) net = (Ok tr, log) ->
      exists n, get (result tr) "data_points" = Ok n /\
                (js_ge n (num 2) = Ok false ->
                 get (result tr) "price_change" = Ok VNull)) /\
  (forall input net tr log,
      run (invoke (GetCryptoTokenInfo input)) net = (Ok tr, log) ->
      exists u status text d m md,
        log = [u] /\
        net O u = Response status text (Some d) /\
        get d "market_data" = Ok m /\
        get (result tr) "market_data" = Ok md /\
        (truthy m = false -> md = VNull) /\
        (truthy m = true ->
         get md "price_change_24h" = get m "price_change_percentage_24h" /\
         get md "price_change_7d" = get m "price_change_percentage_7d" /\
         get md "price_change_30d" = get m "price_change_percentage_30d")).
Proof.
  split; [exact rendered_percentages|].
  split.
  { unfold run. simpl. unfold getChainTVLTrend. intros input net tr log H.
    apply single_fetch_tool in H as (resp & _ & H & _). now apply trend_change in H. }
  split.
  { unfold run. simpl. intros input net tr log H. now apply compare_changes in H. }
  split; [exact na_unless_positive_number|].
  split; [exact na_unless_positive_missing|].
  split.
  { unfold run. simpl. unfold getCryptoPriceHistory. intros input net tr log H.
    apply single_fetch_tool in H as (resp & _ & H & _). now apply price_change_null in H. }
  unfold run. simpl. unfold getCryptoTokenInfo. intros input net tr log H.
  apply single_fetch_tool in H as (resp & Hf & H & _).
  unfold getTokenInfo in Hf.
  apply fetchJson_Ok in Hf as (_ & Hl & status & text & Hnet & _).
  simpl in Hl, Hnet.
  apply token_info_passes_percentages in H as (m & md & Hm & Hmd & Hfalse & Htrue).
  eexists. exists status, text, (data resp), m, md.
  split; [exact Hl|]. split; [exact Hnet|]. auto.
Qed.

Lemma percentages_are_rendered_witness :
  (exists tr,
      fst (run (invoke (top 5)) (ok_json protocol_with_changes)) = Ok tr /\
      get (result tr) "protocols" = Ok (VArr [protocol_with_changes_out]) /\
      rendered (InRows false "protocols" ["tvl_change_1d"; "tvl_change_7d"; "tvl_change_1m"])
        (result tr))
  /\ (exists tr,
        fst (run (invoke (GetChainTVLTrend {| ci_chain := "Ethereum" |})) (ok_json rising))
        = Ok tr /\
        get (result tr) "change_90d" = Ok (VStr "50.00%") /\
        exists first change,
          get (result tr) "tvl_90d_ago" = Ok first /\
          get (result tr) "change_90d" = Ok change /\
          na_unless_positive first change)
  /\ (exists tr md,
        fst (run (invoke (GetCryptoTokenInfo {| ti_token_id := "bitcoin" |}))
               (ok_json token_with_change)) = Ok tr /\
        get (result tr) "market_data" = Ok md /\
        get md "price_change_24h" = Ok (decimal 15 10) /\
        exists u status text d m md',
          snd (run (invoke (GetCryptoTokenInfo {| ti_token_id := "bitcoin" |}))
                 (ok_json token_with_change)) = [u] /\
          ok_json token_with_change O u = Response status text (Some d) /\
          get d "market_data" = Ok m /\
          get (result tr) "market_data" = Ok md' /\
          (truthy m = false -> md' = VNull) /\
          (truthy m = true ->
           get md' "price_change_24h" = get m "price_change_percentage_24h" /\
           get md' "price_change_7d" = get m "price_change_percentage_7d" /\
           get md' "price_change_30d" = get m "price_change_percentage_30d")).
Proof.
  split; [|split].
  - eexists. split; [reflexivity|]. split; [reflexivity|].
    exact (proj1 percentages_are_rendered (top 5) (ok_json protocol_with_changes) _ _ _
             eq_refl eq_refl).
  - eexists. split; [reflexivity|]. split; [reflexivity|].
    exact (proj1 (proj2 percentages_are_rendered) {| ci_chain := "Ethereum" |}
             (ok_json rising) _ _ eq_refl).
  - eexists. eexists. split; [reflexivity|]. split; [reflexivity|]. split; [reflexivity|].
    exact (proj2 (proj2 (proj2 (proj2 (proj2 (proj2 percentages_are_rendered)))))
             {| ti_token_id := "bitcoin" |} (ok_json token_with_change) _ _ eq_refl).
Defined.

(** C1 fails as stated.  A baseline of -5 is neither zero nor missing, and
    [change_90d] is N/A all the same; [price_change] is [null], not a
    string, on a single price point; [get_crypto_token_info] returns
    [price_change_24h] as the upstream number. *)
Lemma percentage_counterexamples :
  (run (invoke (GetChainTVLTrend {| ci_chain := "Ethereum" |})) (ok_json from_negative)
   = (Ok trend_from_negative, ["https://api.llama.fi/v2/historicalChainTvl/Ethereum"])
   /\ get (result trend_from_negative) "tvl_90d_ago" = Ok (num (-5))
   /\ get (result trend_from_negative) "change_90d" = Ok (VStr "N/A"))
  /\ (exists tr log,
        run (invoke (GetCryptoPriceHistory
                       {| ph_token_id := "bitcoin"; ph_days := Days (Num.of_Z 30);
                          ph_vs_currency := "usd" |})) (ok_json one_price) = (Ok tr, log)
        /\ get (result tr) "price_change" = Ok VNull)
  /\ (exists tr log md,
        run (invoke (GetCryptoTokenInfo {| ti_token_id := "bitcoin" |}))
          (ok_json token_with_change) = (Ok tr, log)
        /\ get (result tr) "market_data" = Ok md
        /\ get md "price_change_24h" = Ok (decimal 15 10)).
Proof.
  split; [repeat split|]. split.
  - eexists. eexists. split; [reflexivity|]. reflexivity.
  - eexists. eexists. eexists. split; [reflexivity|]. split; reflexivity.
Qed.

(** ** Trending tokens *)

(** C5 at a response of eight coins: [get_trending_crypto] maps the
    upstream list without slicing it, and returns eight entries. *)
Theorem trending_returns_every_upstream_coin :
  run (invoke GetTrendingCrypto) (ok_json eight_trending)
  = (Ok {| result := VObj [("trending_coins",
                            VArr (List.map (fun id => trending_out id 0) eight_ids))];
           sourceUrls := ["https://api.coingecko.com/api/v3/search/trending"] |},
     ["https://api.coingecko.com/api/v3/search/trending"])
  /\ List.length (List.map (fun id => trending_out id 0) eight_ids) = 8%nat.
Proof. split; reflexivity. Qed.

(** The tool returns one entry for each upstream coin, in upstream order. *)
Lemma trending_rows data r :
  getTrendingCrypto_body data = Ok r ->
  exists coins rows,
    get r "trending_coins" = Ok (VArr rows) /\
    Forall2 (fun c e => trending_row c = Ok e) coins rows /\
    (get data "coins" = Ok (VArr coins) \/
     (coins = [] /\ exists c, get data "coins" = Ok c /\ nullish c = true)).
Proof.
  unfold getTrendingCrypto_body. intros H.
  apply bind_Ok in H as (coins & Hc & H). unfold object in H. simpl in H.
  injection H as <-.
  apply and_then_Ok in Hc as (x & Hx & Hc). apply or_Ok in Hc as ->.
  apply and_then_Ok in Hx as (c & Hg & Hx).
  apply opt_Ok in Hx as [[Hn ->]|[Hn Hx]].
  - exists [], []. repeat split; auto. right. split; auto. exists c. auto.
  - apply map_Ok in Hx as (l & rows & -> & -> & HF).
    exists l, rows. repeat split; auto.
Qed.

(** ** URL encoding *)

(** C7 at a currency that carries a query separator: [getTokenOHLC] writes
    [vsCurrency] into the URL as it is, so the request has a second [days]
    parameter; encoded like the [id], the currency would have stayed inside
    [vs_currency]. *)
Theorem ohlc_currency_is_not_encoded :
  getTokenOHLC_url "bitcoin" (Some "usd&days=1") (Some (Num.of_Z 30))
  = Ok "https://api.coingecko.com/api/v3/coins/bitcoin/ohlc?vs_currency=usd&days=1&days=30"
  /\ encodeURIComponent "usd&days=1" = "usd%26days%3D1"
  /\ snd (run (invoke (GetCryptoOHLC {| oh_token_id := "bitcoin"; oh_days := Num.of_Z 30;
                                         oh_vs_currency := "usd&days=1" |}))
            (ok_json (VArr [])))
     = ["https://api.coingecko.com/api/v3/coins/bitcoin/ohlc?vs_currency=usd&days=1&days=30"]
  /\ snd (run (searchTokens "usd&days=1") (ok_json (VObj [])))
     = ["https://api.coingecko.com/api/v3/search?query=usd%26days%3D1"].
Proof. repeat split. Qed.



(** ** Missing fields *)

(** C9 at the empty object, at an empty [data] list and at an entry with
    no timestamp: [get_crypto_fear_greed] reads the timestamp through
    optional chaining, gets [undefined], and [toISOString] throws a
    RangeError on the invalid date; [get_global_crypto_data] reads a
    property of [data.data], which is [undefined], and throws a
    TypeError. *)
Theorem missing_fields_make_tools_throw :
  run (invoke GetCryptoFearGreed) (ok_json (VObj []))
  = (Throw RangeError, ["https://api.alternative.me/fng/?limit=10"])
  /\ run (invoke GetCryptoFearGreed) (ok_json (VObj [("data", VArr [])]))
  = (Throw RangeError, ["https://api.alternative.me/fng/?limit=10"])
  /\ run (invoke GetCryptoFearGreed) (ok_json (VObj [("data", VArr [VObj [("value", VStr "25")]])]))
  = (Throw RangeError, ["https://api.alternative.me/fng/?limit=10"])
  /\ run (invoke GetGlobalCryptoData) (ok_json (VObj []))
  = (Throw TypeError, ["https://api.coingecko.com/api/v3/global"]).
Proof. repeat split. Qed.

(** Where the nested fields are missing below [data.data], the tool does
    complete, with the text "undefined%" for the dominance. *)
Example global_data_without_percentages :
  exists tr log,
    run (invoke GetGlobalCryptoData) (ok_json (VObj [("data", VObj [])])) = (Ok tr, log)
    /\ get (result tr) "btc_dominance" = Ok (VStr "undefined%").
Proof. eexists. eexists. split; reflexivity. Qed.

(** ** One request per tool *)

Lemma single_fetch_run (body : value -> res value) u net :
  run (r <- fetchJson u ;; payload <- lift (body (data r)) ;;
       io_ret (formatToolResult payload [url r]))%io net
  = after_fetch body (Ok u) net.
Proof.
  unfold run, io_bind, lift, io_ret, after_fetch.
  destruct (fetchJson u net []) as [[r|e|] log]; auto.
  destruct (body (data r)); auto.
Qed.

Lemma built_fetch_run (body : value -> res value) (built : res string) net :
  run (r <- (u <- lift built ;; fetchJson u) ;; payload <- lift (body (data r)) ;;
       io_ret (formatToolResult payload [url r]))%io net
  = after_fetch body built net.
Proof.
  unfold run, io_bind, lift, io_ret, after_fetch.
  destruct built as [u|e|]; auto.
  destruct (fetchJson u net []) as [[r|e|] log]; auto.
  destruct (body (data r)); auto.
Qed.

Lemma passed_through_run u net :
  run (r <- fetchJson u ;; io_ret (formatToolResult (data r) [url r]))%io net
  = after_fetch (fun d => Ok d) (Ok u) net.
Proof.
  unfold run, io_bind, io_ret, after_fetch.
  destruct (fetchJson u net []) as [[r|e|] log]; auto.
Qed.

Lemma invoke_single c r :
  single_request c = Some r ->
  exists body, forall net, run (invoke c) net = after_fetch body r net.
Proof.
  destruct c; simpl; intros H; try discriminate; injection H as <-;
    try solve [ eexists; intros net; apply single_fetch_run ];
    try solve [ eexists; intros net; apply built_fetch_run ].
  exists (fun d => Ok d). intros net. apply passed_through_run.
Qed.

Lemma protocol_url_not_base p : protocol_url p <> DEFILLAMA_BASE.
Proof. unfold protocol_url, DEFILLAMA_BASE. simpl. discriminate. Qed.

(** X1: a tool that returns made its request at the URL its client builds,
    got a 2xx response with a JSON body there, requested nothing else, and
    names exactly that URL as its source.  [compare_defi_protocols] is the
    exception: the source it names is the DeFiLlama base URL, which is none
    of the URLs it requested. *)
Theorem tools_report_the_url_they_fetched (c : tool_call) (net : network)
    (tr : ToolResult) (log : list string) :
  run (invoke c) net = (Ok tr, log) ->
  match single_request c with
  | Some built =>
      exists u status text body,
        built = Ok u /\ log = [u] /\ sourceUrls tr = [u] /\
        net O u = Response status text (Some body) /\ response_ok status = true
  | None => sourceUrls tr = [DEFILLAMA_BASE] /\ ~ In DEFILLAMA_BASE log
  end.
Proof.
  intros H. destruct (single_request c) as [built|] eqn:Hs.
  - destruct (invoke_single c Hs) as [body Hrun]. rewrite Hrun in H.
    unfold after_fetch in H. destruct built as [u|e|]; try discriminate.
    destruct (fetchJson u net []) as [[resp|e|] log1] eqn:Hf; try discriminate.
    apply fetchJson_Ok in Hf as (Hu & Hl & status & text & Hnet & Hok).
    injection H as H <-. apply bind_Ok in H as (payload & _ & H). injection H as <-.
    exists u, status, text, (data resp). simpl. rewrite Hu. subst log1. auto.
  - destruct c; try discriminate. unfold run in H. simpl in H.
    pose proof (compare_log input net []) as Hlog. rewrite H in Hlog. simpl in Hlog.
    apply compare_sources in H. split; [exact H|].
    subst log. intros Hin. apply in_map_iff in Hin as (p & Hp & _).
    exact (protocol_url_not_base Hp).
Qed.

Lemma tools_report_the_url_they_fetched_witness :
  exists u status text body,
    Ok (COINGECKO_BASE ++ "/global") = Ok u /\
    ["https://api.coingecko.com/api/v3/global"] = [u] /\
    sourceUrls global_result = [u] /\
    ok_json global_sample O u = Response status text (Some body) /\
    response_ok status = true.
Proof.
  exact (@tools_report_the_url_they_fetched GetGlobalCryptoData (ok_json global_sample)
           global_result ["https://api.coingecko.com/api/v3/global"] eq_refl).
Defined.

(** X2: no tool that makes one request catches what the fetch layer
    throws: when the request fails, the call fails with the same
    exception, after that one request. *)
Theorem tools_surface_fetch_errors (c : tool_call) (u : string) (net : network)
    (e : exn) :
  single_request c = Some (Ok u) ->
  fst (fetchJson u net []) = Throw e ->
  run (invoke c) net = (Throw e, [u]).
Proof.
  intros Hs Hf. destruct (invoke_single c Hs) as [body Hrun]. rewrite Hrun.
  unfold after_fetch. pose proof (fetchJson_log u net []) as Hlog.
  destruct (fetchJson u net []) as [[resp|e'|] log1]; simpl in *; try discriminate.
  injection Hf as ->. now subst log1.
Qed.

Lemma tools_surface_fetch_errors_witness :
  run (invoke GetTrendingCrypto) (always (Response 429 "Too Many Requests" None))
  = (Throw (Error rate_limit_message), ["https://api.coingecko.com/api/v3/search/trending"]).
Proof.
  exact (@tools_surface_fetch_errors GetTrendingCrypto
           "https://api.coingecko.com/api/v3/search/trending"
           (always (Response 429 "Too Many Requests" None))
           (Error rate_limit_message) eq_refl eq_refl).
Defined.


(** ** Reading URLs back *)

Ltac each_byte c := destruct c as [[] [] [] [] [] [] [] []].

Lemma percent_byte_decodes c :
  Ascii.eqb (hex_char (Str.byte c / 16)) "+" = false /\
  Ascii.eqb (hex_char (Str.byte c mod 16)) "+" = false /\
  digit_value 16 (hex_char (Str.byte c / 16)) = Some (Str.byte c / 16)%N /\
  digit_value 16 (hex_char (Str.byte c mod 16)) = Some (Str.byte c mod 16)%N /\
  ascii_of_N (16 * (Str.byte c / 16) + Str.byte c mod 16) = c.
Proof. each_byte c; repeat split. Qed.

Lemma unreserved_not_percent c : uri_unreserved c = true -> Ascii.eqb c "%" = false.
Proof. each_byte c; auto. Qed.

Lemma percent_decode_plain c s :
  Ascii.eqb c "%" = false -> percent_decode (String c s) = String c (percent_decode s).
Proof.
  intros H. simpl. rewrite H. destruct s as [|h [|l t]]; auto.
Qed.

Lemma percent_decode_escape c s :
  percent_decode (percent_byte c ++ s) = String c (percent_decode s).
Proof.
  destruct (percent_byte_decodes c) as (_ & _ & Hh & Hl & Hc).
  unfold percent_byte. cbn [append percent_decode]. rewrite Hh, Hl.
  change (Ascii.eqb "%" "%") with true. cbv iota. now rewrite Hc.
Qed.

Lemma percent_decode_encodeURIComponent s : percent_decode (encodeURIComponent s) = s.
Proof.
  induction s as [|c s IH]; auto.
  cbn [encodeURIComponent]. destruct (uri_unreserved c) eqn:E.
  - cbn [append]. rewrite percent_decode_plain, IH; auto using unreserved_not_percent.
  - now rewrite percent_decode_escape, IH.
Qed.

Lemma encodeURIComponent_injective a b :
  encodeURIComponent a = encodeURIComponent b -> a = b.
Proof.
  intros H. rewrite <- (percent_decode_encodeURIComponent a),
                   <- (percent_decode_encodeURIComponent b). now rewrite H.
Qed.

Lemma append_inj_l (p a b : string) : p ++ a = p ++ b -> a = b.
Proof. induction p; simpl; intros H; auto. injection H as H. auto. Qed.


Lemma forallb_impl (p q : ascii -> bool) s :
  (forall c, p c = true -> q c = true) ->
  Str.forallb p s = true -> Str.forallb q s = true.
Proof.
  intros Hpq. induction s as [|c s IH]; simpl; auto.
  intros H. apply andb_true_iff in H as [Hc Hs]. rewrite (Hpq c Hc). auto.
Qed.


Lemma append_empty_r (s : string) : s ++ "" = s.
Proof. induction s; simpl; congruence. Qed.



(** ** Query strings *)

Lemma form_encode_chars s : Str.forallb query_char (form_encode s) = true.
Proof.
  induction s as [|c s IH]; [reflexivity|].
  cbn [form_encode]. rewrite forallb_app, IH, andb_true_r.
  each_byte c; reflexivity.
Qed.

Lemma before_app sep a b :
  Str.forallb (fun c => negb (Ascii.eqb c sep)) a = true ->
  Str.before sep (a ++ String sep b) = a.
Proof.
  induction a as [|c a IH]; simpl.
  - now rewrite Ascii.eqb_refl.
  - intros H. apply andb_true_iff in H as [Hc Ha].
    apply negb_true_iff in Hc. rewrite Hc, IH; auto.
Qed.

Lemma after_app sep a b :
  Str.forallb (fun c => negb (Ascii.eqb c sep)) a = true ->
  after sep (a ++ String sep b) = b.
Proof.
  induction a as [|c a IH]; simpl.
  - now rewrite Ascii.eqb_refl.
  - intros H. apply andb_true_iff in H as [Hc Ha].
    apply negb_true_iff in Hc. rewrite Hc, IH; auto.
Qed.

Lemma split_on_no_sep sep a :
  Str.forallb (fun c => negb (Ascii.eqb c sep)) a = true -> split_on sep a = [a].
Proof.
  induction a as [|c a IH]; simpl; auto.
  intros H. apply andb_true_iff in H as [Hc Ha].
  apply negb_true_iff in Hc. rewrite Hc, IH; auto.
Qed.

Lemma split_on_app sep a b :
  Str.forallb (fun c => negb (Ascii.eqb c sep)) a = true ->
  split_on sep (a ++ String sep b) = a :: split_on sep b.
Proof.
  induction a as [|c a IH]; simpl.
  - now rewrite Ascii.eqb_refl.
  - intros H. apply andb_true_iff in H as [Hc Ha].
    apply negb_true_iff in Hc. rewrite Hc, IH; auto.
Qed.

Lemma split_on_join sep pieces :
  pieces <> [] ->
  Forall (fun p => Str.forallb (fun c => negb (Ascii.eqb c sep)) p = true) pieces ->
  split_on sep (Str.join (String sep "") pieces) = pieces.
Proof.
  induction pieces as [|p [|q r] IH]; intros Hne H; [congruence| |].
  - simpl. inversion H; subst. now apply split_on_no_sep.
  - inversion H; subst.
    change (Str.join (String sep "") (p :: q :: r))
      with (p ++ String sep (Str.join (String sep "") (q :: r))).
    rewrite split_on_app by assumption. f_equal. apply IH; [discriminate|assumption].
Qed.

Lemma plus_to_space_app a b : plus_to_space (a ++ b) = plus_to_space a ++ plus_to_space b.
Proof. unfold plus_to_space. induction a; simpl; congruence. Qed.

Lemma form_decode_form_encode s : form_decode (form_encode s) = s.
Proof.
  unfold form_decode. induction s as [|c s IH]; auto.
  cbn [form_encode]. rewrite plus_to_space_app.
  destruct (is_alnum c || mem_char c "*-._") eqn:E.
  - assert (Hp : Ascii.eqb c "+" = false) by (revert E; each_byte c; auto).
    assert (Hq : Ascii.eqb c "%" = false) by (revert E; each_byte c; auto).
    unfold plus_to_space at 1. cbn [Str.map append]. rewrite Hp.
    rewrite percent_decode_plain, IH; auto.
  - destruct (Ascii.eqb c " ") eqn:Es.
    + apply Ascii.eqb_eq in Es. subst c.
      unfold plus_to_space at 1. cbn [Str.map append].
      change (Ascii.eqb "+" "+") with true. cbv iota.
      rewrite percent_decode_plain, IH; auto.
    + destruct (percent_byte_decodes c) as (Hh & Hl & _).
      assert (Hb : plus_to_space (percent_byte c) = percent_byte c).
      { unfold plus_to_space, percent_byte. cbn [Str.map]. rewrite Hh, Hl. reflexivity. }
      rewrite Hb, percent_decode_escape, IH. reflexivity.
Qed.

Lemma no_sep_form_encode sep s :
  query_char sep = false ->
  Str.forallb (fun c => negb (Ascii.eqb c sep)) (form_encode s) = true.
Proof.
  intros Hsep. apply forallb_impl with (p := query_char); [|apply form_encode_chars].
  intros c Hc. apply negb_true_iff. apply Ascii.eqb_neq. intros ->. congruence.
Qed.

(** What [URLSearchParams] writes, the parser of query strings reads back. *)
Lemma parse_query_URLSearchParams params : parse_query (URLSearchParams params) = params.
Proof.
  unfold parse_query, URLSearchParams.
  destruct params as [|p ps]; [reflexivity|].
  set (pieces := List.map (fun p => form_encode (fst p) ++ "=" ++ form_encode (snd p)) (p :: ps)).
  assert (Hamp : Forall (fun p => Str.forallb (fun c => negb (Ascii.eqb c "&")) p = true) pieces).
  { apply Forall_map. apply Forall_forall. intros [k v] _. simpl.
    rewrite forallb_app. rewrite no_sep_form_encode by reflexivity.
    simpl. apply no_sep_form_encode. reflexivity. }
  rewrite (@split_on_join "&" pieces); [|discriminate|exact Hamp].
  subst pieces. clear Hamp. generalize (p :: ps). clear. intros l.
  induction l as [|[k v] l IH]; [reflexivity|].
  cbn [List.map fst snd].
  assert (Hne : (form_encode k ++ "=" ++ form_encode v =? "") = false).
  { apply String.eqb_neq. destruct (form_encode k); discriminate. }
  cbn [List.filter]. rewrite Hne. cbn [negb List.map].
  change ("=" ++ form_encode v) with (String "=" (form_encode v)).
  rewrite before_app, after_app by (apply no_sep_form_encode; reflexivity).
  now rewrite !form_decode_form_encode, IH.
Qed.

(** X4: for texts of the caller, the query string that [getTokenInfo],
    [getTokenPrice] and [getCategoryCoins] send parses back, on the
    server's side, into exactly the parameters the client wrote, in order,
    with the caller's texts as given: no text of the caller can add, drop
    or rename a parameter. *)
Theorem query_strings_parse_back (net : network) :
  (forall id options,
      well_formed id = true ->
      exists segment q,
        snd (run (getTokenInfo id options) net)
        = [COINGECKO_BASE ++ "/coins/" ++ segment ++ "?" ++ q] /\
        parse_query q =
          [("localization", String_bool (default (localization options) false));
           ("tickers", String_bool (default (tickers options) false));
           ("market_data", String_bool (default (market_data options) true));
           ("community_data", String_bool (default (community_data options) false));
           ("developer_data", String_bool (default (developer_data options) false))]) /\
  (forall ids vsCurrencies options,
      forallb well_formed ids = true ->
      forallb well_formed (default vsCurrencies ["usd"]) = true ->
      exists q,
        snd (run (getTokenPrice ids vsCurrencies options) net)
        = [COINGECKO_BASE ++ "/simple/price?" ++ q] /\
        parse_query q =
          [("ids", Str.join "," ids);
           ("vs_currencies", Str.join "," (default vsCurrencies ["usd"]));
           ("include_market_cap", String_bool (default (include_market_cap options) true));
           ("include_24hr_vol", String_bool (default (include_24hr_vol options) true));
           ("include_24hr_change",
            String_bool (default (include_24hr_change options) true))]) /\
  (forall categoryId vsCurrency,
      well_formed categoryId = true ->
      well_formed (default vsCurrency "usd") = true ->
      exists q,
        snd (run (getCategoryCoins categoryId vsCurrency) net)
        = [COINGECKO_BASE ++ "/coins/markets?" ++ q] /\
        parse_query q =
          [("vs_currency", default vsCurrency "usd"); ("category", categoryId);
           ("order", "market_cap_desc"); ("per_page", "50"); ("page", "1");
           ("sparkline", "false")]).
Proof.
  unfold run, getTokenInfo, getTokenPrice, getCategoryCoins.
  split; [|split]; intros.
  - eexists. eexists. split; [rewrite fetchJson_log; reflexivity|].
    apply parse_query_URLSearchParams.
  - eexists. split; [rewrite fetchJson_log; reflexivity|].
    apply parse_query_URLSearchParams.
  - eexists. split; [rewrite fetchJson_log; reflexivity|].
    apply parse_query_URLSearchParams.
Qed.

Lemma query_strings_parse_back_witness :
  snd (run (getCategoryCoins euro_text (Some "usd&page=2")) (ok_json (VArr [])))
  = ["https://api.coingecko.com/api/v3/coins/markets?vs_currency=usd%26page%3D2"
     ++ "&category=1+%E2%82%AC+%2F+coin%3F"
     ++ "&order=market_cap_desc&per_page=50&page=1&sparkline=false"] /\
  exists q,
    snd (run (getCategoryCoins euro_text (Some "usd&page=2")) (ok_json (VArr [])))
    = [COINGECKO_BASE ++ "/coins/markets?" ++ q] /\
    parse_query q =
      [("vs_currency", "usd&page=2"); ("category", euro_text);
       ("order", "market_cap_desc"); ("per_page", "50"); ("page", "1");
       ("sparkline", "false")].
Proof.
  split; [reflexivity|].
  exact (proj2 (proj2 (query_strings_parse_back (ok_json (VArr []))))
           euro_text (Some "usd&page=2") eq_refl eq_refl).
Defined.

(** ** Page sizes *)

Lemma as_integer_of_Z z : Num.as_integer (Num.of_Z z) = Some z.
Proof.
  unfold Num.as_integer, Num.of_Z. rewrite Qfloor_Z.
  now rewrite (proj2 (Qeq_bool_iff _ _) (Qeq_refl _)).
Qed.

Lemma String_num_of_Z z : (Z.abs z <= 2 ^ 53)%Z -> String_num (Num.of_Z z) = Ok (Str.of_Z z).
Proof.
  intros H. unfold String_num, num_to_string.
  change (Num.of_Z z) with (Num.Fin (inject_Z z)) at 1.
  cbv iota. fold (Num.of_Z z). rewrite as_integer_of_Z.
  apply Z.leb_le in H. now rewrite H.
Qed.

Lemma min_of_Z a b : Num.min (Num.of_Z a) (Num.of_Z b) = Num.of_Z (Z.min a b).
Proof.
  unfold Num.min, Num.of_Z, Num.ge.
  destruct (Qle_bool (inject_Z b) (inject_Z a)) eqn:E.
  - apply Qle_bool_iff in E. rewrite <- Zle_Qle in E. now rewrite Z.min_r.
  - rewrite Z.min_l; auto. destruct (Z.le_gt_cases a b); auto.
    assert (Qle_bool (inject_Z b) (inject_Z a) = true); [|congruence].
    apply Qle_bool_iff. rewrite <- Zle_Qle. lia.
Qed.


Lemma exchanges_rows data r :
  getCryptoExchanges_body data = Ok r ->
  forall l, data = VArr l ->
  exists rows, get r "exchanges" = Ok (VArr rows) /\
               Forall2 (fun e row => exchange_row e = Ok row) l rows.
Proof.
  unfold getCryptoExchanges_body. intros H l ->.
  apply bind_Ok in H as (ex & Hex & H).
  apply and_then_Ok in Hex as (m & Hm & Hex). apply or_Ok in Hex.
  simpl in Hm. apply bind_Ok in Hm as (rows & Hrows & Hm). injection Hm as <-.
  subst ex. simpl in H. injection H as <-.
  exists rows. split; [reflexivity|]. now apply mapM_Ok.
Qed.

(** X5: [get_crypto_exchanges] called with an integer [limit] of [-2^53]
    at least asks the provider for [min(limit, 50)] exchanges per page, and
    returns one row for every exchange of the response: the tool itself
    cuts nothing. *)
Theorem exchanges_page_size (input : ExchangesInput) (limit : Z) (net : network)
    (tr : ToolResult) (log : list string) :
  ex_limit input = Num.of_Z limit ->
  (- 2 ^ 53 <= limit)%Z ->
  run (invoke (GetCryptoExchanges input)) net = (Ok tr, log) ->
  log = [COINGECKO_BASE ++ "/exchanges?per_page=" ++ Str.of_Z (Z.min limit 50)] /\
  exists status text body,
    net O (COINGECKO_BASE ++ "/exchanges?per_page=" ++ Str.of_Z (Z.min limit 50))
    = Response status text (Some body) /\
    forall l, body = VArr l ->
              exists rows, get (result tr) "exchanges" = Ok (VArr rows) /\
                           Forall2 (fun e row => exchange_row e = Ok row) l rows.
Proof.
  intros Hlimit Hlow H.
  unfold run in H. simpl in H. unfold getCryptoExchanges in H.
  apply single_fetch_tool in H as (resp & H & Hbody & _).
  unfold getExchanges in H. apply io_bind_Ok in H as (u' & log1 & Hurl & H).
  apply lift_Ok in Hurl as [Hurl ->].
  unfold getExchanges_url, default in Hurl. rewrite Hlimit, min_of_Z in Hurl.
  rewrite String_num_of_Z in Hurl by lia. simpl in Hurl. injection Hurl as <-.
  apply fetchJson_Ok in H as (_ & -> & status & text & Hnet & _).
  split; [reflexivity|].
  exists status, text, (data resp). split; [exact Hnet|].
  now apply exchanges_rows.
Qed.

Lemma exchanges_page_size_witness :
  run (invoke (GetCryptoExchanges {| ex_limit := Num.of_Z 80 |}))
    (ok_json (VArr [exchange "binance" 1; exchange "kraken" 2]))
  = (Ok {| result := VObj [("exchanges", VArr [exchange_out "binance" 1;
                                               exchange_out "kraken" 2]);
                           ("count", num 2)];
           sourceUrls := ["https://api.coingecko.com/api/v3/exchanges?per_page=50"] |},
     ["https://api.coingecko.com/api/v3/exchanges?per_page=50"]) /\
  exists rows,
    Ok (VArr [exchange_out "binance" 1; exchange_out "kraken" 2]) = Ok (VArr rows) /\
    Forall2 (fun e row => exchange_row e = Ok row)
      [exchange "binance" 1; exchange "kraken" 2] rows.
Proof.
  split; [reflexivity|].
  assert (Hlow : (- 2 ^ 53 <= 80)%Z) by lia.
  destruct (@exchanges_page_size {| ex_limit := Num.of_Z 80 |} 80
              (ok_json (VArr [exchange "binance" 1; exchange "kraken" 2]))
              _ _ eq_refl Hlow eq_refl) as (_ & status & text & body & Hnet & Hrows).
  injection Hnet as _ _ <-. exact (Hrows _ eq_refl).
Defined.

(** ** Caps *)

Lemma rel_index_0 len : rel_index len (Num.of_Z 0) = O.
Proof.
  unfold rel_index, Num.of_Z. cbn [Num.to_integer_or_infinity].
  rewrite Qtruncate_inject_Z. change (0 <? 0)%Z with false. cbn iota. lia.
Qed.

Lemma rel_index_pos len z : (0 <= z)%Z -> rel_index len (Num.of_Z z) = Nat.min (Z.to_nat z) len.
Proof.
  intros Hz. unfold rel_index, Num.of_Z. cbn [Num.to_integer_or_infinity].
  rewrite Qtruncate_inject_Z.
  destruct (Z.ltb_spec z 0); lia.
Qed.

Lemma rel_index_neg len z : (z < 0)%Z -> rel_index len (Num.of_Z z) = (len - Z.to_nat (- z))%nat.
Proof.
  intros Hz. unfold rel_index, Num.of_Z. cbn [Num.to_integer_or_infinity].
  rewrite Qtruncate_inject_Z.
  destruct (Z.ltb_spec z 0); lia.
Qed.

(** [slice(0, n)] is the first [n] elements. *)
Lemma list_slice_first {A : Type} (z : Z) (l : list A) :
  (0 <= z)%Z -> list_slice (Num.of_Z 0) (Some (Num.of_Z z)) l = firstn (Z.to_nat z) l.
Proof.
  intros Hz. unfold list_slice, slice_bounds.
  rewrite rel_index_0, rel_index_pos, Nat.sub_0_r by assumption.
  cbn [skipn]. destruct (Nat.min_spec (Z.to_nat z) (List.length l)) as [[H ->]|[H ->]]; auto.
  now rewrite !firstn_all2 by lia.
Qed.

(** [slice(-n)] is the last [n] elements. *)
Lemma list_slice_last {A : Type} (z : Z) (l : list A) :
  (z < 0)%Z -> list_slice (Num.of_Z z) None l = skipn (List.length l - Z.to_nat (- z)) l.
Proof.
  intros Hz. unfold list_slice, slice_bounds. rewrite rel_index_neg by assumption.
  apply firstn_all2. rewrite length_skipn. lia.
Qed.

Lemma length_take_le n s : (String.length (Str.take n s) <= n)%nat.
Proof.
  revert s. induction n as [|n IH]; intros [|c s]; simpl; try lia.
  specialize (IH s). lia.
Qed.

Lemma slice_first_at_most (z : Z) v r :
  (0 <= z)%Z -> slice_ (Num.of_Z 0) (Some (Num.of_Z z)) v = Ok r -> at_most (Z.to_nat z) r.
Proof.
  intros Hz. destruct v; cbn [slice_]; try discriminate; intros H.
  - apply bind_Ok in H as (t & _ & H). unfold slice_bounds in H.
    rewrite rel_index_0, rel_index_pos, Nat.sub_0_r in H by assumption.
    injection H as <-. cbn [at_most].
    pose proof (length_take_le (Nat.min (Z.to_nat z) (String.length t)) t). cbn [Str.drop]. lia.
  - injection H as <-. cbn [at_most]. rewrite list_slice_first, length_firstn; lia.
Qed.

Lemma slice_last_at_most (z : Z) v r :
  (z < 0)%Z -> slice_ (Num.of_Z z) None v = Ok r -> at_most (Z.to_nat (- z)) r.
Proof.
  intros Hz. destruct v; cbn [slice_]; try discriminate; intros H.
  - apply bind_Ok in H as (t & _ & H). unfold slice_bounds in H.
    rewrite rel_index_neg in H by assumption. injection H as <-. cbn [at_most].
    match goal with |- (String.length (Str.take ?a ?b) <= _)%nat =>
      pose proof (length_take_le a b) end. lia.
  - injection H as <-. cbn [at_most]. rewrite list_slice_last, length_skipn; lia.
Qed.

Lemma map_at_most n f v r : map_ f v = Ok r -> at_most n v -> at_most n r.
Proof.
  intros H. apply map_Ok in H as (l & rows & -> & -> & HF). simpl.
  now rewrite (Forall2_length_eq HF).
Qed.

Lemma or_empty_at_most n v : at_most n v -> at_most n (or_else v (VArr [])).
Proof.
  unfold or_else. destruct (truthy v); auto. intros _. simpl. lia.
Qed.

Lemma opt_at_most n (F : value -> res value) v r :
  (forall x y, F x = Ok y -> at_most n y) -> opt F v = Ok r -> at_most n r.
Proof.
  intros HF H. apply opt_Ok in H as [[_ ->]|[_ H]]; simpl; eauto.
Qed.


Lemma first_then_map_at_most z row v r :
  (0 <= z)%Z ->
  (slice_ (Num.of_Z 0) (Some (Num.of_Z z)) v >>= map_ row) = Ok r ->
  at_most (Z.to_nat z) r.
Proof.
  intros Hz H. apply and_then_Ok in H as (s & Hs & H).
  eapply map_at_most; eauto. now apply slice_first_at_most in Hs.
Qed.

Lemma last_then_map_at_most z row v r :
  (z < 0)%Z ->
  (slice_ (Num.of_Z z) None v >>= map_ row) = Ok r ->
  at_most (Z.to_nat (- z)) r.
Proof.
  intros Hz H. apply and_then_Ok in H as (s & Hs & H).
  eapply map_at_most; eauto. now apply slice_last_at_most in Hs.
Qed.

Lemma sorted_first_then_map_at_most cmp z row v r :
  (0 <= z)%Z ->
  (sort_ cmp v >>= slice_ (Num.of_Z 0) (Some (Num.of_Z z)) >>= map_ row) = Ok r ->
  at_most (Z.to_nat z) r.
Proof.
  intros Hz H. apply and_then_Ok in H as (s & Hs & H).
  apply and_then_Ok in Hs as (t & _ & Hs).
  eapply map_at_most; eauto. now apply slice_first_at_most in Hs.
Qed.

Ltac cut_step H :=
  first [ apply first_then_map_at_most in H; [exact H|lia]
        | apply last_then_map_at_most in H; [exact H|lia]
        | apply sorted_first_then_map_at_most in H; [exact H|lia]
        | apply slice_first_at_most in H; [exact H|lia]
        | apply slice_last_at_most in H; [exact H|lia] ].

Ltac strip_opt H :=
  lazymatch type of H with
  | (_ >>= opt _) = Ok _ =>
      let x := fresh "x" in let Hx := fresh "Hx" in
      let a := fresh "a" in let b := fresh "b" in let Hab := fresh "Hab" in
      apply and_then_Ok in H as (x & Hx & H);
      eapply opt_at_most; [|exact H]; intros a b Hab; cut_step Hab
  | opt _ _ = Ok _ =>
      let a := fresh "a" in let b := fresh "b" in let Hab := fresh "Hab" in
      eapply opt_at_most; [|exact H]; intros a b Hab; cut_step Hab
  end.

Ltac strip_or H :=
  lazymatch type of H with
  | (_ >>= or_ _) = Ok _ =>
      let x := fresh "x" in let Hx := fresh "Hx" in
      apply and_then_Ok in H as (x & Hx & H); apply or_Ok in H; rewrite H;
      apply or_empty_at_most; strip_opt Hx
  | _ => strip_opt H
  end.

(** The field under [k] of an object literal that evaluated. *)
Ltac capped_by H := eexists; split; [reflexivity|]; cbn [snd]; strip_or H.

Lemma compare_length input net tr log :
  compareDefiProtocols input net [] = (Ok tr, log) ->
  exists entries, result tr = VObj [("comparison", VArr entries)] /\
                  (List.length entries <= 5)%nat.
Proof.
  unfold compareDefiProtocols. fold (compared input). intros H.
  apply io_bind_Ok in H as (rs & log1 & Hp & H).
  apply io_bind_Ok in H as (cs & log2 & Hc & H).
  apply lift_Ok in Hc as [Hc ->]. unfold io_ret in H. injection H as <- _.
  exists cs. split; [reflexivity|].
  pose proof (promise_all_spec (compared input) net []) as Hs.
  rewrite Hp in Hs. simpl in Hs. symmetry in Hs.
  apply mapM_Ok, Forall2_length_eq in Hs. apply mapM_Ok, Forall2_length_eq in Hc.
  rewrite <- Hc, <- Hs.
  assert (Hi : forall (l : list string) i, List.length (indexed i l) = List.length l).
  { induction l; simpl; auto. }
  rewrite Hi. unfold compared.
  apply (@list_slice_0_le string 5 (cmp_protocols input)). lia.
Qed.

(** X6: the lists and texts the tools cut to a fixed size never exceed it:
    ten coins, five categories and three NFTs of a search, the seven
    readings of the Fear and Greed history, thirty chains, twenty
    stablecoins, twenty exchanges by volume, thirty categories, twenty-five
    coins of a sector, the thirty and ninety points of the two histories,
    the five compared protocols, the 500 characters of a description. *)
Theorem fixed_caps (c : tool_call) (net : network) (tr : ToolResult) (log : list string) :
  run (invoke c) net = (Ok tr, log) ->
  Forall (capped (result tr)) (caps c).
Proof.
  unfold run. intros H.
  destruct c; cbn [caps]; try solve [constructor]; simpl in H;
    try (match goal with
         | H : ?tool _ _ _ = _ |- _ => unfold tool in H
         | H : ?tool _ _ = _ |- _ => unfold tool in H
         end;
         apply single_fetch_tool in H as (resp & _ & H & _)).
  - (* search_crypto_tokens *)
    unfold searchCryptoTokens_body in H. inv_object H.
    repeat constructor.
    + capped_by Hv.
    + capped_by Hv0.
    + capped_by Hv1.
  - (* get_crypto_token_info *)
    unfold getCryptoTokenInfo_body in H. inv_object H.
    repeat constructor. capped_by Hv2.
  - (* get_crypto_fear_greed *)
    unfold getCryptoFearGreed_body in H. inv_object H.
    repeat constructor. capped_by Hv0.
  - (* get_crypto_categories *)
    unfold getCryptoCategories_body in H.
    apply bind_Ok in H as (cs & Hcs & H). inv_object H.
    repeat constructor. capped_by Hcs.
  - (* get_crypto_by_sector *)
    unfold getCryptoBySector_body in H.
    apply bind_Ok in H as (cs & Hcs & H). inv_object H.
    repeat constructor. capped_by Hcs.
  - (* get_defi_protocol_detail *)
    unfold getDefiProtocolDetail_body in H.
    apply bind_Ok in H as (c & _ & H). apply bind_Ok in H as (chainTvls & _ & H).
    apply bind_Ok in H as (hist & Hh & H). inv_object H.
    repeat constructor.
    + capped_by Hv1.
    + capped_by Hh.
  - (* get_chain_tvl_data *)
    unfold getChainTVLData_body in H.
    apply bind_Ok in H as (cs & Hcs & H). inv_object H.
    repeat constructor. capped_by Hcs.
  - (* get_chain_tvl_trend *)
    unfold getChainTVLTrend_body in H.
    apply bind_Ok in H as (hist & Hh & H).
    do 3 (apply bind_Ok in H as (? & _ & H)). inv_object H.
    repeat constructor. capped_by Hh.
  - (* get_stablecoin_data *)
    unfold getStablecoinData_body in H.
    apply bind_Ok in H as (cs & Hcs & H). inv_object H.
    repeat constructor. capped_by Hcs.
  - (* get_dex_volume_data *)
    unfold getDexVolumeData_body in H.
    apply bind_Ok in H as (cs & Hcs & H). inv_object H.
    repeat constructor. capped_by Hcs.
  - (* compare_defi_protocols *)
    apply compare_length in H as (entries & -> & Hlen).
    repeat constructor. eexists. split; [reflexivity|]. exact Hlen.
Qed.

Lemma fixed_caps_witness :
  Forall (capped (VObj [("coins", VArr (List.repeat found_row 10)); ("categories", VArr []);
                        ("nfts", VArr [])]))
    [("coins", 10); ("categories", 5); ("nfts", 3)]%nat.
Proof.
  exact (@fixed_caps (SearchCryptoTokens {| si_query := "bitcoin" |}) (ok_json twelve_found)
           _ _ eq_refl).
Defined.


(** ** Rankings *)

Section SortByComparator.

Variable cmp : comparator.
Variable key : value -> res Num.t.

Hypothesis cmp_is_difference :
  forall a b c, cmp a b = Ok c ->
                exists ka kb, key a = Ok ka /\ key b = Ok kb /\ c = Num.sub kb ka.
Hypothesis key_is_number : forall p n, key p = Ok n -> n <> Num.NaN.




End SortByComparator.












(** ** Filters *)

Lemma filterM_accepts f l r :
  filterM (fun x => y <- f x ;; Ok (truthy y)) l = Ok r -> r = List.filter (accepts f) l.
Proof.
  revert r. induction l as [|x l IH]; simpl; intros r H.
  - now injection H as <-.
  - apply bind_Ok in H as (b & Hb & H). apply bind_Ok in H as (ys & Hys & H).
    injection H as <-. apply bind_Ok in Hb as (y & Hy & Hb). injection Hb as <-.
    unfold accepts at 1. rewrite Hy. now rewrite (IH ys Hys).
Qed.

Lemma filter_accepts f l r :
  filter_ f (VArr l) = Ok r -> r = VArr (List.filter (accepts f) l).
Proof.
  simpl. intros H. apply bind_Ok in H as (l' & Hf & H). injection H as <-.
  now rewrite (filterM_accepts _ _ Hf).
Qed.

Lemma filter_filter {A : Type} (f g : A -> bool) l :
  List.filter g (List.filter f l) = List.filter (fun x => f x && g x) l.
Proof.
  induction l as [|x l IH]; simpl; auto.
  destruct (f x); simpl; [destruct (g x)|]; simpl; congruence.
Qed.

Lemma filter_true {A : Type} (l : list A) : List.filter (fun _ => true) l = l.
Proof. induction l; simpl; congruence. Qed.

(** A filter step on a string of the input: taken when the string is given
    and lower-cases, skipped when it is not given. *)
Lemma text_filter_step (o : option string) (F : string -> value -> res value)
    (m : string -> value -> bool) l r :
  (forall s p, m s p = match lower s with Ok t => accepts (F t) p | _ => false end) ->
  match o with
  | Some s => t <- lower s ;; filter_ (F t) (VArr l)
  | None => Ok (VArr l)
  end = Ok r ->
  r = VArr (List.filter (when_given o m) l).
Proof.
  intros Hm H. destruct o as [s|]; cbn [when_given].
  - apply bind_Ok in H as (t & Ht & H). apply filter_accepts in H. subst r.
    f_equal. apply filter_ext. intros p. unfold when_given. now rewrite (Hm s p), Ht.
  - injection H as <-. now rewrite filter_true.
Qed.


Lemma kept_array v l : kept v (VArr l) -> exists l0, v = VArr l0.
Proof. intros [->|(l0 & l' & -> & _ & _)]; eauto. Qed.

(** The pools [get_defi_yields] starts from: [data.data || []], which is a
    list whenever the tool returns. *)
Lemma yields_pools input data r :
  getDefiYields_body input data = Ok r ->
  exists v upstream, get data "data" = Ok v /\ or_else v (VArr []) = VArr upstream.
Proof.
  unfold getDefiYields_body. intros H.
  apply bind_Ok in H as (p0 & H0 & H).
  apply bind_Ok in H as (p1 & H1 & H). apply bind_Ok in H as (p2 & H2 & H).
  apply bind_Ok in H as (p3 & H3 & H). apply bind_Ok in H as (p4 & H4 & H).
  apply sort_slice_map_top_n in H as (candidates & -> & H).
  assert (K1 : kept p0 p1).
  { destruct (given (dy_chain input)); [|injection H1 as <-; now left].
    apply bind_Ok in H1 as (c & _ & H1). eapply filter_kept; eauto. }
  assert (K2 : kept p1 p2).
  { destruct (given (dy_project input)); [|injection H2 as <-; now left].
    apply bind_Ok in H2 as (c & _ & H2). eapply filter_kept; eauto. }
  assert (K3 : kept p2 p3).
  { destruct (given_num (dy_min_tvl input)); [|injection H3 as <-; now left].
    eapply filter_kept; eauto. }
  assert (K4 : kept p3 (VArr candidates)).
  { destruct (dy_stablecoin_only input); [|injection H4 as <-; now left].
    eapply filter_kept; eauto. }
  apply and_then_Ok in H0 as (v & Hv & H0). apply or_Ok in H0.
  assert (K : kept p0 (VArr candidates)).
  { eapply kept_trans; [|exact K4]. eapply kept_trans; [|exact K3].
    eapply kept_trans; eauto. }
  apply kept_array in K as (l0 & E). exists v, l0. split; congruence.
Qed.

Lemma yields_filtered input data v upstream r :
  get data "data" = Ok v ->
  or_else v (VArr []) = VArr upstream ->
  getDefiYields_body input data = Ok r ->
  top_n "pools" "apy" pool_row (dy_limit input)
    (List.filter (pool_matches input) upstream) r.
Proof.
  unfold getDefiYields_body. intros Hd Hv H. rewrite Hd in H.
  cbn [and_then bind or_] in H. rewrite Hv in H. cbn [bind] in H.
  apply bind_Ok in H as (p1 & H1 & H). apply bind_Ok in H as (p2 & H2 & H).
  apply bind_Ok in H as (p3 & H3 & H). apply bind_Ok in H as (p4 & H4 & H).
  apply (text_filter_step _
           (fun chainLower p => own <- get p "chain" >>= opt toLowerCase_ ;;
                                Ok (VBool (strict_eq_str own chainLower)))
           pool_on_chain) in H1; [|reflexivity]. subst p1.
  apply (text_filter_step _ (in_category "project") (mentions "project")) in H2;
    [|reflexivity]. subst p2.
  assert (E3 : p3 = VArr (List.filter (when_given (given_num (dy_min_tvl input)) tvl_at_least)
                            (List.filter (when_given (given (dy_project input))
                                            (mentions "project"))
                               (List.filter (when_given (given (dy_chain input))
                                               pool_on_chain) upstream)))).
  { destruct (given_num (dy_min_tvl input)) as [m|]; simpl.
    - now apply filter_accepts in H3.
    - injection H3 as <-. now rewrite filter_true. }
  subst p3.
  assert (E4 : p4 = VArr (List.filter (fun p => if dy_stablecoin_only input
                                                then is_stablecoin p else true)
                            (List.filter (when_given (given_num (dy_min_tvl input)) tvl_at_least)
                            (List.filter (when_given (given (dy_project input))
                                            (mentions "project"))
                               (List.filter (when_given (given (dy_chain input))
                                               pool_on_chain) upstream))))).
  { destruct (dy_stablecoin_only input).
    - now apply filter_accepts in H4.
    - injection H4 as <-. now rewrite filter_true. }
  subst p4. rewrite !filter_filter in H.
  apply sort_slice_map_top_n in H as (candidates & E & H). injection E as <-.
  erewrite filter_ext; [exact H|].
  intros p. unfold pool_matches. now rewrite !andb_assoc.
Qed.



(** *** What the filters of [get_defi_yields] mean for the rows *)

Lemma accepts_Ok f p : accepts f p = true -> exists v, f p = Ok v /\ truthy v = true.
Proof. unfold accepts. destruct (f p); try discriminate. eauto. Qed.

Lemma tvl_at_least_spec m p :
  tvl_at_least m p = true -> exists t, get p "tvlUsd" = Ok t /\ js_ge t (VNum m) = Ok true.
Proof.
  unfold tvl_at_least. intros H. apply accepts_Ok in H as (v & H & Hv).
  apply bind_Ok in H as (t & Ht & H). apply bind_Ok in H as (b & Hb & H).
  injection H as <-. simpl in Hv. subst b. eauto.
Qed.

Lemma is_stablecoin_spec p : is_stablecoin p = true -> get p "stablecoin" = Ok (VBool true).
Proof.
  unfold is_stablecoin. intros H. apply accepts_Ok in H as (v & H & Hv).
  apply bind_Ok in H as (s & Hs & H). injection H as <-. simpl in Hv.
  destruct s as [| |[|]| | | |]; try discriminate. exact Hs.
Qed.

Lemma toLowerCase_Ok v r :
  toLowerCase_ v = Ok r -> exists s t, v = VStr s /\ lower s = Ok t /\ r = VStr t.
Proof.
  destruct v; simpl; try discriminate. intros H.
  apply bind_Ok in H as (t & Ht & H). injection H as <-.
  exists s, (Str.map Str.lower_char t). unfold lower. rewrite Ht. auto.
Qed.

Lemma pool_on_chain_spec chain p :
  pool_on_chain chain p = true ->
  exists c t, get p "chain" = Ok (VStr c) /\ lower c = Ok t /\ lower chain = Ok t.
Proof.
  unfold pool_on_chain. destruct (lower chain) as [cl| |] eqn:Hl; try discriminate.
  intros H. apply accepts_Ok in H as (v & H & Hv).
  apply bind_Ok in H as (own & Hown & H). injection H as <-. simpl in Hv.
  apply and_then_Ok in Hown as (c & Hc & Hown).
  apply opt_Ok in Hown as [[_ ->]|[_ Hown]]; [discriminate|].
  apply toLowerCase_Ok in Hown as (s & t & -> & Ht & ->). simpl in Hv.
  apply String.eqb_eq in Hv. subst t. eauto.
Qed.

Lemma mentions_spec k text p :
  mentions k text p = true ->
  exists c t textLower,
    get p k = Ok (VStr c) /\ lower c = Ok t /\ lower text = Ok textLower /\
    Str.includes textLower t = true.
Proof.
  unfold mentions. destruct (lower text) as [tl| |] eqn:Hl; try discriminate.
  intros H. apply accepts_Ok in H as (v & H & Hv). unfold in_category in H.
  apply and_then_Ok in H as (c & Hc & H).
  apply opt_Ok in H as [[_ ->]|[_ H]]; [discriminate|].
  apply and_then_Ok in H as (lc & Hlc & H).
  apply toLowerCase_Ok in Hlc as (s & t & -> & Ht & ->). simpl in H.
  injection H as <-. simpl in Hv. exists s, t, tl. auto.
Qed.

Lemma pool_row_fields p e :
  pool_row p = Ok e ->
  get e "chain" = get p "chain" /\ get e "project" = get p "project" /\
  get e "tvl_usd" = get p "tvlUsd" /\ get e "stablecoin" = get p "stablecoin".
Proof.
  unfold pool_row. intros H. inv_object H.
  repeat split; simpl; unfold field; simpl; symmetry; assumption.
Qed.

Lemma In_top_n key sort row limit candidates payload :
  top_n key sort row limit candidates payload ->
  exists selected rows,
    get payload key = Ok (VArr rows) /\
    Forall2 (fun p e => row p = Ok e) selected rows /\
    incl selected candidates.
Proof.
  intros (all & selected & rows & Hg & Hp & _ & -> & _ & HF & _).
  exists (list_slice (Num.of_Z 0) (Some limit) all), rows. repeat split; auto.
  intros x Hx. apply incl_list_slice in Hx. eapply Permutation_in; [symmetry|]; eauto.
Qed.

(** X9: every pool [get_defi_yields] returns passes every filter that was
    given: its [chain] is the given chain up to case, its [project]
    contains the given text up to case, its [tvl_usd] is at least [min_tvl]
    (a [min_tvl] of zero is no filter), and with [stablecoin_only] its
    [stablecoin] is [true] itself. *)
Theorem yields_rows_pass_the_filters (input : DefiYieldsInput) (net : network)
    (tr : ToolResult) (log : list string) :
  run (invoke (GetDefiYields input)) net = (Ok tr, log) ->
  exists rows,
    get (result tr) "pools" = Ok (VArr rows) /\
    Forall (fun e =>
      (forall chain, given (dy_chain input) = Some chain ->
         exists c t, get e "chain" = Ok (VStr c) /\ lower c = Ok t /\ lower chain = Ok t) /\
      (forall project, given (dy_project input) = Some project ->
         exists c t projLower,
           get e "project" = Ok (VStr c) /\ lower c = Ok t /\
           lower project = Ok projLower /\ Str.includes projLower t = true) /\
      (forall min_tvl, given_num (dy_min_tvl input) = Some min_tvl ->
         exists t, get e "tvl_usd" = Ok t /\ js_ge t (VNum min_tvl) = Ok true) /\
      (dy_stablecoin_only input = true -> get e "stablecoin" = Ok (VBool true))) rows.
Proof.
  unfold run. simpl. unfold getDefiYields. intros H.
  apply single_fetch_tool in H as (resp & _ & H & _).
  destruct (yields_pools _ _ H) as (v & upstream & Hv & Hup).
  apply (@yields_filtered input _ _ _ _ Hv Hup), In_top_n in H as (selected & rows & Hg & HF & Hincl).
  exists rows. split; [exact Hg|].
  clear Hg. induction HF as [|p e selected rows Hpe HF IH]; constructor.
  - assert (Hm : pool_matches input p = true).
    { assert (Hin : In p (List.filter (pool_matches input) upstream))
        by (apply Hincl; now left).
      now apply filter_In in Hin. }
    apply pool_row_fields in Hpe as (Ec & Ep & Et & Es).
    unfold pool_matches in Hm.
    apply andb_true_iff in Hm as [Hm H4]. apply andb_true_iff in Hm as [Hm H3].
    apply andb_true_iff in Hm as [H1 H2].
    rewrite Ec, Ep, Et, Es. repeat split.
    + intros chain Hc. rewrite Hc in H1. now apply pool_on_chain_spec.
    + intros project Hp. rewrite Hp in H2. now apply mentions_spec.
    + intros m Hmin. rewrite Hmin in H3. now apply tvl_at_least_spec.
    + intros Hs. rewrite Hs in H4. now apply is_stablecoin_spec.
  - apply IH. intros x Hx. apply Hincl. now right.
Qed.

Lemma yields_rows_pass_the_filters_witness :
  exists tr,
    fst (run (invoke (GetDefiYields stable_aave_pools)) (ok_json five_pools)) = Ok tr /\
    get (result tr) "count" = Ok (num 2) /\
    exists rows,
      get (result tr) "pools" = Ok (VArr rows) /\
      Forall (fun e => get e "stablecoin" = Ok (VBool true)) rows.
Proof.
  eexists. split; [reflexivity|]. split; [reflexivity|].
  destruct (@yields_rows_pass_the_filters stable_aave_pools (ok_json five_pools) _ _ eq_refl)
    as (rows & Hrows & Hall).
  exists rows. split; [exact Hrows|].
  eapply Forall_impl; [|exact Hall]. intros e (_ & _ & _ & Hs). now apply Hs.
Defined.


(** ** The sample of a price history *)

Lemma sample_step_covers n : (Z.of_nat n <= 20 * sample_step n)%Z.
Proof.
  unfold sample_step.
  pose proof (Qle_ceiling (inject_Z (Z.of_nat n) / inject_Z 20)) as H.
  set (s := Qceiling _) in *. clearbody s.
  unfold Qle, Qdiv, Qmult, Qinv, inject_Z in H. simpl in H. lia.
Qed.

Lemma is_zero_of_Z z : Num.Qis_zero (inject_Z z) = (z =? 0)%Z.
Proof.
  unfold Num.Qis_zero, Qeq_bool, inject_Z. simpl. now rewrite Z.mul_1_r.
Qed.

Lemma ceil_of_twentieth n :
  Num.ceil (Num.div (Num.of_nat n) (Num.of_Z 20)) = Num.of_Z (sample_step n).
Proof. reflexivity. Qed.

Lemma rem_of_Z x y :
  (0 <= x)%Z -> (y <> 0)%Z -> Num.rem (Num.of_Z x) (Num.of_Z y) = Some (Num.of_Z (Z.rem x y)).
Proof.
  intros Hx Hy. unfold Num.rem. rewrite !as_integer_of_Z.
  destruct (Z.ltb_spec x 0); [lia|]. destruct (Z.eqb_spec y 0); [lia|]. reflexivity.
Qed.

Lemma sampled_index l i :
  (i < List.length l)%nat ->
  sampled (VArr l) i
  = Ok (VBool (Z.rem (Z.of_nat i) (sample_step (List.length l)) =? 0)%Z).
Proof.
  intros Hi. pose proof (sample_step_covers (List.length l)) as Hs.
  unfold sampled.
  change (get (VArr l) "length" >>= fun n => js_div n (num 20))
    with (Ok (Num.div (Num.of_nat (List.length l)) (Num.of_Z 20))).
  cbn [bind]. rewrite ceil_of_twentieth. unfold Num.of_nat at 1.
  rewrite rem_of_Z by lia. cbn [modelled bind strict_eq_zero].
  unfold Num.of_Z. now rewrite is_zero_of_Z.
Qed.

(** The entries a filter on the index keeps out of [n] entries from index
    [i]: no more than there are multiples of the step from [i] on. *)
Lemma sampled_few (step : Z) (f : value -> nat -> res value) l :
  (0 < step)%Z ->
  forall i r q0 q1,
    (forall x j, (i <= j < i + List.length l)%nat ->
                 f x j = Ok (VBool (Z.rem (Z.of_nat j) step =? 0)%Z)) ->
    filteriM f i l = Ok r ->
    ((q0 - 1) * step < Z.of_nat i)%Z ->
    (Z.of_nat (i + List.length l) <= q1 * step)%Z ->
    (Z.of_nat (List.length r) <= q1 - q0)%Z.
Proof.
  intros Hstep. induction l as [|x l IH]; intros i r q0 q1 Hf H Hq0 Hq1.
  - simpl in *. injection H as <-. simpl. nia.
  - simpl in H. apply bind_Ok in H as (y & Hy & H). apply bind_Ok in H as (ys & Hys & H).
    injection H as <-. rewrite Hf in Hy by (simpl; lia). injection Hy as <-.
    simpl in Hq1.
    assert (Hf' : forall x j, (S i <= j < S i + List.length l)%nat ->
                              f x j = Ok (VBool (Z.rem (Z.of_nat j) step =? 0)%Z)).
    { intros x' j Hj. apply Hf. simpl. lia. }
    cbn [truthy]. destruct (Z.eqb_spec (Z.rem (Z.of_nat i) step) 0) as [Hr|Hr].
    + pose proof (Z.quot_rem' (Z.of_nat i) step) as Hqr. rewrite Hr in Hqr.
      set (k := (Z.of_nat i ÷ step)%Z) in *.
      assert (Hk : (q0 <= k)%Z) by nia.
      specialize (IH (S i) ys (k + 1)%Z q1 Hf' Hys).
      cbn [List.length]. rewrite Nat2Z.inj_succ.
      assert ((k + 1 - 1) * step < Z.of_nat (S i))%Z by nia.
      assert (Z.of_nat (S i + List.length l) <= q1 * step)%Z by lia.
      specialize (IH H H0). lia.
    + apply (IH (S i) ys q0 q1 Hf' Hys); lia.
Qed.

Lemma filteriM_sources f i l r :
  filteriM f i l = Ok r -> incl r l.
Proof.
  revert i r. induction l as [|x l IH]; simpl; intros i r H.
  - injection H as <-. apply incl_refl.
  - apply bind_Ok in H as (y & _ & H). apply bind_Ok in H as (ys & Hys & H).
    injection H as <-. specialize (IH _ _ Hys).
    destruct (truthy y); [apply incl_cons; [now left|]|]; now apply incl_tl.
Qed.

(** X10: [get_crypto_price_history] counts every price point of the
    response in [data_points] and samples them for [sampled_prices]: the
    sample holds at most twenty points, each the row of a price point of the
    response, and it starts with the first one. *)
Theorem price_history_sample_is_small (input : PriceHistoryInput) (net : network)
    (tr : ToolResult) (log : list string) :
  run (invoke (GetCryptoPriceHistory input)) net = (Ok tr, log) ->
  exists u status text body v prices sample,
    log = [u] /\ net O u = Response status text (Some body) /\
    get body "prices" = Ok v /\ or_else v (VArr []) = VArr prices /\
    get (result tr) "data_points" = Ok (VNum (Num.of_nat (List.length prices))) /\
    get (result tr) "sampled_prices" = Ok (VArr sample) /\
    (List.length sample <= 20)%nat /\
    Forall (fun e => exists p, In p prices /\ price_point p = Ok e) sample /\
    (forall p rest, prices = p :: rest ->
                    exists e more, sample = e :: more /\ price_point p = Ok e).
Proof.
  unfold run. simpl. unfold getCryptoPriceHistory. intros H.
  apply single_fetch_tool in H as (resp & Hf & H & _).
  unfold getTokenMarketChart in Hf. apply io_bind_Ok in Hf as (u & log1 & Hu & Hf).
  apply lift_Ok in Hu as [_ ->].
  apply fetchJson_Ok in Hf as (_ & -> & status & text & Hnet & _). simpl in Hnet.
  unfold getCryptoPriceHistory_body in H.
  apply bind_Ok in H as (prices & Hp & H).
  inv_object H.
  apply and_then_Ok in Hp as (up & Hup & Hp). apply or_Ok in Hp. symmetry in Hp.
  match goal with
  | Hs : (filteri_ _ prices >>= map_ price_point) = Ok _ |- _ => rename Hs into Hsample
  end.
  match goal with
  | Hl : get prices "length" = Ok _ |- _ => rename Hl into Hlen
  end.
  apply and_then_Ok in Hsample as (kept & Hk & Hs).
  destruct prices as [| | | | |l|]; try discriminate.
  cbn [filteri_] in Hk. apply bind_Ok in Hk as (ks & Hk & E). injection E as <-.
  apply map_Ok in Hs as (l0 & sample & E & -> & Hrows). injection E as <-.
  exists u, status, text, (data resp), up, l, sample.
  repeat split; auto.
  - rewrite <- (Forall2_length_eq Hrows).
    destruct l as [|p l'] eqn:El; [simpl in Hk; injection Hk as <-; simpl; lia|].
    rewrite <- El in *.
    pose proof (sample_step_covers (List.length l)) as Hc.
    assert (Hpos : (0 < sample_step (List.length l))%Z).
    { rewrite El in *. simpl List.length in *. lia. }
    pose proof (@sampled_few (sample_step (List.length l))
                  (fun _ i => sampled (VArr l) i) l Hpos 0%nat ks 0%Z 20%Z) as Hfew.
    assert (Z.of_nat (List.length ks) <= 20 - 0)%Z; [|lia].
    apply Hfew; auto; try lia.
    intros x j Hj. apply sampled_index. lia.
  - apply filteriM_sources in Hk. clear -Hk Hrows.
    induction Hrows as [|p e ks sample Hpe HF IH]; constructor.
    + exists p. split; auto. apply Hk. now left.
    + apply IH. intros x Hx. apply Hk. now right.
  - intros p rest ->. cbn [filteriM] in Hk.
    rewrite sampled_index in Hk by (simpl; lia).
    change (Z.rem (Z.of_nat 0) _) with 0%Z in Hk. cbn [bind truthy Z.eqb] in Hk.
    apply bind_Ok in Hk as (ys & _ & Hk). injection Hk as <-.
    inversion Hrows; subst. eauto.
Qed.

Lemma price_history_sample_is_small_witness :
  exists tr,
    fst (run (invoke (GetCryptoPriceHistory bitcoin_day)) (ok_json a_day_of_prices)) = Ok tr /\
    get (result tr) "data_points" = Ok (num 25) /\
    exists sample,
      get (result tr) "sampled_prices" = Ok (VArr sample) /\ (List.length sample <= 20)%nat.
Proof.
  eexists. split; [reflexivity|]. split; [reflexivity|].
  destruct (@price_history_sample_is_small bitcoin_day (ok_json a_day_of_prices) _ _ eq_refl)
    as (u & status & text & body & v & prices & sample & _ & _ & _ & _ & _ & Hs & Hlen & _).
  exists sample. split; [exact Hs|exact Hlen].
Defined.


(** ** The protocol detail *)

Lemma detail_ratio d r :
  getDefiProtocolDetail_body d = Ok r ->
  exists mcap ratio,
    get d "mcap" = Ok mcap /\ get r "mcap_to_tvl" = Ok ratio /\
    (mcap <- get d "mcap" ;;
     cur <- (if truthy mcap then latest_liquidity d else Ok mcap) ;;
     if truthy cur then
       mcap <- get d "mcap" ;;
       tvl <- get d "tvl" ;;
       liq <- (get tvl "length" >>= fun n => js_sub n (num 1)) >>= idx tvl
              >>= prop "totalLiquidityUSD" ;;
       js_div mcap liq >>= fun q => toFixed_ 2 (VNum q)
     else Ok VNull) = Ok ratio.
Proof.
  unfold getDefiProtocolDetail_body. intros H.
  apply bind_Ok in H as (c & _ & H). apply bind_Ok in H as (chainTvls & _ & H).
  apply bind_Ok in H as (hist & _ & H). inv_object H.
  match goal with
  | Hr : (mcap <- get d "mcap" ;; _) = Ok ?ratio |- _ =>
      pose proof Hr as Hm; apply bind_Ok in Hm as (mcap & Hm & _);
      exists mcap, ratio; repeat split; auto
  end.
Qed.

Lemma latest_liquidity_direct d cur :
  latest_liquidity d = Ok cur -> truthy cur = true ->
  (tvl <- get d "tvl" ;;
   (get tvl "length" >>= fun n => js_sub n (num 1)) >>= idx tvl
   >>= prop "totalLiquidityUSD") = Ok cur.
Proof.
  unfold latest_liquidity. intros H Ht.
  apply and_then_Ok in H as (tvl & Htvl & H). rewrite Htvl. cbn [bind].
  apply opt_Ok in H as [[_ ->]|[_ H]]; [discriminate|].
  apply bind_Ok in H as (i & Hi & H). rewrite Hi. cbn [and_then bind].
  apply and_then_Ok in H as (x & Hx & H). rewrite Hx. cbn [bind].
  unfold opt_prop, opt_get in H. unfold prop.
  destruct (nullish x); [|exact H]. injection H as <-. discriminate.
Qed.

Lemma Qabs_zero_iff q : Num.Qis_zero q = false -> (0 < Qabs q)%Q.
Proof.
  unfold Num.Qis_zero. intros H.
  destruct (Qlt_le_dec 0 (Qabs q)) as [Hlt|Hle]; auto.
  assert (Hz : (Qabs q == 0)%Q) by (apply Qle_antisym; auto using Qabs_nonneg).
  assert (Hq : (q == 0)%Q).
  { apply Qle_antisym.
    - eapply Qle_trans; [apply Qle_Qabs|]. now rewrite Hz.
    - rewrite <- (Qopp_involutive q). setoid_replace 0%Q with (- 0)%Q by reflexivity.
      apply Qopp_le_compat. eapply Qle_trans; [apply Qle_Qabs|]. rewrite Qabs_opp.
      now rewrite Hz. }
  apply Qeq_bool_iff in Hq. congruence.
Qed.

(** A quotient of at most [10^20] in magnitude is written in fixed
    notation. *)
Lemma ratio_below_large m l :
  Num.Qis_zero l = false ->
  (Qabs m <= inject_Z (10 ^ 20) * Qabs l)%Q ->
  Qle_bool (inject_Z (10 ^ 21)) (Qabs (m / l)) = false.
Proof.
  intros Hl Hb. apply below_large. apply Qabs_zero_iff in Hl.
  unfold Qdiv. rewrite Qabs_Qmult, Qabs_Qinv.
  apply Qle_lt_trans with (inject_Z (10 ^ 20)).
  - apply Qle_shift_div_r; auto.
  - reflexivity.
Qed.

(** X11: the [mcap_to_tvl] of [get_defi_protocol_detail] is [null] when the
    market cap or the latest liquidity is missing or zero, so the tool
    never divides by zero.  When both are finite Numbers and the market cap
    is at most [10^20] times the liquidity in magnitude, the ratio is
    [null] or a number written with two decimal places. *)
Theorem mcap_to_tvl_is_null_or_two_decimals (input : ProtocolInput) (net : network)
    (tr : ToolResult) (log : list string) :
  run (invoke (GetDefiProtocolDetail input)) net = (Ok tr, log) ->
  exists status text d mcap ratio,
    net O (protocol_url (pi_protocol input)) = Response status text (Some d) /\
    get d "mcap" = Ok mcap /\
    get (result tr) "mcap_to_tvl" = Ok ratio /\
    (truthy mcap = false -> ratio = VNull) /\
    (forall liq, latest_liquidity d = Ok liq -> truthy liq = false -> ratio = VNull) /\
    (forall m l,
        mcap = VNum (Num.Fin m) ->
        latest_liquidity d = Ok (VNum (Num.Fin l)) ->
        (Qabs m <= inject_Z (10 ^ 20) * Qabs l)%Q ->
        ratio = VNull \/ exists s, ratio = VStr s /\ two_decimals s = true).
Proof.
  unfold run. simpl. unfold getDefiProtocolDetail. intros H.
  apply single_fetch_tool in H as (resp & Hf & H & _).
  apply fetchJson_Ok in Hf as (_ & _ & status & text & Hnet & _). simpl in Hnet.
  apply detail_ratio in H as (mcap & ratio & Hm & Hr & H).
  exists status, text, (data resp), mcap, ratio.
  split; [exact Hnet|]. split; [exact Hm|]. split; [exact Hr|].
  rewrite Hm in H. cbn [bind] in H.
  split; [|split].
  - intros Hf. rewrite Hf in H. cbn [bind] in H. rewrite Hf in H. now injection H as <-.
  - intros liq Hl Hf. destruct (truthy mcap) eqn:Et.
    + rewrite Hl in H. cbn [bind] in H. rewrite Hf in H. now injection H as <-.
    + cbn [bind] in H. rewrite Et in H. now injection H as <-.
  - intros m l -> Hl Hb. destruct (truthy (VNum (Num.Fin m))) eqn:Et.
    + rewrite Hl in H. cbn [bind] in H.
      destruct (truthy (VNum (Num.Fin l))) eqn:Ec; [|left; now injection H as <-].
      right.
      pose proof (latest_liquidity_direct _ Hl Ec) as Hd.
      apply bind_Ok in Hd as (tvl & Htvl & Hd). rewrite Htvl in H. cbn [bind] in H.
      rewrite Hd in H. cbn [bind] in H.
      cbn [truthy Num.truthy] in Ec. apply negb_true_iff in Ec.
      unfold js_div, arith, and_then in H. cbn [to_number bind Num.div] in H.
      rewrite Ec in H. cbn [toFixed_ toFixed] in H.
      apply bind_Ok in H as (s & Hs & H). injection H as <-.
      exists s. split; [reflexivity|].
      destruct (toFixed_finite 2 (m / l)) eqn:E; try discriminate. injection Hs as ->.
      eapply toFixed_two_decimals; [|exact E]. now apply ratio_below_large.
    + cbn [bind] in H. rewrite Et in H. left. now injection H as <-.
Qed.

Lemma mcap_to_tvl_is_null_or_two_decimals_witness :
  exists tr,
    fst (run (invoke (GetDefiProtocolDetail {| pi_protocol := "aave" |}))
           (ok_json aave_detail)) = Ok tr /\
    get (result tr) "mcap_to_tvl" = Ok (VStr "2.00") /\
    exists status text d mcap ratio,
      ok_json aave_detail O (protocol_url "aave") = Response status text (Some d) /\
      get d "mcap" = Ok mcap /\
      get (result tr) "mcap_to_tvl" = Ok ratio /\
      (truthy mcap = false -> ratio = VNull) /\
      (forall liq, latest_liquidity d = Ok liq -> truthy liq = false -> ratio = VNull) /\
      (forall m l,
          mcap = VNum (Num.Fin m) ->
          latest_liquidity d = Ok (VNum (Num.Fin l)) ->
          (Qabs m <= inject_Z (10 ^ 20) * Qabs l)%Q ->
          ratio = VNull \/ exists s, ratio = VStr s /\ two_decimals s = true).
Proof.
  eexists. split; [reflexivity|]. split; [reflexivity|].
  exact (@mcap_to_tvl_is_null_or_two_decimals {| pi_protocol := "aave" |}
           (ok_json aave_detail) _ _ eq_refl).
Defined.


(** ** The latest point of a history *)

Lemma as_integer_Qeq q z : (q == inject_Z z)%Q -> Num.as_integer (Num.Fin q) = Some z.
Proof.
  intros H. unfold Num.as_integer.
  assert (Hf : Qfloor q = z) by (rewrite H; apply Qfloor_Z).
  rewrite Hf. now rewrite (proj2 (Qeq_bool_iff _ _) H).
Qed.

Lemma as_integer_sub a b : Num.as_integer (Num.sub (Num.of_Z a) (Num.of_Z b)) = Some (a - b)%Z.
Proof.
  unfold Num.sub, Num.of_Z. cbn [Num.neg Num.add]. apply as_integer_Qeq.
  rewrite <- inject_Z_opp, <- inject_Z_plus. reflexivity.
Qed.

(** [a[a.length - 1]] on a list. *)
Lemma last_index (a : list value) :
  ((get (VArr a) "length" >>= fun n => js_sub n (num 1)) >>= idx (VArr a)) = Ok (latest a).
Proof.
  change (get (VArr a) "length" >>= fun n => js_sub n (num 1))
    with (Ok (Num.sub (Num.of_Z (Z.of_nat (List.length a))) (Num.of_Z 1))).
  cbn [and_then bind idx]. rewrite as_integer_sub. unfold latest.
  destruct (Z.ltb_spec (Z.of_nat (List.length a) - 1) 0) as [H|H].
  - destruct a; [reflexivity|cbn [List.length] in H; lia].
  - do 2 f_equal. lia.
Qed.

Lemma field_set_prop_new k v ps :
  ~ In k (List.map fst ps) -> set_prop k v ps = (ps ++ [(k, v)])%list.
Proof.
  induction ps as [|[k' v'] ps IH]; simpl; intros H; auto.
  destruct (String.eqb_spec k k') as [->|Hk]; [tauto|].
  rewrite IH; tauto.
Qed.

Lemma chain_tvls_loop_spec es :
  NoDup (List.map fst es) ->
  forall acc out,
    (forall k, In k (List.map fst es) -> ~ In k (List.map fst acc)) ->
    chain_tvls_loop es acc = Ok out ->
    exists added,
      out = (acc ++ added)%list /\
      Forall2 chain_total (List.filter listed_chain es) added.
Proof.
  induction es as [|[chain tvlData] es IH]; intros Hnd acc out Hfresh H.
  - simpl in H. injection H as <-. exists []. rewrite app_nil_r. split; auto.
  - inversion Hnd as [|? ? Hnotin Hnd']; subst. cbn [chain_tvls_loop] in H.
    unfold listed_chain. cbn [List.filter fst snd]. destruct (isArray tvlData) eqn:Ea.
    + destruct tvlData as [| | | | |history|]; try discriminate.
      rewrite last_index in H. cbn [bind] in H.
      apply bind_Ok in H as (liq & Hliq & H).
      unfold assign in H. cbn [andb]. destruct (chain =? "__proto__").
      * cbn [negb]. apply IH in H as (added & -> & HF); auto.
        -- exists added. auto.
        -- intros k Hk. apply Hfresh. now right.
      * cbn [negb]. rewrite field_set_prop_new in H by (apply Hfresh; now left).
        apply IH in H as (added & -> & HF); auto.
        -- exists ((chain, or_else liq (num 0)) :: added). rewrite <- app_assoc. split; auto.
           constructor; auto. split; [reflexivity|]. exists history, liq. auto.
        -- intros k Hk. rewrite map_app, in_app_iff. simpl. intros [Hin|[<-|[]]].
           ++ apply (Hfresh k); [now right|assumption].
           ++ contradiction.
    + cbn [andb]. apply IH in H as (added & -> & HF); auto.
      * exists added. auto.
      * intros k Hk. apply Hfresh. now right.
Qed.

(** X12: the [tvl_by_chain] of [get_defi_protocol_detail] has one entry for
    each chain of [chainTvls] whose history is a list, in the order of
    [chainTvls]: the [totalLiquidityUSD] of the latest point of that
    history, or 0 when the history is empty or the point carries none.
    Chains whose entry is not a list are left out, and so is a chain called
    [__proto__].  [chainTvls] lists its chains as an object does, those
    called by an array index first. *)
Theorem tvl_by_chain_lists_the_latest_totals (input : ProtocolInput) (net : network)
    (tr : ToolResult) (log : list string) (status : Z) (text : string) (d : value)
    (chains : list (string * value)) :
  run (invoke (GetDefiProtocolDetail input)) net = (Ok tr, log) ->
  net O (protocol_url (pi_protocol input)) = Response status text (Some d) ->
  get d "chainTvls" = Ok (VObj chains) ->
  NoDup (List.map fst chains) ->
  enumerated (List.map fst chains) = true ->
  exists totals,
    get (result tr) "tvl_by_chain" = Ok (VObj totals) /\
    Forall2 chain_total (List.filter listed_chain chains) totals.
Proof.
  unfold run. cbn [invoke]. unfold getDefiProtocolDetail. intros H Hup Hc Hnd _.
  apply single_fetch_tool in H as (resp & Hf & H & _).
  unfold getProtocolTVL in Hf. fold (protocol_url (pi_protocol input)) in Hf.
  apply fetchJson_Ok in Hf as (_ & _ & status' & text' & Hnet & _).
  cbn [List.length] in Hnet. rewrite Hup in Hnet. injection Hnet as _ _ Hd.
  rewrite <- Hd in H. unfold getDefiProtocolDetail_body in H.
  rewrite Hc in H. cbn [bind truthy entries] in H.
  apply bind_Ok in H as (totals & Ht & H). apply bind_Ok in H as (hist & _ & H).
  inv_object H.
  apply chain_tvls_loop_spec in Ht as (added & -> & HF); auto.
  exists added. split; [reflexivity|exact HF].
Qed.

Lemma tvl_by_chain_lists_the_latest_totals_witness :
  exists tr,
    fst (run (invoke (GetDefiProtocolDetail {| pi_protocol := "aave" |}))
           (ok_json detail_with_proto)) = Ok tr /\
    get (result tr) "tvl_by_chain" = Ok (VObj [("Ethereum", num 12); ("Solana", num 0)]) /\
    exists totals,
      get (result tr) "tvl_by_chain" = Ok (VObj totals) /\
      Forall2 chain_total
        [("Ethereum", VArr [tvl_point 8; tvl_point 12]); ("Solana", VArr [])] totals.
Proof.
  eexists. split; [reflexivity|]. split; [reflexivity|].
  refine (@tvl_by_chain_lists_the_latest_totals {| pi_protocol := "aave" |}
            (ok_json detail_with_proto) _ _ 200%Z "OK" detail_with_proto
            [("Ethereum", VArr [tvl_point 8; tvl_point 12]);
             ("__proto__", VArr [tvl_point 5]);
             ("borrowed", VObj [("tvl", VArr [])]); ("Solana", VArr [])]
            eq_refl eq_refl eq_refl _ eq_refl).
  repeat constructor; simpl; intuition discriminate.
Defined.


(** ** The windows of the two histories *)

Lemma Forall2_nth {A B : Type} (R : A -> B -> Prop) l l' n d d' :
  Forall2 R l l' -> (n < List.length l)%nat -> R (nth n l d) (nth n l' d').
Proof.
  intros HF. revert n. induction HF as [|x y l l' Hxy HF IH]; intros n Hn; simpl in *.
  - lia.
  - destruct n; auto. apply IH. lia.
Qed.

Lemma history_point_tvl k p e :
  history_point k p = Ok e -> opt_get e "tvl" = opt_get p k.
Proof.
  unfold history_point. intros H. inv_object H.
  match goal with Hk : get p k = Ok _ |- _ => rename Hk into Hpk end.
  unfold opt_get. cbn [nullish].
  destruct p; try discriminate; cbn [nullish]; rewrite Hpk; reflexivity.
Qed.

(** The value under [tvl] of a row of the window is the one its point
    carries, at the same place; past the window both are [undefined]. *)
Lemma window_tvl k window rows n :
  Forall2 (fun p e => history_point k p = Ok e) window rows ->
  opt_get (nth n rows VUndef) "tvl" = opt_get (nth n window VUndef) k.
Proof.
  intros HF. destruct (Nat.lt_ge_cases n (List.length window)) as [Hn|Hn].
  - apply history_point_tvl.
    apply (Forall2_nth (R := fun p e => history_point k p = Ok e)); assumption.
  - rewrite !nth_overflow; auto. now rewrite <- (Forall2_length_eq HF).
Qed.

Lemma latest_tvl k window rows :
  Forall2 (fun p e => history_point k p = Ok e) window rows ->
  opt_get (latest rows) "tvl" = opt_get (latest window) k.
Proof.
  intros HF. unfold latest. rewrite <- (Forall2_length_eq HF). now apply window_tvl.
Qed.

Lemma latest_skipn (n : nat) (l : list value) :
  (0 < n)%nat -> latest (skipn (List.length l - n) l) = latest l.
Proof.
  intros Hn. unfold latest. rewrite length_skipn, nth_skipn.
  destruct l as [|x l]; [reflexivity|]. f_equal. cbn [List.length]. lia.
Qed.

Lemma trend_window input points r :
  getChainTVLTrend_body input (VArr points) = Ok r ->
  exists rows ago cur,
    get r "history" = Ok (VArr rows) /\
    Forall2 (fun p e => history_point "tvl" p = Ok e)
      (skipn (List.length points - 90) points) rows /\
    opt_get (nth 0 (skipn (List.length points - 90) points) VUndef) "tvl" = Ok ago /\
    opt_get (latest points) "tvl" = Ok cur /\
    get r "tvl_90d_ago" = Ok (or_else ago (num 0)) /\
    get r "current_tvl" = Ok (or_else cur (num 0)).
Proof.
  unfold getChainTVLTrend_body. cbn [opt nullish]. intros H.
  apply bind_Ok in H as (history & Hh & H).
  apply and_then_Ok in Hh as (h & Hh & Hor). apply or_Ok in Hor.
  apply and_then_Ok in Hh as (s & Hs & Hh).
  cbn [slice_] in Hs. injection Hs as <-.
  rewrite list_slice_last in Hh by lia. change (Z.to_nat (- -90)) with 90%nat in Hh.
  apply map_Ok in Hh as (w & rows & E & -> & Hrows). injection E as <-.
  cbn [or_else truthy] in Hor. subst history.
  apply bind_Ok in H as (first & Hfirst & H).
  apply bind_Ok in H as (last & Hlast & H).
  apply bind_Ok in H as (change & _ & H). inv_object H.
  apply and_then_Ok in Hfirst as (ago & Hago & Hfirst). apply or_Ok in Hfirst.
  apply and_then_Ok in Hlast as (cur & Hcur & Hlast). apply or_Ok in Hlast.
  rewrite last_index in Hcur. cbn [and_then bind] in Hcur.
  unfold opt_prop in Hago, Hcur.
  change (at_ 0 (VArr rows)) with (Ok (nth 0 rows VUndef)) in Hago.
  cbn [and_then bind] in Hago.
  rewrite (@window_tvl "tvl" _ _ 0%nat Hrows) in Hago. rewrite (@latest_tvl "tvl" _ _ Hrows) in Hcur.
  rewrite latest_skipn in Hcur by lia.
  exists rows, ago, cur. subst. repeat split; auto.
Qed.

Lemma detail_window d points r :
  get d "tvl" = Ok (VArr points) ->
  getDefiProtocolDetail_body d = Ok r ->
  exists rows cur,
    get r "tvl_history_30d" = Ok (VArr rows) /\
    Forall2 (fun p e => history_point "totalLiquidityUSD" p = Ok e)
      (skipn (List.length points - 30) points) rows /\
    opt_get (latest points) "totalLiquidityUSD" = Ok cur /\
    get r "current_tvl" = Ok cur.
Proof.
  unfold getDefiProtocolDetail_body. intros Ht H.
  apply bind_Ok in H as (c & _ & H). apply bind_Ok in H as (chainTvls & _ & H).
  apply bind_Ok in H as (hist & Hh & H). inv_object H.
  rewrite Ht in Hh. cbn [and_then bind opt nullish] in Hh.
  apply and_then_Ok in Hh as (h & Hh & Hor). apply or_Ok in Hor.
  apply and_then_Ok in Hh as (s & Hs & Hh).
  cbn [slice_] in Hs. injection Hs as <-.
  rewrite list_slice_last in Hh by lia. change (Z.to_nat (- -30)) with 30%nat in Hh.
  apply map_Ok in Hh as (w & rows & E & -> & Hrows). injection E as <-.
  cbn [or_else truthy] in Hor. subst hist.
  match goal with Hc : latest_liquidity d = Ok ?cur |- _ =>
    unfold latest_liquidity in Hc; rewrite Ht in Hc; cbn [and_then bind opt nullish] in Hc;
    apply bind_Ok in Hc as (i & Hi & Hc);
    pose proof (last_index points) as Hl;
    apply and_then_Ok in Hl as (i' & Hi' & Hl);
    rewrite Hi in Hi'; injection Hi' as <-;
    rewrite Hl in Hc; cbn [and_then bind] in Hc;
    exists rows, cur
  end.
  repeat split; auto.
Qed.

(** X13: the two histories are windows on the latest points of the
    response.  [get_chain_tvl_trend] returns the rows of the last ninety
    points, with the [tvl] of the latest point (or 0) as [current_tvl] and
    that of the first point of the window (or 0) as [tvl_90d_ago];
    [get_defi_protocol_detail] returns the rows of the last thirty points of
    [tvl], with the [totalLiquidityUSD] of the latest point as
    [current_tvl]. *)
Theorem histories_are_the_latest_points (net : network) (tr : ToolResult)
    (log : list string) (points : list value) :
  (forall input,
      run (invoke (GetChainTVLTrend input)) net = (Ok tr, log) ->
      (exists status text,
          net O (DEFILLAMA_BASE ++ "/v2/historicalChainTvl/"
                 ++ encodeURIComponent (ci_chain input))
          = Response status text (Some (VArr points))) ->
      exists rows ago cur,
        get (result tr) "history" = Ok (VArr rows) /\
        Forall2 (fun p e => history_point "tvl" p = Ok e)
          (skipn (List.length points - 90) points) rows /\
        opt_get (nth 0 (skipn (List.length points - 90) points) VUndef) "tvl" = Ok ago /\
        opt_get (latest points) "tvl" = Ok cur /\
        get (result tr) "tvl_90d_ago" = Ok (or_else ago (num 0)) /\
        get (result tr) "current_tvl" = Ok (or_else cur (num 0))) /\
  (forall input,
      run (invoke (GetDefiProtocolDetail input)) net = (Ok tr, log) ->
      (exists status text d,
          net O (protocol_url (pi_protocol input)) = Response status text (Some d) /\
          get d "tvl" = Ok (VArr points)) ->
      exists rows cur,
        get (result tr) "tvl_history_30d" = Ok (VArr rows) /\
        Forall2 (fun p e => history_point "totalLiquidityUSD" p = Ok e)
          (skipn (List.length points - 30) points) rows /\
        opt_get (latest points) "totalLiquidityUSD" = Ok cur /\
        get (result tr) "current_tvl" = Ok cur).
Proof.
  unfold run. cbn [invoke]. split; intros input H.
  - intros (status & text & Hup). unfold getChainTVLTrend in H.
    apply single_fetch_tool in H as (resp & Hf & H & _).
    unfold getChainTVLHistory in Hf.
    apply fetchJson_Ok in Hf as (_ & _ & status' & text' & Hnet & _).
    cbn [List.length] in Hnet. rewrite Hup in Hnet. injection Hnet as _ _ Hd.
    rewrite <- Hd in H. now apply trend_window in H.
  - intros (status & text & d & Hup & Ht). unfold getDefiProtocolDetail in H.
    apply single_fetch_tool in H as (resp & Hf & H & _).
    unfold getProtocolTVL in Hf. fold (protocol_url (pi_protocol input)) in Hf.
    apply fetchJson_Ok in Hf as (_ & _ & status' & text' & Hnet & _).
    cbn [List.length] in Hnet. rewrite Hup in Hnet. injection Hnet as _ _ Hd.
    rewrite <- Hd in H. eapply detail_window; eauto.
Qed.

Lemma histories_are_the_latest_points_witness :
  exists rows ago cur,
    get (result trend_from_negative) "history" = Ok (VArr rows) /\
    Forall2 (fun p e => history_point "tvl" p = Ok e)
      [VObj [("date", num 1700000000); ("tvl", num (-5))];
       VObj [("date", num 1700086400); ("tvl", num 3)]] rows /\
    Ok (num (-5)) = Ok ago /\
    Ok (num 3) = Ok cur /\
    get (result trend_from_negative) "tvl_90d_ago" = Ok (or_else ago (num 0)) /\
    get (result trend_from_negative) "current_tvl" = Ok (or_else cur (num 0)).
Proof.
  exact (proj1 (@histories_are_the_latest_points (ok_json from_negative) trend_from_negative
                  ["https://api.llama.fi/v2/historicalChainTvl/Ethereum"]
                  [VObj [("date", num 1700000000); ("tvl", num (-5))];
                   VObj [("date", num 1700086400); ("tvl", num 3)]])
           {| ci_chain := "Ethereum" |} eq_refl
           (ex_intro _ 200%Z (ex_intro _ "OK" eq_refl))).
Defined.


(** ** A point without a date *)

Lemma fetchJson_success u net log status text d :
  net (List.length log) u = Response status text (Some d) ->
  response_ok status = true ->
  fetchJson u net log = (Ok {| data := d; url := u |}, (log ++ [u])%list).
Proof. intros Hnet Hok. unfold fetchJson. now rewrite Hnet, Hok. Qed.

Lemma history_point_dated k p t :
  date_of p = Ok t ->
  match t with
  | Some _ => exists e, history_point k p = Ok e
  | None => history_point k p = Throw RangeError
  end.
Proof.
  unfold date_of, history_point, object. intros H.
  apply bind_Ok in H as (d & Hd & H). apply bind_Ok in H as (n & Hn & H).
  injection H as <-. cbn [props_of]. rewrite Hd. cbn [and_then bind].
  unfold iso_of_seconds. rewrite Hn. cbn [and_then bind].
  destruct (Date.of_num n) as [tv|]; cbn [Date.toISOString bind split_T_0];
    [|reflexivity].
  assert (Hk : exists v, get p k = Ok v).
  { destruct p; try discriminate; simpl; eauto. }
  destruct Hk as (v & Hk). rewrite Hk. cbn [and_then bind split_T_0]. eauto.
Qed.

Lemma mapM_all_or_throw {A B : Type} (f : A -> res B) (e : exn) l :
  Forall (fun x => (exists y, f x = Ok y) \/ f x = Throw e) l ->
  (exists r, mapM f l = Ok r /\ Forall (fun x => exists y, f x = Ok y) l) \/
  (mapM f l = Throw e /\ Exists (fun x => f x = Throw e) l).
Proof.
  induction 1 as [|x l Hx HF IH]; simpl.
  - left. eauto.
  - destruct Hx as [(y & Hy)|Hx].
    + rewrite Hy. cbn [bind]. destruct IH as [(r & Hr & Hall)|(Hr & Hex)].
      * left. rewrite Hr. cbn [bind]. eauto.
      * right. rewrite Hr. cbn [bind]. auto.
    + right. rewrite Hx. cbn [bind]. auto.
Qed.

Lemma toFixed_total f n : exists s, toFixed f n = Some s.
Proof. destruct n; simpl; eauto. unfold toFixed_finite. eauto. Qed.

Lemma percent_change_numbers a b : exists s, percent_change (VNum a) (VNum b) = Ok (VStr s).
Proof.
  unfold percent_change, js_sub, js_div, js_mul, arith, num.
  cbn [to_number bind and_then toFixed_].
  destruct (toFixed_total 2 (Num.mul (Num.div (Num.sub a b) b) (Num.of_Z 100))) as (s & ->).
  cbn [modelled bind]. unfold concat, and_then. cbn [to_string bind]. eauto.
Qed.

Lemma change_or_na_numbers a b : exists c, change_or_na (VNum a) (VNum b) = Ok c.
Proof.
  unfold change_or_na, js_gt, relational, num. cbn [to_number bind].
  destruct (Num.gt b (Num.of_Z 0)); eauto.
  destruct (percent_change_numbers a b) as (s & ->). eauto.
Qed.

Lemma or_zero_is_number v :
  number_or_missing v = true -> exists n, or_else v (num 0) = VNum n.
Proof.
  destruct v; try discriminate; intros _; unfold or_else, num; simpl; eauto.
  destruct (Num.truthy n); eauto.
Qed.

(** The [tvl] of a row of the history is that of its point. *)
Lemma history_rows_plain window rows :
  Forall2 (fun p e => history_point "tvl" p = Ok e) window rows ->
  Forall (fun p => exists v, get p "tvl" = Ok v /\ number_or_missing v = true) window ->
  forall i, exists v, opt_get (nth i rows VUndef) "tvl" = Ok v /\ number_or_missing v = true.
Proof.
  induction 1 as [|p e window rows Hpe HF IH]; intros Hplain i.
  - exists VUndef. destruct i; auto.
  - inversion Hplain as [|? ? (v & Hv & Hn) Hrest]; subst.
    destruct i as [|i]; [|now apply IH].
    exists v. split; [|exact Hn]. cbn [nth].
    unfold history_point in Hpe. inv_object Hpe.
    match goal with Hk : get p "tvl" = Ok _ |- _ => rewrite Hv in Hk; injection Hk as <- end.
    reflexivity.
Qed.

Lemma trend_after_history input rows :
  (forall i, exists v, opt_get (nth i rows VUndef) "tvl" = Ok v /\
                       number_or_missing v = true) ->
  exists payload,
    (first <- at_ 0 (VArr rows) >>= opt_prop "tvl" >>= or_ (num 0) ;;
     last <- (get (VArr rows) "length" >>= fun n => js_sub n (num 1)) >>= idx (VArr rows)
             >>= opt_prop "tvl" >>= or_ (num 0) ;;
     change <- change_or_na last first ;;
     object [
       ("chain", Ok (VStr (ci_chain input)));
       ("current_tvl", Ok last);
       ("tvl_90d_ago", Ok first);
       ("change_90d", Ok change);
       ("history", Ok (VArr rows))
     ]) = Ok payload.
Proof.
  intros Hplain.
  change (at_ 0 (VArr rows)) with (Ok (nth 0 rows VUndef)).
  rewrite last_index. cbn [and_then bind]. unfold opt_prop, or_, latest.
  destruct (Hplain 0%nat) as (a & -> & Ha).
  destruct (Hplain (List.length rows - 1)%nat) as (b & -> & Hb). cbn [and_then bind].
  destruct (or_zero_is_number _ Ha) as (x & ->).
  destruct (or_zero_is_number _ Hb) as (y & ->).
  destruct (change_or_na_numbers y x) as (c & ->). cbn [bind].
  unfold object. cbn [props_of bind]. eauto.
Qed.

(** X14: [get_chain_tvl_trend] fails on a point without a date.  When every
    point of the window (the last ninety) has a date that converts to a
    Number and carries a Number, or nothing, as its [tvl], the call throws
    a RangeError exactly when one of those dates is invalid, as the date of
    a point without a [date] is; it throws nothing else, and it returns
    when every date is valid. *)
Theorem a_point_without_a_date_fails_the_trend (input : ChainInput) (net : network)
    (status : Z) (text : string) (points : list value) :
  net O (DEFILLAMA_BASE ++ "/v2/historicalChainTvl/" ++ encodeURIComponent (ci_chain input))
  = Response status text (Some (VArr points)) ->
  response_ok status = true ->
  Forall (fun p => exists t, date_of p = Ok t) (skipn (List.length points - 90) points) ->
  Forall (fun p => exists v, get p "tvl" = Ok v /\ number_or_missing v = true)
    (skipn (List.length points - 90) points) ->
  (fst (run (invoke (GetChainTVLTrend input)) net) = Throw RangeError <->
   Exists (fun p => date_of p = Ok None) (skipn (List.length points - 90) points)) /\
  (forall e, fst (run (invoke (GetChainTVLTrend input)) net) = Throw e -> e = RangeError) /\
  (Forall (fun p => exists tv, date_of p = Ok (Some tv))
     (skipn (List.length points - 90) points) ->
   exists tr, fst (run (invoke (GetChainTVLTrend input)) net) = Ok tr).
Proof.
  intros Hnet Hok Hdated Hplain. cbn [invoke]. unfold getChainTVLTrend, getChainTVLHistory.
  rewrite single_fetch_run. unfold after_fetch.
  rewrite (@fetchJson_success _ net [] _ _ _ Hnet Hok). cbn [data url fst].
  unfold getChainTVLTrend_body. cbn [opt nullish slice_ and_then bind].
  rewrite list_slice_last by lia. change (Z.to_nat (- -90)) with 90%nat.
  set (window := skipn (List.length points - 90) points) in *.
  cbn [map_].
  assert (HF : Forall (fun p => (exists e, history_point "tvl" p = Ok e) \/
                                history_point "tvl" p = Throw RangeError) window).
  { eapply Forall_impl; [|exact Hdated]. intros p (t & Ht).
    pose proof (history_point_dated "tvl" _ Ht) as Hp. destruct t; auto. }
  destruct (mapM_all_or_throw _ HF) as [(rows & Hr & Hall)|(Hr & Hex)]; rewrite Hr;
    cbn [bind or_ or_else truthy].
  - assert (Hrows : Forall2 (fun p e => history_point "tvl" p = Ok e) window rows)
      by now apply mapM_Ok.
    destruct (@trend_after_history input rows (history_rows_plain Hrows Hplain))
      as (payload & Hpay).
    change (Ok (VArr rows) >>= or_ (VArr [])) with (Ok (VArr rows)). cbn [bind].
    rewrite Hpay. cbn [bind fst].
    split; [|split].
    + split; [discriminate|].
      intros Hex. exfalso. apply Exists_exists in Hex as (p & Hin & Hp).
      rewrite Forall_forall in Hall. destruct (Hall p Hin) as (e & He).
      pose proof (history_point_dated "tvl" _ Hp) as Hthrow. cbv iota in Hthrow. congruence.
    + discriminate.
    + eauto.
  - assert (Hinvalid : Exists (fun p => date_of p = Ok None) window).
    { apply Exists_exists in Hex as (p & Hin & Hp). apply Exists_exists.
      exists p. split; auto. rewrite Forall_forall in Hdated.
      destruct (Hdated p Hin) as (t & Ht).
      pose proof (history_point_dated "tvl" _ Ht) as Hh. destruct t as [tv|]; auto.
      destruct Hh as (e & He). congruence. }
    split; [|split].
    + split; auto.
    + intros e E. now injection E as <-.
    + intros Hvalid. exfalso. apply Exists_exists in Hinvalid as (p & Hin & Hp).
      rewrite Forall_forall in Hvalid. destruct (Hvalid p Hin) as (tv & Htv). congruence.
Qed.

Lemma a_point_without_a_date_fails_the_trend_witness :
  fst (run (invoke (GetChainTVLTrend {| ci_chain := "Ethereum" |}))
         (ok_json (VArr undated_point))) = Throw RangeError.
Proof.
  refine (proj2 (proj1 (@a_point_without_a_date_fails_the_trend {| ci_chain := "Ethereum" |}
                          (ok_json (VArr undated_point)) 200 "OK" undated_point
                          eq_refl eq_refl _ _)) _).
  - repeat constructor; eexists; reflexivity.
  - repeat constructor; eexists; split; reflexivity.
  - right. left. reflexivity.
Defined.


(** ** Readings of the Fear and Greed index *)

Lemma digits_prefix_digits s a :
  Str.forallb Str.is_digit s = true ->
  digits_prefix 10 s (Some a) = Some (read_digits a s).
Proof.
  revert a. induction s as [|c s IH]; intros a H; [reflexivity|].
  cbn [Str.forallb] in H. apply andb_true_iff in H as [Hc Hs].
  cbn [digits_prefix read_digits]. unfold digit_value. rewrite Hc.
  assert (Hlt : (Str.byte c - 48 <? 10)%N = true).
  { unfold Str.is_digit in Hc. apply andb_true_iff in Hc as [H1 H2].
    apply N.leb_le in H1, H2. apply N.ltb_lt. lia. }
  rewrite Hlt. now rewrite IH.
Qed.

Lemma digit_not_space c : Str.is_digit c = true -> is_space c = false.
Proof. each_byte c; auto. Qed.

Lemma digit_is_ascii c : Str.is_digit c = true -> Str.is_ascii_char c = true.
Proof. each_byte c; auto. Qed.

Lemma digit_no_sign c s : Str.is_digit c = true -> strip_sign (String c s) = (false, String c s).
Proof. each_byte c; auto; discriminate. Qed.

Lemma digits_no_hex s :
  Str.forallb Str.is_digit s = true -> strip_hex_prefix s = (10%N, s).
Proof.
  destruct s as [|c [|x r]]; auto.
  - intros _. each_byte c; reflexivity.
  - cbn [Str.forallb]. intros H.
    apply andb_true_iff in H as [_ H]. apply andb_true_iff in H as [Hx _].
    revert Hx. each_byte c; try reflexivity; each_byte x; try reflexivity; discriminate.
Qed.

Lemma of_N_nonempty n : Str.of_N n <> "".
Proof.
  unfold Str.of_N, NilZero.string_of_uint. destruct (N.to_uint n); simpl; discriminate.
Qed.

(** [parseInt] reads back the decimal digits of a number. *)
Lemma parseInt_of_N n :
  (n <= 2 ^ 53)%N -> parseInt (VStr (Str.of_N n)) = Ok (Num.of_Z (Z.of_N n)).
Proof.
  intros Hsafe. cbn [parseInt]. unfold parseInt_string.
  pose proof (of_N_digits n) as Hd. pose proof (read_digits_of_N n) as Hr.
  pose proof (of_N_nonempty n) as Hne.
  destruct (Str.of_N n) as [|c s] eqn:E.
  - congruence.
  - cbn [Str.forallb] in Hd. pose proof Hd as Hd'.
    apply andb_true_iff in Hd as [Hc Hs].
    cbn [skip_spaces]. rewrite (digit_not_space _ Hc), (digit_is_ascii _ Hc).
    rewrite (digit_no_sign _ _ Hc).
    rewrite (digits_no_hex (String c s)) by exact Hd'.
    cbn [digits_prefix]. unfold digit_value. rewrite Hc.
    assert (Hlt : (Str.byte c - 48 <? 10)%N = true).
    { unfold Str.is_digit in Hc. apply andb_true_iff in Hc as [H1 H2].
      apply N.leb_le in H1, H2. apply N.ltb_lt. lia. }
    rewrite Hlt, digits_prefix_digits by exact Hs.
    cbn [read_digits] in Hr. rewrite Hc in Hr. cbn [N.mul N.add] in Hr. rewrite Hr.
    apply N.leb_le in Hsafe. now rewrite Hsafe.
Qed.

Lemma seconds_are_safe t : (Z.of_N t * 1000 <= 8640000000000000)%Z -> (t <= 2 ^ 53)%N.
Proof. intros H. assert (Z.of_N t <= 2 ^ 53)%Z by lia. lia. Qed.

Lemma of_num_seconds t :
  (Z.of_N t * 1000 <= 8640000000000000)%Z ->
  Date.of_num (Num.mul (Num.of_Z (Z.of_N t)) (Num.of_Z 1000)) = Some (Z.of_N t * 1000)%Z.
Proof.
  intros H. unfold Date.of_num, Num.of_Z. cbn [Num.mul Date.time_clip].
  rewrite <- inject_Z_mult. rewrite Qtruncate_inject_Z.
  assert (E : Qle_bool (Qabs (inject_Z (Z.of_N t * 1000))) (inject_Z 8640000000000000) = true).
  { apply Qle_bool_iff. rewrite Qabs_pos.
    - rewrite <- Zle_Qle. exact H.
    - change 0%Q with (inject_Z 0). rewrite <- Zle_Qle. lia. }
  now rewrite E.
Qed.

Lemma fear_greed_row_reading item r :
  reading_of item r -> fear_greed_row item = Ok (reading_row r).
Proof.
  intros (ps & -> & Hv & Hc & Ht & Hsafe & Hrange). unfold fear_greed_row, object.
  cbn [props_of get and_then bind]. rewrite Hv, Hc, Ht.
  unfold parseInt_, iso_of_timestamp.
  rewrite (parseInt_of_N Hsafe), (parseInt_of_N (seconds_are_safe _ Hrange)). cbn [bind].
  rewrite of_num_seconds by exact Hrange. reflexivity.
Qed.

Lemma mapM_readings items rs :
  Forall2 reading_of items rs -> mapM fear_greed_row items = Ok (List.map reading_row rs).
Proof.
  induction 1 as [|item r items rs Hr HF IH]; [reflexivity|].
  cbn [mapM List.map]. rewrite (fear_greed_row_reading Hr), IH. reflexivity.
Qed.

Lemma Forall2_firstn {A B : Type} (R : A -> B -> Prop) n l l' :
  Forall2 R l l' -> Forall2 R (firstn n l) (firstn n l').
Proof.
  intros HF. revert n. induction HF; intros [|n]; simpl; constructor; auto.
Qed.

(** X15: [get_crypto_fear_greed] on a response as alternative.me sends it, a
    list of readings whose value and time stamp are decimal strings (of an
    integer up to [2^53], of a time a [Date] can hold).  The call returns;
    the values come back as the numbers the strings write, the time stamp
    of the latest reading as its ISO text, and the history holds the first
    seven readings with the day of each. *)
Theorem fear_greed_reads_decimal_strings (net : network) (status : Z) (text : string)
    (d : value) (items : list value) (r0 : N * value * N) (rest : list (N * value * N)) :
  net O "https://api.alternative.me/fng/?limit=10" = Response status text (Some d) ->
  response_ok status = true ->
  get d "data" = Ok (VArr items) ->
  Forall2 reading_of items (r0 :: rest) ->
  run (invoke GetCryptoFearGreed) net
  = (Ok {| result :=
             VObj [("current",
                    VObj [("value", VNum (Num.of_Z (Z.of_N (fst (fst r0)))));
                          ("classification", snd (fst r0));
                          ("timestamp", VStr (Date.iso (Z.of_N (snd r0) * 1000)))]);
                   ("history", VArr (List.map reading_row (firstn 7 (r0 :: rest))));
                   ("interpretation", interpretation)];
           sourceUrls := ["https://api.alternative.me/fng/?limit=10"] |},
     ["https://api.alternative.me/fng/?limit=10"]).
Proof.
  intros Hnet Hok Hd HF. cbn [invoke]. unfold getCryptoFearGreed, getFearGreedIndex.
  rewrite single_fetch_run. unfold after_fetch.
  rewrite (@fetchJson_success _ net [] _ _ _ Hnet Hok). cbn [data url app].
  unfold getCryptoFearGreed_body, latest_reading, object.
  cbn [props_of]. rewrite Hd. cbn [and_then bind opt opt_at opt_idx nullish slice_].
  rewrite list_slice_first by lia. change (Z.to_nat 7) with 7%nat.
  cbn [map_]. rewrite (mapM_readings (Forall2_firstn 7 HF)).
  inversion HF as [|item r items' rs (ps & -> & Hv & Hc & Ht & Hsafe & Hrange) HF']; subst.
  change (idx (VArr (VObj ps :: items')) (Num.of_Z 0)) with (Ok (VObj ps)).
  cbn [and_then bind opt_prop opt_get nullish get]. rewrite Hv, Hc, Ht.
  unfold parseInt_, iso_of_timestamp.
  rewrite (parseInt_of_N Hsafe), (parseInt_of_N (seconds_are_safe _ Hrange)). cbn [bind].
  rewrite of_num_seconds by exact Hrange. reflexivity.
Qed.

Lemma fear_greed_reads_decimal_strings_witness :
  run (invoke GetCryptoFearGreed) (ok_json two_readings)
  = (Ok {| result :=
             VObj [("current",
                    VObj [("value", num 25); ("classification", VStr "Extreme Fear");
                          ("timestamp", VStr "2023-11-14T22:13:20.000Z")]);
                   ("history",
                    VArr [VObj [("value", num 25); ("classification", VStr "Extreme Fear");
                                ("date", VStr "2023-11-14")];
                          VObj [("value", num 31); ("classification", VStr "Fear");
                                ("date", VStr "2023-11-13")]]);
                   ("interpretation", interpretation)];
           sourceUrls := ["https://api.alternative.me/fng/?limit=10"] |},
     ["https://api.alternative.me/fng/?limit=10"]).
Proof.
  refine (@fear_greed_reads_decimal_strings (ok_json two_readings) 200 "OK" two_readings
            [reading "25" "Extreme Fear" "1700000000"; reading "31" "Fear" "1699913600"]
            (25%N, VStr "Extreme Fear", 1700000000%N)
            [(31%N, VStr "Fear", 1699913600%N)] eq_refl eq_refl eq_refl _).
  repeat constructor; eexists; repeat split; try reflexivity; vm_compute; discriminate.
Defined.


(** ** Percentages of missing values *)

Lemma percent_number q :
  (Qabs q < inject_Z (10 ^ 21))%Q ->
  exists s, percent (VNum (Num.Fin q)) = Ok (VStr (s ++ "%")) /\
            toFixed 2 (Num.Fin q) = Some s /\ two_decimals s = true.
Proof.
  intros Hq. apply below_large in Hq.
  unfold percent, and_then. cbn [opt nullish toFixed_ toFixed bind].
  destruct (toFixed_finite 2 q) as [s|] eqn:E.
  - exists s. cbn [modelled bind]. unfold concat. cbn [to_string bind].
    repeat split. eapply toFixed_two_decimals; eauto.
  - unfold toFixed_finite in E. discriminate.
Qed.

(** X16: the expression [x?.toFixed(2) + '%'] in [get_crypto_categories], at
    the first category of the response.  On a change that is a string
    [toFixed] is not a function, and the call throws a TypeError.  When the
    call returns, a change that is missing or [null] has become the text
    "undefined%", not N/A, and a change that is a Number below [10^21] in
    magnitude that number with two decimal places and a percent sign. *)
Theorem percent_of_a_missing_value (net : network) (status : Z) (text : string)
    (ps : list (string * value)) (rest : list value) :
  net O (COINGECKO_BASE ++ "/coins/categories")
  = Response status text (Some (VArr (VObj ps :: rest))) ->
  response_ok status = true ->
  (forall s, field "market_cap_change_24h" ps = VStr s ->
             run (invoke GetCryptoCategories) net
             = (Throw TypeError, [COINGECKO_BASE ++ "/coins/categories"])) /\
  (forall tr log,
      run (invoke GetCryptoCategories) net = (Ok tr, log) ->
      exists row rows change,
        get (result tr) "categories" = Ok (VArr (row :: rows)) /\
        get row "market_cap_change_24h" = Ok change /\
        (nullish (field "market_cap_change_24h" ps) = true ->
         change = VStr "undefined%") /\
        (forall q, field "market_cap_change_24h" ps = VNum (Num.Fin q) ->
                   (Qabs q < inject_Z (10 ^ 21))%Q ->
                   exists s, change = VStr (s ++ "%") /\
                             toFixed 2 (Num.Fin q) = Some s /\ two_decimals s = true)).
Proof.
  intros Hnet Hok. cbn [invoke]. unfold getCryptoCategories, getCategories.
  rewrite single_fetch_run. unfold after_fetch.
  rewrite (@fetchJson_success _ net [] _ _ _ Hnet Hok). cbn [data url app].
  unfold getCryptoCategories_body. cbn [opt nullish slice_ and_then bind].
  rewrite list_slice_first by lia. change (Z.to_nat 30) with 30%nat.
  change (firstn 30 (VObj ps :: rest)) with (VObj ps :: firstn 29 rest).
  generalize (firstn 29 rest). intros others. cbn [map_ mapM]. split.
  - intros s Hs. unfold category_row at 1, object.
    cbn [props_of get and_then bind]. rewrite Hs. reflexivity.
  - intros tr log H. injection H as H _.
    apply bind_Ok in H as (payload & H & Htr). injection Htr as <-.
    apply bind_Ok in H as (cats & Hc & H).
    apply and_then_Ok in Hc as (arr & Hrows & Hc). apply or_Ok in Hc.
    apply bind_Ok in Hrows as (rows' & Hrows & Harr). injection Harr as <-.
    apply bind_Ok in Hrows as (row & Hrow & Hrows).
    apply bind_Ok in Hrows as (rows & _ & Hrows). injection Hrows as <-.
    subst cats. cbn [or_else truthy] in H.
    unfold object in H. cbn [props_of get bind] in H. injection H as <-.
    unfold category_row in Hrow. inv_object Hrow.
    match goal with
    | Hp : percent (field "market_cap_change_24h" ps) = Ok ?c |- _ =>
        eexists; exists rows, c;
        split; [reflexivity|]; split; [reflexivity|]; split
    end.
    + intros Hn. destruct (field "market_cap_change_24h" ps); try discriminate;
        cbn in *; congruence.
    + intros q Hq Hb. rewrite Hq in *. destruct (@percent_number q Hb) as (s & Hs & Ht & Hd).
      exists s. repeat split; auto. congruence.
Qed.

Lemma percent_of_a_missing_value_witness :
  run (invoke GetCryptoCategories) (ok_json change_as_text)
  = (Throw TypeError, ["https://api.coingecko.com/api/v3/coins/categories"]).
Proof.
  exact (proj1 (@percent_of_a_missing_value (ok_json change_as_text) 200%Z "OK"
                  [("id", VStr "layer-1"); ("market_cap_change_24h", VStr "1.5")] []
                  eq_refl eq_refl) "1.5" eq_refl).
Defined.


(** ** The entry of a compared protocol *)

Lemma thirty_back (points : list value) :
  idx (VArr points)
    (Num.max (Num.of_Z 0) (Num.sub (Num.of_Z (Z.of_nat (List.length points))) (Num.of_Z 30)))
  = Ok (nth (List.length points - 30) points VUndef).
Proof.
  set (n := Z.of_nat (List.length points)).
  assert (E : Num.as_integer (Num.max (Num.of_Z 0) (Num.sub (Num.of_Z n) (Num.of_Z 30)))
              = Some (Z.max 0 (n - 30))).
  { pose proof (as_integer_sub n 30) as Hs.
    unfold Num.sub, Num.of_Z in *. cbn [Num.neg Num.add] in *.
    unfold Num.max, Num.ge.
    destruct (Qle_bool (inject_Z n + - inject_Z 30) (inject_Z 0)) eqn:Hle.
    - apply Qle_bool_iff in Hle.
      rewrite <- inject_Z_opp, <- inject_Z_plus, <- Zle_Qle in Hle.
      fold (Num.of_Z 0). rewrite as_integer_of_Z. f_equal. lia.
    - rewrite Hs. f_equal.
      assert (~ (inject_Z n + - inject_Z 30 <= inject_Z 0)%Q).
      { intros H. apply Qle_bool_iff in H. congruence. }
      rewrite <- inject_Z_opp, <- inject_Z_plus, <- Zle_Qle in H. lia. }
  cbn [idx]. rewrite E.
  destruct (Z.ltb_spec (Z.max 0 (n - 30)) 0); [lia|].
  do 2 f_equal. unfold n. lia.
Qed.

(** X17: what an entry of [compare_defi_protocols] compares.  [current_tvl]
    is the [totalLiquidityUSD] of the latest point of [tvl], [tvl_30d_ago]
    that of the point thirty places before the end, or of the first point
    when there are fewer than thirty (the first point of the thirty-point
    history of [get_defi_protocol_detail]), each 0 when missing; [chains]
    is the number of chains. *)
Theorem compared_entry_reads_the_window (d : value) (points : list value) (e : value) :
  get d "tvl" = Ok (VArr points) ->
  comparison_entry d = Ok e ->
  exists cur ago,
    opt_get (latest points) "totalLiquidityUSD" = Ok cur /\
    opt_get (nth (List.length points - 30) points VUndef) "totalLiquidityUSD" = Ok ago /\
    get e "current_tvl" = Ok (or_else cur (num 0)) /\
    get e "tvl_30d_ago" = Ok (or_else ago (num 0)) /\
    (forall chains, get d "chains" = Ok (VArr chains) ->
                    get e "chains" = Ok (VNum (Num.of_nat (List.length chains)))).
Proof.
  unfold comparison_entry. intros Ht H. inv_object H.
  repeat match goal with
         | Hx : (_ >>= or_ _) = Ok _ |- _ =>
             let x := fresh "x" in let Hy := fresh "Hy" in
             apply and_then_Ok in Hx as (x & Hy & Hx); apply or_Ok in Hx
         end.
  match goal with
  | Hc : latest_liquidity d = Ok ?cur, Ha : liquidity_30_ago d = Ok ?ago,
    Hn : (get d "chains" >>= opt_prop "length") = Ok ?n |- _ =>
      unfold latest_liquidity in Hc; unfold liquidity_30_ago in Ha;
      rewrite Ht in Hc, Ha; cbn [and_then bind opt nullish] in Hc, Ha;
      pose proof (last_index points) as Hl;
      apply and_then_Ok in Hl as (i & Hi & Hl);
      rewrite Hi in Hc; cbn [bind] in Hc; rewrite Hl in Hc; cbn [and_then bind] in Hc;
      change (get (VArr points) "length" >>= fun n => js_sub n (num 30))
        with (Ok (Num.sub (Num.of_Z (Z.of_nat (List.length points))) (Num.of_Z 30))) in Ha;
      cbn [bind] in Ha; rewrite thirty_back in Ha; cbn [and_then bind] in Ha;
      exists cur, ago; subst;
      repeat split; auto;
      intros chains Hch; rewrite Hch in Hn; cbn [and_then bind opt_prop opt_get nullish get] in Hn;
      injection Hn as <-; cbn [get field lookup String.eqb]
  end.
  simpl. now rewrite of_nat_or_zero.
Qed.

Lemma compared_entry_reads_the_window_witness :
  exists cur ago,
    Ok (num 15) = Ok cur /\
    Ok (num 10) = Ok ago /\
    Ok (num 15) = Ok (or_else cur (num 0)) /\
    Ok (num 10) = Ok (or_else ago (num 0)) /\
    (forall chains, get aave_detail "chains" = Ok (VArr chains) ->
                    Ok (num 0) = Ok (VNum (Num.of_nat (List.length chains)))).
Proof.
  exact (@compared_entry_reads_the_window aave_detail
           [VObj [("date", num 1700000000); ("totalLiquidityUSD", num 10)];
            VObj [("date", num 1700086400); ("totalLiquidityUSD", num 15)]]
           (VObj [("name", VStr "Aave"); ("symbol", VUndef); ("category", VUndef);
                  ("chains", num 0); ("current_tvl", num 15); ("tvl_30d_ago", num 10)])
           eq_refl eq_refl).
Defined.

(** ** Failures of a comparison stay with their protocol *)















(** The limit of C4: a failure of a request stays with its protocol, a
    figure the change cannot be computed from does not.  The change is
    computed when all the requests are done and outside their [try]
    blocks: a [totalLiquidityUSD] that is an object with a property
    [toString] makes the comparison throw, and the call fails as a
    whole. *)
Example a_figure_that_is_no_number :
  run (compareDefiProtocols {| cmp_protocols := ["aave"; "lido"] |})
    (fun _ u =>
       if u =? protocol_url "aave" then
         Response 200 "OK"
           (Some (VObj [("name", VStr "Aave");
                        ("tvl", VArr [VObj [("totalLiquidityUSD",
                                             VObj [("toString", num 0)])]])]))
       else protocol_response "Lido" "LDO" ["Ethereum"] 100 200)
  = (Throw TypeError, [protocol_url "aave"; protocol_url "lido"]).
Proof. reflexivity. Qed.

(** ** The tool selection prompt *)

Lemma GetSubstitution_plain (matched before after d : string) :
  has_dollar_pattern d = false -> GetSubstitution matched before after d = d.
Proof.
  induction d as [|c t IH]; [reflexivity|].
  cbn [has_dollar_pattern GetSubstitution]. intros H.
  apply orb_false_iff in H. destruct H as [Hc Ht].
  destruct (Ascii.eqb c "$") eqn:Ec.
  - apply Ascii.eqb_eq in Ec. subst c. destruct t as [|k r]; [reflexivity|].
    cbn [andb] in Hc. unfold special in Hc.
    destruct (Ascii.eqb k "$"); [discriminate|].
    destruct (Ascii.eqb k "&"); [discriminate|].
    destruct (Ascii.eqb k "`"); [discriminate|].
    destruct (Ascii.eqb k "'"); [discriminate|].
    now rewrite (IH Ht).
  - now rewrite (IH Ht).
Qed.

Lemma GetSubstitution_no_dollar (matched before after d r : string) :
  no_dollar d = true ->
  GetSubstitution matched before after (d ++ r)
  = d ++ GetSubstitution matched before after r.
Proof.
  unfold no_dollar. induction d as [|c t IH]; [reflexivity|].
  cbn [Str.forallb append GetSubstitution]. intros H.
  apply andb_true_iff in H. destruct H as [Hc Ht].
  destruct (Ascii.eqb c "$"); [discriminate|].
  now rewrite (IH Ht).
Qed.

Lemma tool_selection_placeholder :
  index_of "{tools}" TOOL_SELECTION_SYSTEM_PROMPT = Some (selection_intro, "").
Proof. reflexivity. Qed.

Lemma getToolSelectionSystemPrompt_eq (d : string) :
  getToolSelectionSystemPrompt d
  = selection_intro ++ GetSubstitution "{tools}" selection_intro "" d.
Proof.
  unfold getToolSelectionSystemPrompt, replace. rewrite tool_selection_placeholder.
  now rewrite append_empty_r.
Qed.

(** X18: [getToolSelectionSystemPrompt] puts the tool descriptions after the
    introduction of the prompt as they are only when no dollar sign in them
    is followed by [$], [&], a backquote or a quote.  [replace] reads those
    pairs as patterns: in descriptions that hold one, [$$] comes out as a
    single dollar sign, [$&] as the placeholder [{tools}] itself, a dollar
    sign and a backquote as a second copy of the introduction, and a dollar
    sign and a quote as nothing. *)
Theorem tool_descriptions_with_dollar_patterns :
  (forall d, has_dollar_pattern d = false ->
             getToolSelectionSystemPrompt d = selection_intro ++ d) /\
  (forall d1 d2,
      no_dollar d1 = true -> has_dollar_pattern d2 = false ->
      getToolSelectionSystemPrompt (d1 ++ "$$" ++ d2)
      = selection_intro ++ d1 ++ "$" ++ d2 /\
      getToolSelectionSystemPrompt (d1 ++ "$&" ++ d2)
      = selection_intro ++ d1 ++ "{tools}" ++ d2 /\
      getToolSelectionSystemPrompt (d1 ++ "$`" ++ d2)
      = selection_intro ++ d1 ++ selection_intro ++ d2 /\
      getToolSelectionSystemPrompt (d1 ++ "$'" ++ d2)
      = selection_intro ++ d1 ++ d2).
Proof.
  split.
  - intros d H. rewrite getToolSelectionSystemPrompt_eq.
    now rewrite (GetSubstitution_plain _ _ _ _ H).
  - intros d1 d2 H1 H2. rewrite !getToolSelectionSystemPrompt_eq.
    rewrite !(GetSubstitution_no_dollar _ _ _ _ _ H1).
    cbn [append GetSubstitution Ascii.eqb Bool.eqb].
    rewrite !(GetSubstitution_plain _ _ _ _ H2).
    repeat split; reflexivity.
Qed.

Lemma tool_descriptions_with_dollar_patterns_witness :
  getToolSelectionSystemPrompt "get_price: the price in $ of a coin"
  = selection_intro ++ "get_price: the price in $ of a coin" /\
  getToolSelectionSystemPrompt "get_price: $$ per coin"
  = selection_intro ++ "get_price: $ per coin" /\
  getToolSelectionSystemPrompt "get_price: $& per coin"
  = selection_intro ++ "get_price: {tools} per coin".
Proof.
  split; [|split].
  - exact (proj1 tool_descriptions_with_dollar_patterns
             "get_price: the price in $ of a coin" eq_refl).
  - exact (proj1 (proj2 tool_descriptions_with_dollar_patterns
                    "get_price: " " per coin" eq_refl eq_refl)).
  - exact (proj1 (proj2 (proj2 tool_descriptions_with_dollar_patterns
                           "get_price: " " per coin" eq_refl eq_refl))).
Defined.
